(** * Reconciliation logic of the ManageEngine Ansible modules

    A shallow embedding of the decision logic of
    [plugins/modules/endpoint_central_patch_config.py] and
    [plugins/modules/service_desk_plus_request.py]:
    the Python values the modules read from the remote API are JSON values,
    Python exceptions and [SystemExit] are an explicit result type, and the
    HTTP calls made through [requests] are recorded in a trace. *)

From Stdlib Require Import String Ascii List ZArith Bool Lia Permutation.
Import ListNotations.
Local Open Scope string_scope.
Local Open Scope Z_scope.

(** ** Python values decoded from JSON *)

(** What [json.loads] returns.  A [dict] is kept as its item list, looked up
    from the left.  Numbers are the integers; a number with a fraction or an
    exponent does not occur in the model. *)
#[local] Unset Elimination Schemes.
Inductive json : Type :=
| JNull
| JBool (b : bool)
| JNum (z : Z)
| JStr (s : string)
| JArr (l : list json)
| JObj (items : list (string * json)).
#[local] Set Elimination Schemes.

(** The exceptions the modules can meet.  [HTTPFailure] is the plain
    [Exception] raised by the transports on an unexpected status code. *)
Inductive exn : Type :=
| KeyError (key : string)
| IndexError
| TypeError
| ValueError
| AttributeError
| JSONDecodeError
| StopIteration
| HTTPFailure (status_code : Z).

(** The [msg] field of a module result: a fixed text, the API response, or
    a text ending in the formatted exception. *)
Inductive message : Type :=
| MsgText (s : string)
| MsgJson (j : json)
| MsgExn (prefix : string) (e : exn).

(** The three-field result handed back to Ansible. *)
Record outcome : Type := mkOutcome {
  changed : bool;
  failed : bool;
  msg : message
}.

(** Result of evaluating Python code: a value, a raised [Exception], or the
    [SystemExit] raised by [exit_json] / [fail_json] (which
    [except Exception] does not catch). *)
Inductive res (A : Type) : Type :=
| Ret (a : A)
| Raise (e : exn)
| SysExit (o : outcome).
Arguments Ret {A} a.
Arguments Raise {A} e.
Arguments SysExit {A} o.

Definition rbind {A B} (r : res A) (k : A -> res B) : res B :=
  match r with
  | Ret a => k a
  | Raise e => Raise e
  | SysExit o => SysExit o
  end.

Declare Scope res_scope.
Delimit Scope res_scope with res.
Notation "x <- r ;; k" := (rbind r (fun x => k))
  (at level 61, r at next level, right associativity) : res_scope.

(** [try: body  except Exception as e: handler e] *)
Definition try_except {A} (body : res A) (handler : exn -> res A) : res A :=
  match body with
  | Raise e => handler e
  | other => other
  end.

(** [AnsibleModule.fail_json]: reports the result with [failed] forced to
    true and leaves the process.  A call without [changed] is reported by
    Ansible as unchanged, which is how callers pass it here. *)
Definition fail_json {A} (m : message) (chg : bool) : res A :=
  SysExit (mkOutcome chg true m).

(** [AnsibleModule.exit_json( **result )] *)
Definition exit_json {A} (result : outcome) : res A := SysExit result.

(** ** Strings *)

(** A Python [str] is kept as its UTF-8 encoding, one [ascii] per byte, so
    that a literal of this file is the [str] it shows.  Equality, prefix
    and substring tests agree on the bytes and on the code points; what
    Python decides by code point (white space, digits, iteration) is
    decided here on the decoded code points. *)

Definition byte (c : ascii) : Z := Z.of_nat (nat_of_ascii c).

(** The code points of a string in order, each with the bytes that encode
    it.  [cp] and [bytes] hold the sequence being read, [more] the number
    of continuation bytes it still needs. *)
Fixpoint code_points_from (cp : Z) (bytes : string) (more : nat)
  (s : string) : list (Z * string) :=
  match s with
  | EmptyString =>
      match bytes with
      | EmptyString => []
      | _ => [(cp, bytes)]
      end
  | String c rest =>
      let b := byte c in
      match more with
      | S k =>
          let cp' := cp * 64 + b mod 64 in
          let bytes' := bytes ++ String c EmptyString in
          match k with
          | O => (cp', bytes') :: code_points_from 0 EmptyString 0 rest
          | S _ => code_points_from cp' bytes' k rest
          end
      | O =>
          if b <? 192 then
            (b, String c EmptyString) :: code_points_from 0 EmptyString 0 rest
          else if b <? 224 then
            code_points_from (b mod 32) (String c EmptyString) 1 rest
          else if b <? 240 then
            code_points_from (b mod 16) (String c EmptyString) 2 rest
          else code_points_from (b mod 8) (String c EmptyString) 3 rest
      end
  end.

Definition code_points (s : string) : list (Z * string) :=
  code_points_from 0 EmptyString 0 s.

Definition between (lo cp hi : Z) : bool := (lo <=? cp) && (cp <=? hi).

(** [str.isspace] of one character, as [str.split()] uses it: tab to
    carriage return, the separators 28..31, the space, and beyond ASCII
    U+0085, U+00A0, U+1680, U+2000..U+200A, U+2028, U+2029, U+202F, U+205F
    and U+3000. *)
Definition is_space (cp : Z) : bool :=
  between 9 cp 13 || between 28 cp 32
  || (cp =? 133) || (cp =? 160) || (cp =? 5760)
  || between 8192 cp 8202 || (cp =? 8232) || (cp =? 8233)
  || (cp =? 8239) || (cp =? 8287) || (cp =? 12288).

(** [s.split()]: the maximal runs of characters that are not white space.
    [cur] is the run being read. *)
Fixpoint split_from (cur : string) (l : list (Z * string)) : list string :=
  match l with
  | [] => match cur with EmptyString => [] | _ => [cur] end
  | (cp, bytes) :: rest =>
      if is_space cp then
        match cur with
        | EmptyString => split_from EmptyString rest
        | _ => cur :: split_from EmptyString rest
        end
      else split_from (cur ++ bytes) rest
  end.

Definition split (s : string) : list string :=
  split_from EmptyString (code_points s).

Definition str_mem (s : string) (l : list string) : bool :=
  existsb (String.eqb s) l.

(** [set(a).issubset(set(b))] on lists of strings. *)
Definition issubset (a b : list string) : bool :=
  forallb (fun tok => str_mem tok b) a.

(** [s.startswith(p)] *)
Fixpoint startswith (s p : string) : bool :=
  match p, s with
  | EmptyString, _ => true
  | String a p', String b s' => Ascii.eqb a b && startswith s' p'
  | String _ _, EmptyString => false
  end.

(** [needle in hay] for two strings. *)
Fixpoint contains (hay needle : string) : bool :=
  startswith hay needle ||
  match hay with
  | EmptyString => false
  | String _ rest => contains rest needle
  end.

(** ** Python operations on decoded values *)

Fixpoint assoc (k : string) (items : list (string * json)) : option json :=
  match items with
  | [] => None
  | (k', v) :: rest => if String.eqb k k' then Some v else assoc k rest
  end.

(** [v[key]] with a string key. *)
Definition getitem (v : json) (key : string) : res json :=
  match v with
  | JObj items =>
      match assoc key items with
      | Some x => Ret x
      | None => Raise (KeyError key)
      end
  | _ => Raise TypeError
  end.

(** [v[0]] *)
Definition getitem0 (v : json) : res json :=
  match v with
  | JArr (x :: _) => Ret x
  | JArr [] => Raise IndexError
  | JStr s =>
      match code_points s with
      | (_, first) :: _ => Ret (JStr first)
      | [] => Raise IndexError
      end
  | JObj _ => Raise (KeyError "0")
  | _ => Raise TypeError
  end.

(** [bool(v)] *)
Definition truthy (v : json) : bool :=
  match v with
  | JNull => false
  | JBool b => b
  | JNum z => negb (z =? 0)
  | JStr s => negb (String.eqb s EmptyString)
  | JArr l => match l with [] => false | _ => true end
  | JObj items => match items with [] => false | _ => true end
  end.

(** [v == s] for a string [s]. *)
Definition eq_str (v : json) (s : string) : bool :=
  match v with
  | JStr t => String.eqb t s
  | _ => false
  end.

(** [v == n] for an integer [n]; [True == 1] and [False == 0] hold in
    Python. *)
Definition eq_int (v : json) (n : Z) : bool :=
  match v with
  | JNum z => z =? n
  | JBool b => (if b then 1 else 0) =? n
  | _ => false
  end.

(** [v in hosts] for a list of strings. *)
Definition in_strs (v : json) (l : list string) : bool :=
  existsb (eq_str v) l.

(** [iter(v)]: the elements a [for] loop or a comprehension visits. *)
Definition chars (s : string) : list json :=
  map (fun character => JStr (snd character)) (code_points s).

Definition iter (v : json) : res (list json) :=
  match v with
  | JArr l => Ret l
  | JObj items => Ret (map (fun kv => JStr (fst kv)) items)
  | JStr s => Ret (chars s)
  | _ => Raise TypeError
  end.

(** [s in v] for a string [s]: substring of a string, member of a list, key
    of a dict. *)
Definition str_in (s : string) (v : json) : res bool :=
  match v with
  | JStr hay => Ret (contains hay s)
  | JArr l => Ret (existsb (fun x => eq_str x s) l)
  | JObj items => Ret (existsb (fun kv => String.eqb (fst kv) s) items)
  | _ => Raise TypeError
  end.

(** [v.startswith(p)] and [v.split()]: methods of [str] only. *)
Definition startswith_ (v : json) (p : string) : res bool :=
  match v with
  | JStr s => Ret (startswith s p)
  | _ => Raise AttributeError
  end.

Definition split_ (v : json) : res (list string) :=
  match v with
  | JStr s => Ret (split s)
  | _ => Raise AttributeError
  end.

(** The code points with decimal value 0 (Unicode 14.0, the database of
    CPython 3.11): each opens a run of ten decimal digits. *)
Definition decimal_zeros : list Z :=
  [48; 1632; 1776; 1984; 2406; 2534; 2662; 2790; 2918; 3046; 3174; 3302;
   3430; 3558; 3664; 3792; 3872; 4160; 4240; 6112; 6160; 6470; 6608; 6784;
   6800; 6992; 7088; 7232; 7248; 42528; 43216; 43264; 43472; 43504; 43600;
   44016; 65296; 66720; 68912; 69734; 69872; 69942; 70096; 70384; 70736;
   70864; 71248; 71360; 71472; 71904; 72016; 72784; 73040; 73120; 92768;
   92864; 93008; 120782; 120792; 120802; 120812; 120822; 123200; 123632;
   125264; 130032].

(** [Py_UNICODE_TODECIMAL] *)
Definition decimal (cp : Z) : option Z :=
  option_map (fun zero => cp - zero)
    (find (fun zero => between zero cp (zero + 9)) decimal_zeros).

(** What [int] makes of a character before it parses: an ASCII character
    stays, any other white space becomes a space, any other decimal digit
    its ASCII digit, anything else a question mark. *)
Definition to_ascii (cp : Z) : Z :=
  if cp <? 127 then cp
  else if is_space cp then 32
  else match decimal cp with
       | Some d => 48 + d
       | None => 63
       end.

(** The white space [int] skips around the number: tab to carriage return
    and the space, not the separators 28..31. *)
Definition is_c_space (c : Z) : bool := between 9 c 13 || (c =? 32).

(** The digits of [int(s)]: decimal digits, single underscores between
    digits, and no more digits than [sys.get_int_max_str_digits()] allows
    by default. *)
Definition max_str_digits : Z := 4300.

Fixpoint digits (acc : Z) (count : Z) (after_digit : bool) (l : list Z)
  : option Z :=
  match l with
  | [] =>
      if after_digit && (count <=? max_str_digits) then Some acc else None
  | c :: rest =>
      if between 48 c 57 then
        digits (10 * acc + (c - 48)) (count + 1) true rest
      else if c =? 95 then
        if after_digit then digits acc count false rest else None
      else None
  end.

Fixpoint lstrip (l : list Z) : list Z :=
  match l with
  | c :: rest => if is_c_space c then lstrip rest else l
  | [] => []
  end.

Definition strip (l : list Z) : list Z :=
  rev (lstrip (rev (lstrip l))).

(** [int(s)] for a string: surrounding white space is dropped, one sign is
    allowed, then the digits. *)
Definition int_of_string (s : string) : option Z :=
  match strip (map (fun character => to_ascii (fst character))
                   (code_points s)) with
  | c :: rest =>
      if c =? 45 then option_map Z.opp (digits 0 0 false rest)
      else if c =? 43 then digits 0 0 false rest
      else digits 0 0 false (c :: rest)
  | [] => None
  end.

(** [int(v)] *)
Definition int (v : json) : res Z :=
  match v with
  | JNum z => Ret z
  | JBool b => Ret (if b then 1 else 0)
  | JStr s =>
      match int_of_string s with
      | Some z => Ret z
      | None => Raise ValueError
      end
  | _ => Raise TypeError
  end.

(** ** Comprehensions and generators *)

Section Comprehensions.
Context {A : Type}.
Local Open Scope res_scope.

(** [[x for x in l if cond(x)]] *)
Fixpoint filterM (cond : A -> res bool) (l : list A) : res (list A) :=
  match l with
  | [] => Ret []
  | x :: rest =>
      b <- cond x ;;
      tl <- filterM cond rest ;;
      Ret (if b then x :: tl else tl)
  end.

(** [[f(x) for x in l]] *)
Fixpoint mapM {B} (f : A -> res B) (l : list A) : res (list B) :=
  match l with
  | [] => Ret []
  | x :: rest =>
      y <- f x ;;
      tl <- mapM f rest ;;
      Ret (y :: tl)
  end.

(** [any(cond(x) for x in l)]: stops at the first true element. *)
Fixpoint anyM (cond : A -> res bool) (l : list A) : res bool :=
  match l with
  | [] => Ret false
  | x :: rest =>
      b <- cond x ;;
      if b then Ret true else anyM cond rest
  end.

(** [all(cond(x) for x in l)]: stops at the first false element. *)
Fixpoint allM (cond : A -> res bool) (l : list A) : res bool :=
  match l with
  | [] => Ret true
  | x :: rest =>
      b <- cond x ;;
      if b then allM cond rest else Ret false
  end.

(** [next((x for x in l if cond(x)), None)] *)
Fixpoint nextM (cond : A -> res bool) (l : list A) : res (option A) :=
  match l with
  | [] => Ret None
  | x :: rest =>
      b <- cond x ;;
      if b then Ret (Some x) else nextM cond rest
  end.
End Comprehensions.

(** [a and b] with [b] evaluated only when [a] is true. *)
Definition andM (a : res bool) (b : res bool) : res bool :=
  rbind a (fun x => if x then b else Ret false).
Infix "&&&" := andM (at level 40, left associativity) : res_scope.

(** ** The transport and the call trace *)

Inductive http_method : Type := GET | POST | DELETE.

(** An f-string kept as its segments: literal text and formatted values. *)
Inductive piece : Type :=
| Lit (s : string)
| Fmt (v : json).

Record http_request : Type := mkRequest {
  method : http_method;
  uri : list piece;
  headers : list (string * string);
  payload : option json
}.

(** [text] is the body as [json.loads] decodes it, [None] when it is not
    JSON. *)
Record http_response : Type := mkResponse {
  status_code : Z;
  text : option json
}.

Definition json_loads (r : http_response) : res json :=
  match text r with
  | Some j => Ret j
  | None => Raise JSONDecodeError
  end.

(** The remote API seen from one run.  Every endpoint is called at most
    once per run, so a function of the request covers any remote
    behaviour. *)
Definition transport : Type := http_request -> http_response.

Definition trace : Type := list http_request.

(** Code that makes HTTP calls: the calls made so far are threaded
    through, also when the code raises or exits. *)
Definition io (A : Type) : Type := trace -> res A * trace.

Definition lift {A} (r : res A) : io A := fun tr => (r, tr).

Definition iobind {A B} (m : io A) (k : A -> io B) : io B :=
  fun tr =>
    match m tr with
    | (Ret a, tr') => k a tr'
    | (Raise e, tr') => (Raise e, tr')
    | (SysExit o, tr') => (SysExit o, tr')
    end.

Declare Scope io_scope.
Delimit Scope io_scope with io.
Notation "x <~ m ;; k" := (iobind m (fun x => k))
  (at level 61, m at next level, right associativity) : io_scope.

(** [try: body  except Exception as e: handler e] around calls. *)
Definition io_try_except {A} (body : io A) (handler : exn -> io A) : io A :=
  fun tr =>
    match body tr with
    | (Raise e, tr') => handler e tr'
    | other => other
    end.

(** [try: body  except StopIteration: handler] *)
Definition io_except_StopIteration {A} (body : io A) (handler : io A) : io A :=
  fun tr =>
    match body tr with
    | (Raise StopIteration, tr') => handler tr'
    | other => other
    end.

(** [requests.get], [requests.post], [requests.delete] *)
Definition send (remote : transport) (rq : http_request) : io http_response :=
  fun tr => (Ret (remote rq), (tr ++ [rq])%list).

(** How a run of a module ends. *)
Inductive exit_status : Type :=
| Exited (o : outcome)
| Traceback (e : exn)
| Returned.

Definition execute (m : io unit) : exit_status * trace :=
  match m [] with
  | (SysExit o, tr) => (Exited o, tr)
  | (Raise e, tr) => (Traceback e, tr)
  | (Ret _, tr) => (Returned, tr)
  end.

(** A call that changes remote state. *)
Definition mutating (rq : http_request) : bool :=
  match method rq with
  | GET => false
  | POST | DELETE => true
  end.

Definition strs (l : list string) : json := JArr (map JStr l).

(** ** endpoint_central_patch_config.py *)

Module EndpointCentral.
Section WithRemote.
Variable remote : transport.

(** The connection parameters every call receives. *)
Record conn : Type := mkConn {
  url : string;
  port : Z;
  api_key : string
}.

Definition auth_headers (c : conn) : list (string * string) :=
  [("Authorization", api_key c); ("Content-Type", "application/json")].

(** The request [get_api_objects] sends. *)
Definition objects_request (c : conn) (object_name filter : string)
  : http_request :=
  mkRequest GET
    [Lit (url c); Lit ":"; Fmt (JNum (port c)); Lit "/api/1.4/patch/";
     Lit object_name; Lit "?=&page=1&pagelimit=1000"; Lit filter]
    (auth_headers c) None.

(** One page of a collection, unwrapped from its envelope; success is
    status 200. *)
Definition get_api_objects (c : conn) (object_name : string)
  (filter : string) : io json :=
  (response <~ send remote (objects_request c object_name filter) ;;
   if status_code response =? 200 then
     lift (body <- json_loads response ;;
           envelope <- getitem body "message_response" ;;
           getitem envelope object_name)%res
   else lift (Raise (HTTPFailure (status_code response))))%io.

(** The request [api_post] sends. *)
Definition post_request (c : conn) (endpoint : string) (data : json)
  : http_request :=
  mkRequest POST
    [Lit (url c); Lit ":"; Fmt (JNum (port c)); Lit "/api/1.3/";
     Lit endpoint]
    (auth_headers c) (Some data).

Definition api_post (c : conn) (endpoint : string) (data : json) : io json :=
  (response <~ send remote (post_request c endpoint data) ;;
   if status_code response =? 200 then lift (json_loads response)
   else lift (Raise (HTTPFailure (status_code response))))%io.

(** The two comprehensions of [get_resource_ids_for_patching]. *)
Definition resource_ids_of (all_systems : json) (hosts : list string)
  : res (list Z) :=
  (systems <- iter all_systems ;;
   selected_hosts <-
     filterM (fun x => name <- getitem x "resource_name" ;;
                       Ret (in_strs name hosts)) systems ;;
   mapM (fun x => id <- getitem x "resource_id" ;; int id) selected_hosts)%res.

Definition get_resource_ids_for_patching (c : conn) (hosts : list string)
  : io (list Z) :=
  (all_systems <~ get_api_objects c "allsystems" "" ;;
   lift (resource_ids_of all_systems hosts))%io.

(** The condition of the [selected_patches] comprehension. *)
Definition patch_selected (patch_types : list string) (x : json)
  : res bool :=
  (anyM (fun utype =>
           description <- getitem x "patch_description" ;;
           tokens <- split_ description ;;
           Ret (issubset (split utype) tokens)) patch_types
   &&& (missing <- getitem x "missing" ;;
        n <- int missing ;;
        Ret (n >? 0)))%res.

Definition selected_patches (all_patches : json) (patch_types : list string)
  : res (list json) :=
  (patches <- iter all_patches ;;
   filterM (patch_selected patch_types) patches)%res.

(** [next(x for x in policies if x["template_name"] == policy_name)
    ["template_id"]] *)
Definition policy_id_of (policies : json) (policy_name : string)
  : res json :=
  (entries <- iter policies ;;
   found <- nextM (fun x => name <- getitem x "template_name" ;;
                            Ret (eq_str name policy_name)) entries ;;
   match found with
   | Some x => getitem x "template_id"
   | None => Raise StopIteration
   end)%res.

(** [patch_hosts]: [fail_json] is [module.fail_json], which does not
    return, so nothing is posted after the handler of [StopIteration]. *)
Definition patch_hosts (c : conn) (config_name config_desc policy_name : string)
  (hosts patch_types : list string) : io json :=
  (resource_ids <~ get_resource_ids_for_patching c hosts ;;
   all_patches <~ get_api_objects c "allpatches" "" ;;
   selected <~ lift (selected_patches all_patches patch_types) ;;
   patch_ids <~ lift (mapM (fun x => getitem x "patch_id") selected) ;;
   data <~ io_except_StopIteration
     (policies <~ get_api_objects c "deploymentpolicies" "" ;;
      policy_id <~ lift (policy_id_of policies policy_name) ;;
      lift (Ret (JObj [("PatchIDs", JArr patch_ids);
                       ("ResourceIDs", JArr (map JNum resource_ids));
                       ("ConfigName", JStr config_name);
                       ("ConfigDescription", JStr config_desc);
                       ("actionToPerform", JStr "Deploy");
                       ("DeploymentPolicyTemplateID", policy_id)])))
     (lift (fail_json (MsgText "failed to find deployment policy") false)) ;;
   api_post c "patch/installpatch" data)%io.

(** The condition inside [any] in [check_if_config_exists]. *)
Definition config_matches (config_name : string) (hosts : list string)
  (config : json) : res bool :=
  ((name <- getitem config "collection_name" ;; startswith_ name config_name)
   &&& (deleted <- getitem config "is_collection_deleted" ;;
        Ret (negb (truthy deleted)))
   &&& (count <- getitem config "total_target_count" ;;
        Ret (eq_int count (Z.of_nat (length hosts))))
   &&& (label <- getitem config "status_label" ;;
        Ret (negb (eq_str label "dc.db.config.status.executed"))))%res.

Definition check_if_config_exists (config_name : string) (configs : json)
  (hosts : list string) : res bool :=
  try_except
    (entries <- iter configs ;;
     anyM (config_matches config_name hosts) entries)%res
    (fun e => fail_json (MsgExn "Failed to check existing configs " e) false).

(** [module.params] after argument validation. *)
Record params : Type := mkParams {
  p_api_key : string;
  manage_engine_url : string;
  manage_engine_port : Z;
  name : string;
  desc : string;
  deployment_policy_name : string;
  hosts : list string;
  patch_types : list string;
  state : string
}.

Definition connection (p : params) : conn :=
  let u := manage_engine_url p in
  mkConn (if contains u "http" then u else "https://" ++ u)
         (manage_engine_port p) (p_api_key p).

(** Lines 339-349: the result for the response to the create call. *)
Definition created (resp : json) : res outcome :=
  (let result := mkOutcome false false (MsgJson resp) in
   status <- getitem resp "status" ;;
   if eq_str status "error" then
     let result := mkOutcome false (failed result) (msg result) in
     error_code <- getitem resp "error_code" ;;
     if eq_str error_code "3010" then
       Ret (mkOutcome (changed result) false (msg result))
     else
       fail_json (msg result) (changed result)
   else Ret (mkOutcome true false (msg result)))%res.

(** [run_module] from the [try] on.  [supports_check_mode] is false, so
    the constructor of [AnsibleModule] has already left a check-mode run
    and [module.check_mode] is false at line 312.  [result] is the dict the
    source updates in place; an exception discards it for the result of the
    handler. *)
Definition run_module (p : params) : io unit :=
  (let c := connection p in
   result <~ io_try_except
     (configs <~ get_api_objects c "viewconfig" "" ;;
      config_exists <~
        lift (check_if_config_exists (name p) configs (hosts p)) ;;
      if String.eqb (state p) "present" then
        if config_exists then
          lift (Ret (mkOutcome false false (MsgText "config already exists")))
        else
          resp <~ patch_hosts c (name p) (desc p) (deployment_policy_name p)
                    (hosts p) (patch_types p) ;;
          lift (created resp)
      else lift (Ret (mkOutcome false false (MsgText ""))))
     (fun e => lift (fail_json (MsgExn "failed to patch hosts: " e) false)) ;;
   lift (exit_json result))%io.

End WithRemote.
End EndpointCentral.

(** ** service_desk_plus_request.py *)

Module ServiceDesk.
Section WithRemote.
Variable remote : transport.

Record conn : Type := mkConn {
  url : string;
  port : Z;
  api_key : string
}.

Definition ok_status (code : Z) : bool := (code =? 200) || (code =? 201).

(** An optional module parameter as a Python value, for formatting. *)
Definition opt_strs (l : option (list string)) : json :=
  match l with
  | Some l => strs l
  | None => JNull
  end.

Definition opt_str (s : option string) : json :=
  match s with
  | Some s => JStr s
  | None => JNull
  end.

Definition base_uri (c : conn) : list piece :=
  [Lit (url c); Lit ":"; Fmt (JNum (port c)); Lit "/api/v3/"].

(** The request [get_api_objects] sends. *)
Definition objects_request (c : conn) (object_name : string)
  : http_request :=
  let headers := [("authtoken", api_key c);
                  ("Content-Type", "application/json")] in
  let params :=
    JObj [("input_data",
           JObj [("list_info", JObj [("row_count", JNum 1000);
                                     ("sort_order", JStr "desc")])])] in
  mkRequest GET (base_uri c ++ [Lit object_name])%list headers (Some params).

(** The first rows of a collection, unwrapped from the key named after
    it; success is status 200 or 201. *)
Definition get_api_objects (c : conn) (object_name : string) : io json :=
  (response <~ send remote (objects_request c object_name) ;;
   if ok_status (status_code response) then
     lift (body <- json_loads response ;; getitem body object_name)%res
   else lift (Raise (HTTPFailure (status_code response))))%io.

(** The same two comprehensions as in the patch-config module. *)
Definition resource_ids_of (all_systems : json) (hosts : list string)
  : res (list Z) :=
  (systems <- iter all_systems ;;
   selected_hosts <-
     filterM (fun x => name <- getitem x "resource_name" ;;
                       Ret (in_strs name hosts)) systems ;;
   mapM (fun x => id <- getitem x "resource_id" ;; int id) selected_hosts)%res.

Definition get_resource_ids_for_patching (c : conn) (hosts : list string)
  : io (list Z) :=
  (all_systems <~ get_api_objects c "allsystems" ;;
   lift (resource_ids_of all_systems hosts))%io.

Definition user_search (username : string) : json :=
  JObj [("list_info",
         JObj [("start_index", JNum 1); ("sort_field", JStr "name");
               ("sort_order", JStr "asc"); ("row_count", JNum 100);
               ("get_total_count", JBool true);
               ("search_fields", JObj [("name", JStr username)])]);
        ("fields_required",
         strs ["name"; "is_technician"; "citype"; "login_name"; "email_id";
               "department"; "phone"; "mobile"; "jobtitle"; "project_roles";
               "employee_id"; "first_name"; "middle_name"; "last_name";
               "is_vipuser"; "ciid"])].

Definition users_request (c : conn) (username : string) : http_request :=
  mkRequest GET (base_uri c ++ [Lit "users"])%list
            [("authtoken", api_key c)]
            (Some (JObj [("input_data", user_search username)])).

Definition get_user_by_username (c : conn) (username : string) : io json :=
  io_try_except
    (response <~ send remote (users_request c username) ;;
     if ok_status (status_code response) then
       lift (response_obj <- json_loads response ;;
             users <- getitem response_obj "users" ;;
             getitem0 users)%res
     else lift (Raise (HTTPFailure (status_code response))))%io
    (fun e => lift (fail_json (MsgExn "Error getting user by username: " e)
                              false)).

Definition delete_request (c : conn) (request_id : json) : http_request :=
  mkRequest DELETE
    (base_uri c ++ [Lit "requests/"; Fmt request_id;
                    Lit "/move_to_trash"])%list
    [("authtoken", api_key c)] None.

Definition delete_tms_ticket (c : conn) (request_id : json) : io json :=
  (response <~ send remote (delete_request c request_id) ;;
   if ok_status (status_code response) then lift (json_loads response)
   else lift (Raise (HTTPFailure (status_code response))))%io.

(** The description f-string of the ticket, segment by segment. *)
Definition description (policy_name : option string) (hosts : list string)
  (patch_types : option (list string)) : json :=
  JArr [JStr "[AUTO-GENERATED] Ansible has initiated ";
        opt_strs patch_types;
        JStr " updates for the following servers : ";
        strs hosts;
        JStr " ";
        if truthy (opt_str policy_name)
        then JArr [JStr "in accordance with the { "; opt_str policy_name;
                   JStr " } policy"]
        else JStr ""].

(** The POST of [create_tms_request], once the requester is resolved. *)
Definition create_request (c : conn) (request_name : string)
  (policy_name : option string) (hosts : list string)
  (patch_types : option (list string)) (requester_id : Z) : http_request :=
  let data :=
    JObj [("request",
           JObj [("subject", JStr request_name);
                 ("description", description policy_name hosts patch_types);
                 ("requester", JObj [("id", JNum requester_id);
                                     ("name", JStr "automation")]);
                 ("resolution",
                  JObj [("content",
                         JStr "The update has completed successfully")]);
                 ("status", JObj [("name", JStr "Open")])])] in
  mkRequest POST (base_uri c ++ [Lit "requests"])%list
            [("authtoken", api_key c)]
            (Some (JObj [("input_data", data)])).

Definition create_tms_request (c : conn) (request_name : string)
  (policy_name : option string) (hosts : list string)
  (patch_types : option (list string)) : io json :=
  (user <~ get_user_by_username c "sv-automation" ;;
   requester_id <~ lift (id <- getitem user "id" ;; int id)%res ;;
   response <~ send remote
     (create_request c request_name policy_name hosts patch_types
                     requester_id) ;;
   if ok_status (status_code response) then
     lift (body <- json_loads response ;; getitem body "request")%res
   else lift (Raise (HTTPFailure (status_code response))))%io.

(** [all(s in request["short_description"] for s in l)];
    iterating over [None] is a [TypeError]. *)
Definition all_in_short_description (request : json)
  (l : option (list string)) : res bool :=
  match l with
  | Some l =>
      allM (fun s => (text <- getitem request "short_description" ;;
                      str_in s text)%res) l
  | None => Raise TypeError
  end.

(** The condition of the generator in [find_request]. *)
Definition request_matches (request_name : string) (hosts : list string)
  (patch_types : option (list string)) (request : json) : res bool :=
  ((subject <- getitem request "subject" ;; startswith_ subject request_name)
   &&& (status <- getitem request "status" ;;
        status_name <- getitem status "name" ;;
        Ret (eq_str status_name "Open"))
   &&& all_in_short_description request (Some hosts)
   &&& all_in_short_description request patch_types)%res.

Definition find_request (request_name : string) (requests : json)
  (hosts : list string) (patch_types : option (list string))
  : res (option json) :=
  try_except
    (entries <- iter requests ;;
     nextM (request_matches request_name hosts patch_types) entries)%res
    (fun e => fail_json (MsgExn "Failed to find existing request " e) false).

(** [module.params] after argument validation; the two optional
    parameters are [None] when omitted. *)
Record params : Type := mkParams {
  p_api_key : string;
  service_desk_plus_url : string;
  service_desk_plus_port : Z;
  name : string;
  deployment_policy_name : option string;
  hosts : list string;
  patch_types : option (list string);
  state : string
}.

Definition connection (p : params) : conn :=
  let u := service_desk_plus_url p in
  mkConn (if contains u "http" then u else "https://" ++ u)
         (service_desk_plus_port p) (p_api_key p).

(** [if request:] on the value [find_request] returned. *)
Definition found (request : option json) : bool :=
  match request with
  | Some r => truthy r
  | None => false
  end.

(** Lines 410-420: the result for the response to the create call. *)
Definition created (resp : json) : res outcome :=
  (let result := mkOutcome false false (MsgJson resp) in
   status <- getitem resp "status" ;;
   if eq_str status "error" then
     let result := mkOutcome false (failed result) (msg result) in
     error_code <- getitem resp "error_code" ;;
     if eq_str error_code "3010" then
       Ret (mkOutcome (changed result) false (msg result))
     else
       fail_json (msg result) (changed result)
   else Ret (mkOutcome true false (msg result)))%res.

(** Lines 434-441: the result for the response to the delete call. *)
Definition deleted (resp : json) : res outcome :=
  (let result := mkOutcome false false (MsgJson resp) in
   response_status <- getitem resp "response_status" ;;
   status <- getitem response_status "status" ;;
   if eq_str status "success" then Ret (mkOutcome true false (msg result))
   else fail_json (msg result) false)%res.

(** [run_module] from the [try] on; as in the patch-config module,
    [module.check_mode] is false at line 380. *)
Definition run_module (p : params) : io unit :=
  (let c := connection p in
   result <~ io_try_except
     (requests <~ get_api_objects c "requests" ;;
      request <~ lift (find_request (name p) requests (hosts p)
                         (patch_types p)) ;;
      if String.eqb (state p) "present" then
        if found request then
          lift (Ret (mkOutcome false false
                       (MsgText "request already exists")))
        else
          resp <~ create_tms_request c (name p) (deployment_policy_name p)
                    (hosts p) (patch_types p) ;;
          lift (created resp)
      else if String.eqb (state p) "absent" then
        if negb (found request) then
          lift (Ret (mkOutcome false false
                       (MsgText "request does not exist")))
        else
          request_id <~ lift (match request with
                              | Some r => getitem r "id"
                              | None => Raise TypeError
                              end) ;;
          resp <~ delete_tms_ticket c request_id ;;
          lift (deleted resp)
      else lift (Ret (mkOutcome false false (MsgText ""))))
     (fun e => lift (fail_json (MsgExn "failed to create request: " e)
                               false)) ;;
   lift (exit_json result))%io.

End WithRemote.
End ServiceDesk.

(** * Properties *)

(** ** Strings: prefixes and substrings *)

Definition is_prefix (p s : string) : Prop := exists rest, s = p ++ rest.

Definition is_substring (needle hay : string) : Prop :=
  exists before after, hay = before ++ needle ++ after.

Lemma startswith_spec (s p : string) :
  startswith s p = true <-> is_prefix p s.
Proof.
  unfold is_prefix. revert s.
  induction p as [|a p IH]; intros s.
  - split; [intros _; now exists s | intros _; now destruct s].
  - destruct s as [|b s]; simpl.
    + split; [discriminate | intros [rest H]; discriminate].
    + rewrite andb_true_iff, IH. split.
      * intros [Hab [rest ->]]. apply Ascii.eqb_eq in Hab. subst b.
        now exists rest.
      * intros [rest H]. injection H as -> ->. split.
        -- apply Ascii.eqb_refl.
        -- now exists rest.
Qed.

Lemma contains_spec (hay needle : string) :
  contains hay needle = true <-> is_substring needle hay.
Proof.
  unfold is_substring.
  induction hay as [|c hay IH].
  - cbn [contains]. rewrite orb_false_r, startswith_spec. split.
    + intros [rest H]. exists EmptyString, rest. exact H.
    + intros [before [after H]]. destruct before; [now exists after|].
      discriminate.
  - cbn [contains]. rewrite orb_true_iff, startswith_spec, IH. split.
    + intros [[rest H] | [before [after H]]].
      * exists EmptyString, rest. exact H.
      * exists (String c before), after. simpl. now rewrite H.
    + intros [before [after H]]. destruct before as [|d before].
      * left. now exists after.
      * right. simpl in H. injection H as _ H. now exists before, after.
Qed.

Lemma str_mem_In (s : string) (l : list string) :
  str_mem s l = true <-> In s l.
Proof.
  unfold str_mem. rewrite existsb_exists. split.
  - intros [x [Hin Heq]]. apply String.eqb_eq in Heq. now subst.
  - intros Hin. exists s. split; [exact Hin | apply String.eqb_refl].
Qed.

Lemma issubset_spec (a b : list string) :
  issubset a b = true <-> (forall tok, In tok a -> In tok b).
Proof.
  unfold issubset. rewrite forallb_forall.
  split; intros H tok Hin; apply str_mem_In, H, Hin.
Qed.

(** The example of the patch selection rule: every token of the label is a
    token of the first description, in any position; the second description
    lacks three of them. *)
Example tokens_subset_example :
  issubset (split "Cumulative Update for Windows Server")
           (split "Security Cumulative Update for Windows Server 2019") = true
  /\ issubset (split "Cumulative Update for Windows Server")
              (split "Cumulative Update") = false
  /\ issubset (split "Windows Server")
              (split "Server for Windows") = true
  /\ issubset (split "Windows Server")
              (split "WindowsServer 2019") = false.
Proof. repeat split; reflexivity. Qed.

(** A string given by the bytes of its UTF-8 encoding. *)
Definition of_bytes (l : list Z) : string :=
  string_of_list_ascii (map (fun b => ascii_of_nat (Z.to_nat b)) l).

(** White space beyond ASCII separates tokens as well: with a no-break
    space (U+00A0, bytes 194 160) between its first two words, "Cumulative
    Update KB1" has three tokens; so has it with an ideographic space
    (U+3000) or the separator 28. *)
Example split_unicode_example :
  split (of_bytes [67; 117; 109; 117; 108; 97; 116; 105; 118; 101; 194; 160;
                   85; 112; 100; 97; 116; 101; 32; 75; 66; 49])
  = ["Cumulative"; "Update"; "KB1"]
  /\ split (of_bytes [97; 227; 128; 128; 98; 28; 99]) = ["a"; "b"; "c"]
  /\ split (of_bytes [194; 160; 32; 226; 128; 135]) = [].
Proof. repeat split; reflexivity. Qed.

(** [int] of a string: the separators 28..31 are not skipped, white space
    beyond ASCII is, decimal digits of other scripts count (U+0663 is the
    Arabic-Indic three, U+FF15 the full-width five), underscores stand
    between digits only. *)
Example int_of_string_example :
  int_of_string (of_bytes [28; 51]) = None
  /\ int_of_string (of_bytes [28; 49; 50]) = None
  /\ int_of_string (of_bytes [217; 163]) = Some 3
  /\ int_of_string (of_bytes [45; 217; 161; 239; 188; 149]) = Some (-15)
  /\ int_of_string (of_bytes [194; 160; 55; 226; 128; 169]) = Some 7
  /\ int_of_string " +1_000 " = Some 1000
  /\ int_of_string "1__0" = None
  /\ int_of_string "+ 5" = None
  /\ int_of_string "" = None.
Proof. repeat split; reflexivity. Qed.

(** ** Comprehensions whose condition raises nothing *)

(** The truth value of a condition that was evaluated. *)
Definition holds (r : res bool) : bool :=
  match r with
  | Ret true => true
  | _ => false
  end.

Section ComprehensionFacts.
Context {A : Type} (cond : A -> res bool).

Definition evaluates (x : A) : Prop := exists b, cond x = Ret b.

Lemma filterM_total (l : list A) :
  Forall evaluates l ->
  filterM cond l = Ret (filter (fun x => holds (cond x)) l).
Proof.
  induction 1 as [|x l [b Hx] _ IH]; simpl; [reflexivity|].
  rewrite Hx. simpl. rewrite IH. now destruct b.
Qed.

Lemma anyM_total (l : list A) :
  Forall evaluates l ->
  anyM cond l = Ret (existsb (fun x => holds (cond x)) l).
Proof.
  induction 1 as [|x l [b Hx] _ IH]; simpl; [reflexivity|].
  rewrite Hx. simpl. destruct b; [reflexivity | exact IH].
Qed.

Lemma nextM_total (l : list A) :
  Forall evaluates l ->
  nextM cond l = Ret (find (fun x => holds (cond x)) l).
Proof.
  induction 1 as [|x l [b Hx] _ IH]; simpl; [reflexivity|].
  rewrite Hx. simpl. destruct b; [reflexivity | exact IH].
Qed.

(** The generator stops at the first element that holds or raises. *)
Lemma nextM_first (pre post : list A) (x : A) :
  (forall y, In y pre -> cond y = Ret false) ->
  nextM cond (pre ++ x :: post) =
  rbind (cond x) (fun b => if b then Ret (Some x) else nextM cond post).
Proof.
  induction pre as [|y pre IH]; intros Hpre; simpl; [reflexivity|].
  rewrite (Hpre y (or_introl eq_refl)). simpl.
  apply IH. intros z Hz. apply Hpre. now right.
Qed.

Lemma nextM_none (l : list A) :
  (forall y, In y l -> cond y = Ret false) -> nextM cond l = Ret None.
Proof.
  induction l as [|y l IH]; intros Hl; simpl; [reflexivity|].
  rewrite (Hl y (or_introl eq_refl)). simpl.
  apply IH. intros z Hz. apply Hl. now right.
Qed.

Lemma nextM_some (l : list A) (x : A) :
  nextM cond l = Ret (Some x) -> In x l /\ cond x = Ret true.
Proof.
  induction l as [|y l IH]; simpl; [discriminate|].
  destruct (cond y) as [[|]| |] eqn:E; simpl; try discriminate.
  - intros H. injection H as <-. auto.
  - intros H. destruct (IH H). auto.
Qed.

(** A generator that finds nothing and does not raise saw only false
    conditions. *)
Lemma nextM_never (l : list A) :
  (forall y, In y l -> cond y <> Ret true) ->
  (exists e, nextM cond l = Raise e) \/ (exists o, nextM cond l = SysExit o)
  \/ nextM cond l = Ret None.
Proof.
  induction l as [|y l IH]; intros Hl; simpl; [auto|].
  destruct (cond y) as [[|]| |] eqn:E; simpl; eauto.
  - exfalso. now apply (Hl y (or_introl eq_refl)).
  - apply IH. intros z Hz. apply Hl. now right.
Qed.
End ComprehensionFacts.

Lemma find_first {A} (f : A -> bool) (pre post : list A) (x : A) :
  (forall y, In y pre -> f y = false) -> f x = true ->
  find f (pre ++ x :: post) = Some x.
Proof.
  induction pre as [|y pre IH]; intros Hpre Hx; simpl.
  - now rewrite Hx.
  - rewrite (Hpre y (or_introl eq_refl)). apply IH; [|exact Hx].
    intros z Hz. apply Hpre. now right.
Qed.

Module EC := EndpointCentral.
Module SD := ServiceDesk.

(** Reading fields of a remote object. *)
Definition has_field (v : json) (key : string) : bool :=
  match getitem v key with
  | Ret _ => true
  | _ => false
  end.

Definition has_str_field (v : json) (key : string) : bool :=
  match getitem v key with
  | Ret (JStr _) => true
  | _ => false
  end.

Lemma getitem_not_exit (v : json) (key : string) (o : outcome) :
  getitem v key <> SysExit o.
Proof.
  destruct v; simpl; try discriminate. destruct (assoc key items); discriminate.
Qed.

Lemma has_field_ret (v : json) (key : string) :
  has_field v key = true -> exists x, getitem v key = Ret x.
Proof.
  unfold has_field. destruct (getitem v key); try discriminate. eauto.
Qed.

Lemma has_str_field_ret (v : json) (key : string) :
  has_str_field v key = true -> exists s, getitem v key = Ret (JStr s).
Proof.
  unfold has_str_field.
  destruct (getitem v key) as [[]| |]; try discriminate. eauto.
Qed.

(** ** The patch-config existence matcher *)

(** A remote config as the API lists it: the four fields the matcher
    reads, the name being a string. *)
Definition config_wf (config : json) : bool :=
  has_str_field config "collection_name"
  && has_field config "is_collection_deleted"
  && has_field config "total_target_count"
  && has_field config "status_label".

(** "The desired one": the name starts with the desired name, the config is
    not soft-deleted, its target count is the number of requested hosts,
    and its status label is not the executed one. *)
Definition config_is_desired (config_name : string) (hosts : list string)
  (config : json) : Prop :=
  (exists cn, getitem config "collection_name" = Ret (JStr cn)
              /\ is_prefix config_name cn)
  /\ (exists d, getitem config "is_collection_deleted" = Ret d
                /\ truthy d = false)
  /\ (exists n, getitem config "total_target_count" = Ret n
                /\ eq_int n (Z.of_nat (length hosts)) = true)
  /\ (exists l, getitem config "status_label" = Ret l
                /\ eq_str l "dc.db.config.status.executed" = false).

Lemma config_matches_evaluates (config_name : string) (hosts : list string)
  (config : json) :
  config_wf config = true ->
  evaluates (EC.config_matches config_name hosts) config.
Proof.
  unfold config_wf. rewrite !andb_true_iff. intros [[[H1 H2] H3] H4].
  apply has_str_field_ret in H1 as [cn H1].
  apply has_field_ret in H2 as [d H2].
  apply has_field_ret in H3 as [n H3].
  apply has_field_ret in H4 as [l H4].
  unfold evaluates, EC.config_matches, andM.
  rewrite H1, H2, H3, H4. simpl.
  destruct (startswith cn config_name); simpl; [|eauto].
  destruct (truthy d); simpl; [eauto|].
  destruct (eq_int n _); simpl; eauto.
Qed.

Lemma config_matches_true_iff (config_name : string) (hosts : list string)
  (config : json) :
  EC.config_matches config_name hosts config = Ret true
  <-> config_is_desired config_name hosts config.
Proof.
  unfold EC.config_matches, andM, config_is_desired. split.
  - intros H.
    destruct (getitem config "collection_name") as [v| |] eqn:E1;
      simpl in H; try discriminate.
    destruct v as [| | |cn| |]; simpl in H; try discriminate.
    destruct (startswith cn config_name) eqn:P; simpl in H; try discriminate.
    destruct (getitem config "is_collection_deleted") as [d| |] eqn:E2;
      simpl in H; try discriminate.
    destruct (truthy d) eqn:T; simpl in H; try discriminate.
    destruct (getitem config "total_target_count") as [n| |] eqn:E3;
      simpl in H; try discriminate.
    destruct (eq_int n _) eqn:Q; simpl in H; try discriminate.
    destruct (getitem config "status_label") as [l| |] eqn:E4;
      simpl in H; try discriminate.
    injection H as H. apply negb_true_iff in H.
    apply startswith_spec in P.
    split; [exists cn; auto|].
    split; [exists d; auto|].
    split; [exists n; auto | exists l; auto].
  - intros [[cn [E1 P]] [[d [E2 T]] [[n [E3 Q]] [l [E4 R]]]]].
    apply startswith_spec in P.
    rewrite E1. simpl. rewrite P. simpl. rewrite E2. simpl. rewrite T. simpl.
    rewrite E3. simpl. rewrite Q. simpl. rewrite E4. simpl. now rewrite R.
Qed.

Lemma holds_true_iff (r : res bool) : holds r = true <-> r = Ret true.
Proof.
  destruct r as [[|]| |]; simpl; split; intros H;
    try reflexivity; discriminate.
Qed.

Lemma forallb_Forall_evaluates {A} (wf : A -> bool) (cond : A -> res bool)
  (l : list A) :
  (forall x, wf x = true -> evaluates cond x) ->
  forallb wf l = true -> Forall (evaluates cond) l.
Proof.
  intros Hwf H. rewrite forallb_forall in H.
  apply Forall_forall. intros x Hx. apply Hwf, H, Hx.
Qed.

(** C4. On a list of remote configs carrying the fields the matcher reads,
    [check_if_config_exists] reports a match exactly when some config is
    the desired one: name starting with the desired name, not soft-deleted,
    target count equal to the number of requested hosts, status label other
    than the executed one.  The requested hosts enter through their number
    only: another host list of the same length gets the same answer. *)
Theorem config_exists_iff_some_config_desired
  (config_name : string) (configs : list json) (hosts : list string) :
  forallb config_wf configs = true ->
  (exists b,
      EC.check_if_config_exists config_name (JArr configs) hosts = Ret b
      /\ (b = true <->
          exists config, In config configs
                         /\ config_is_desired config_name hosts config))
  /\ (forall hosts' : list string,
         length hosts' = length hosts ->
         EC.check_if_config_exists config_name (JArr configs) hosts'
         = EC.check_if_config_exists config_name (JArr configs) hosts).
Proof.
  intros Hwf. split.
  - unfold EC.check_if_config_exists. simpl.
    rewrite (anyM_total (EC.config_matches config_name hosts)).
    + simpl. eexists. split; [reflexivity|].
      rewrite existsb_exists. split.
      * intros [c [Hin Hc]]. exists c. split; [exact Hin|].
        now apply config_matches_true_iff, holds_true_iff.
      * intros [c [Hin Hc]]. exists c. split; [exact Hin|].
        now apply holds_true_iff, config_matches_true_iff.
    + apply (forallb_Forall_evaluates config_wf); [|exact Hwf].
      intros x. apply config_matches_evaluates.
  - intros hosts' Hlen. unfold EC.check_if_config_exists, EC.config_matches.
    now rewrite Hlen.
Qed.

Definition sample_configs : list json :=
  [JObj [("collection_name", JStr "Other job");
         ("is_collection_deleted", JBool false);
         ("total_target_count", JNum 2);
         ("status_label", JStr "dc.db.config.status.ready")];
   JObj [("collection_name", JStr "Ansible patch configuration 7");
         ("is_collection_deleted", JBool false);
         ("total_target_count", JNum 2);
         ("status_label", JStr "dc.db.config.status.in_progress")]].

Lemma config_exists_iff_some_config_desired_witness :
  forallb config_wf sample_configs = true
  /\ (exists b,
        EC.check_if_config_exists "Ansible patch configuration"
          (JArr sample_configs) ["web1"; "web2"] = Ret b
        /\ (b = true <->
            exists config,
              In config sample_configs
              /\ config_is_desired "Ansible patch configuration"
                   ["web1"; "web2"] config))
  /\ (forall hosts' : list string,
        length hosts' = length ["web1"; "web2"] ->
        EC.check_if_config_exists "Ansible patch configuration"
          (JArr sample_configs) hosts'
        = EC.check_if_config_exists "Ansible patch configuration"
            (JArr sample_configs) ["web1"; "web2"]).
Proof.
  split; [reflexivity|].
  apply (config_exists_iff_some_config_desired
           "Ansible patch configuration" sample_configs ["web1"; "web2"]).
  reflexivity.
Defined.

(** ** The patch selector *)

Lemma anyM_true {A} (cond : A -> res bool) (l : list A) :
  anyM cond l = Ret true -> exists x, In x l /\ cond x = Ret true.
Proof.
  induction l as [|y l IH]; simpl; [discriminate|].
  destruct (cond y) as [[|]| |] eqn:E; simpl; try discriminate.
  - intros _. exists y. auto.
  - intros H. destruct (IH H) as [x [Hin Hx]]. exists x. auto.
Qed.

Definition returns {A} (r : res A) : bool :=
  match r with
  | Ret _ => true
  | _ => false
  end.

(** A catalog entry as the API lists it: a string description and a
    [missing] count that [int] can read. *)
Definition patch_wf (x : json) : bool :=
  has_str_field x "patch_description"
  && returns (rbind (getitem x "missing") int).

(** The selection rule: some requested label has all its white-space
    separated tokens among those of the description, and the [missing]
    count read as an integer is positive. *)
Definition patch_is_wanted (patch_types : list string) (x : json) : Prop :=
  (exists label d,
      In label patch_types
      /\ getitem x "patch_description" = Ret (JStr d)
      /\ forall tok, In tok (split label) -> In tok (split d))
  /\ (exists m n, getitem x "missing" = Ret m /\ int m = Ret n /\ 0 < n).

Lemma patch_selected_evaluates (patch_types : list string) (x : json) :
  patch_wf x = true -> evaluates (EC.patch_selected patch_types) x.
Proof.
  unfold patch_wf. rewrite andb_true_iff. intros [Hd Hm].
  apply has_str_field_ret in Hd as [d Hd].
  unfold evaluates, EC.patch_selected, andM. rewrite Hd. simpl.
  rewrite (anyM_total (fun utype => Ret (issubset (split utype) (split d)))).
  - simpl. destruct (existsb _ patch_types); [|eauto].
    destruct (getitem x "missing") as [m| |]; simpl in *; try discriminate.
    destruct (int m); simpl in *; try discriminate. eauto.
  - apply Forall_forall. intros utype _. unfold evaluates. eauto.
Qed.

Lemma patch_selected_true_iff (patch_types : list string) (x : json) :
  EC.patch_selected patch_types x = Ret true <-> patch_is_wanted patch_types x.
Proof.
  unfold EC.patch_selected, andM, patch_is_wanted. split.
  - intros H.
    destruct (anyM _ patch_types) as [[|]| |] eqn:Hany;
      simpl in H; try discriminate.
    apply anyM_true in Hany as [label [Hin Hlabel]].
    destruct (getitem x "patch_description") as [v| |] eqn:Ed;
      simpl in Hlabel; try discriminate.
    destruct v as [| | |d| |]; simpl in Hlabel; try discriminate.
    injection Hlabel as Hsub. rewrite issubset_spec in Hsub.
    destruct (getitem x "missing") as [m| |] eqn:Em;
      simpl in H; try discriminate.
    destruct (int m) as [n| |] eqn:En; simpl in H; try discriminate.
    injection H as H. apply Z.gtb_lt in H.
    split; [exists label, d; auto | exists m, n; auto].
  - intros [[label [d [Hin [Ed Hsub]]]] [m [n [Em [En Hn]]]]].
    rewrite Ed. simpl.
    rewrite (anyM_total (fun utype => Ret (issubset (split utype) (split d)))).
    + cbn [rbind].
      assert (Hex : existsb (fun utype =>
                 holds (Ret (issubset (split utype) (split d))))
               patch_types = true).
      { apply existsb_exists. exists label. split; [exact Hin|].
        simpl. apply issubset_spec in Hsub. now rewrite Hsub. }
      rewrite Hex. rewrite Em. simpl. rewrite En. simpl.
      apply Z.gtb_lt in Hn. now rewrite Hn.
    + apply Forall_forall. intros utype _. unfold evaluates. eauto.
Qed.

(** C3. On a catalog whose entries carry a string description and a
    readable [missing] count, the selection returns, and a patch is
    selected exactly when some requested label has all its tokens among the
    tokens of the patch description and the [missing] count, read as an
    integer, is above zero. *)
Theorem patch_selected_iff_tokens_subset_and_missing
  (all_patches : list json) (patch_types : list string) :
  forallb patch_wf all_patches = true ->
  exists selected,
    EC.selected_patches (JArr all_patches) patch_types = Ret selected
    /\ forall x, In x selected
                 <-> In x all_patches /\ patch_is_wanted patch_types x.
Proof.
  intros Hwf. unfold EC.selected_patches. simpl.
  rewrite (filterM_total (EC.patch_selected patch_types)).
  - eexists. split; [reflexivity|]. intros x.
    rewrite filter_In, holds_true_iff, patch_selected_true_iff. reflexivity.
  - apply (forallb_Forall_evaluates patch_wf); [|exact Hwf].
    intros x. apply patch_selected_evaluates.
Qed.

Definition sample_patches : list json :=
  [JObj [("patch_id", JNum 101);
         ("patch_description",
          JStr "Security Cumulative Update for Windows Server 2019");
         ("missing", JStr "3")];
   JObj [("patch_id", JNum 102);
         ("patch_description", JStr "Cumulative Update");
         ("missing", JNum 5)];
   JObj [("patch_id", JNum 103);
         ("patch_description",
          JStr "Cumulative Update for Windows Server 2022");
         ("missing", JNum 0)]].

Lemma patch_selected_iff_tokens_subset_and_missing_witness :
  forallb patch_wf sample_patches = true
  /\ exists selected,
      EC.selected_patches (JArr sample_patches)
        ["Cumulative Update for Windows Server"] = Ret selected
      /\ forall x,
          In x selected
          <-> In x sample_patches
              /\ patch_is_wanted ["Cumulative Update for Windows Server"] x.
Proof.
  split; [reflexivity|].
  apply (patch_selected_iff_tokens_subset_and_missing sample_patches
           ["Cumulative Update for Windows Server"]).
  reflexivity.
Defined.

Example sample_patches_selected :
  EC.selected_patches (JArr sample_patches)
    ["Cumulative Update for Windows Server"]
  = Ret [JObj [("patch_id", JNum 101);
               ("patch_description",
                JStr "Security Cumulative Update for Windows Server 2019");
               ("missing", JStr "3")]].
Proof. reflexivity. Qed.

(** A description whose first two words are separated by a no-break space
    still holds every token of the label "Cumulative Update". *)
Example no_break_space_description_selected :
  let x :=
    JObj [("patch_id", JNum 104);
          ("patch_description",
           JStr (of_bytes [67; 117; 109; 117; 108; 97; 116; 105; 118; 101;
                           194; 160; 85; 112; 100; 97; 116; 101; 32; 75; 66;
                           49]));
          ("missing", JNum 2)] in
  EC.selected_patches (JArr [x]) ["Cumulative Update"] = Ret [x].
Proof. reflexivity. Qed.

(** ** The ticket existence matcher *)

(** A ticket as the API lists it: a string subject, a status with a name,
    a string short description. *)
Definition request_wf (r : json) : bool :=
  has_str_field r "subject"
  && returns (rbind (getitem r "status") (fun st => getitem st "name"))
  && has_str_field r "short_description".

(** The two leading conjuncts of the matcher: the subject starts with the
    desired name and the status name is "Open". *)
Definition open_under_name (request_name : string) (r : json) : Prop :=
  (exists subject, getitem r "subject" = Ret (JStr subject)
                   /\ is_prefix request_name subject)
  /\ (exists status status_name,
         getitem r "status" = Ret status
         /\ getitem status "name" = Ret status_name
         /\ eq_str status_name "Open" = true).

(** The first three conjuncts: the two leading ones, and the short
    description contains every requested host name. *)
Definition leading_checks (request_name : string) (hosts : list string)
  (r : json) : Prop :=
  open_under_name request_name r
  /\ (exists sd, getitem r "short_description" = Ret (JStr sd)
                 /\ forall h, In h hosts -> is_substring h sd).

(** The whole condition: the leading checks, and the short description
    contains every requested patch-type label. *)
Definition ticket_matches (request_name : string) (hosts : list string)
  (patch_types : list string) (r : json) : Prop :=
  leading_checks request_name hosts r
  /\ (exists sd, getitem r "short_description" = Ret (JStr sd)
                 /\ forall t, In t patch_types -> is_substring t sd).

(** Executable forms of the two predicates. *)
Definition mentions_all (r : json) (l : list string) : bool :=
  match getitem r "short_description" with
  | Ret (JStr sd) => forallb (contains sd) l
  | _ => false
  end.

Definition leading_checksb (request_name : string) (hosts : list string)
  (r : json) : bool :=
  match getitem r "subject" with
  | Ret (JStr subject) => startswith subject request_name
  | _ => false
  end
  && holds (rbind (getitem r "status")
              (fun st => rbind (getitem st "name")
                           (fun n => Ret (eq_str n "Open"))))
  && mentions_all r hosts.

Lemma mentions_all_spec (r : json) (l : list string) :
  mentions_all r l = true
  <-> exists sd, getitem r "short_description" = Ret (JStr sd)
                 /\ forall s, In s l -> is_substring s sd.
Proof.
  unfold mentions_all. split.
  - destruct (getitem r "short_description") as [[| | |sd| |]| |];
      try discriminate.
    intros H. exists sd. split; [reflexivity|].
    intros s Hs. rewrite forallb_forall in H. apply contains_spec, H, Hs.
  - intros [sd [-> H]]. apply forallb_forall.
    intros s Hs. apply contains_spec, H, Hs.
Qed.

Lemma leading_checksb_spec (request_name : string) (hosts : list string)
  (r : json) :
  leading_checksb request_name hosts r = true
  <-> leading_checks request_name hosts r.
Proof.
  unfold leading_checksb, leading_checks, open_under_name.
  rewrite !andb_true_iff, mentions_all_spec, holds_true_iff. split.
  - intros [[Hs Ho] Hm]. repeat split; [| |exact Hm].
    + destruct (getitem r "subject") as [[| | |subject| |]| |];
        try discriminate.
      exists subject. split; [reflexivity | now apply startswith_spec].
    + destruct (getitem r "status") as [st| |]; simpl in Ho; try discriminate.
      destruct (getitem st "name") as [n| |] eqn:En; simpl in Ho;
        try discriminate.
      injection Ho as Ho. exists st, n. auto.
  - intros [[[subject [-> Hp]] [st [n [-> [Hn Ho]]]]] Hm].
    repeat split; [now apply startswith_spec | | exact Hm].
    simpl. rewrite Hn. simpl. now rewrite Ho.
Qed.

Lemma all_in_short_description_wf (r : json) (l : list string) :
  has_str_field r "short_description" = true ->
  SD.all_in_short_description r (Some l) = Ret (mentions_all r l).
Proof.
  intros H. apply has_str_field_ret in H as [sd H].
  unfold SD.all_in_short_description, mentions_all. rewrite H.
  induction l as [|s l IH]; simpl; [reflexivity|].
  destruct (contains sd s); simpl; [exact IH | reflexivity].
Qed.

(** On a listed ticket the generator condition raises only for omitted
    patch types, and only once the leading checks have passed. *)
Lemma request_matches_wf (request_name : string) (hosts : list string)
  (patch_types : option (list string)) (r : json) :
  request_wf r = true ->
  SD.request_matches request_name hosts patch_types r =
  if leading_checksb request_name hosts r then
    match patch_types with
    | Some l => Ret (mentions_all r l)
    | None => Raise TypeError
    end
  else Ret false.
Proof.
  unfold request_wf. rewrite !andb_true_iff. intros [[Hs Hst] Hsd].
  unfold SD.request_matches, andM, leading_checksb.
  rewrite (all_in_short_description_wf r hosts Hsd).
  apply has_str_field_ret in Hs as [subject Hs]. rewrite Hs. simpl.
  destruct (startswith subject request_name); simpl; [|reflexivity].
  destruct (getitem r "status") as [st| |]; simpl in *; try discriminate.
  destruct (getitem st "name") as [n| |]; simpl in *; try discriminate.
  destruct (eq_str n "Open"); simpl; [|reflexivity].
  destruct (mentions_all r hosts); simpl; [|reflexivity].
  destruct patch_types as [l|]; [|reflexivity].
  now apply all_in_short_description_wf.
Qed.

Lemma request_matches_listed (request_name : string)
  (hosts patch_types : list string) (r : json) :
  request_wf r = true ->
  SD.request_matches request_name hosts (Some patch_types) r
  = Ret (leading_checksb request_name hosts r && mentions_all r patch_types).
Proof.
  intros Hwf. rewrite (request_matches_wf _ _ _ _ Hwf).
  now destruct (leading_checksb request_name hosts r).
Qed.

Lemma ticket_matches_spec (request_name : string)
  (hosts patch_types : list string) (r : json) :
  leading_checksb request_name hosts r && mentions_all r patch_types = true
  <-> ticket_matches request_name hosts patch_types r.
Proof.
  unfold ticket_matches.
  now rewrite andb_true_iff, leading_checksb_spec, mentions_all_spec.
Qed.

Lemma forallb_In {A} (f : A -> bool) (l : list A) (x : A) :
  forallb f l = true -> In x l -> f x = true.
Proof. intros H. now apply forallb_forall. Qed.

(** C7. On a list of tickets as the API lists them, [find_request]
    returns the first ticket, in list order, whose subject starts with the
    desired name, whose status name is "Open" and whose short description
    contains every requested host name and every requested patch-type
    label; it returns [None] when no ticket satisfies the three
    conditions. *)
Theorem find_request_first_match
  (request_name : string) (requests : list json)
  (hosts patch_types : list string) :
  forallb request_wf requests = true ->
  (forall (pre : list json) (r : json) (post : list json),
      requests = (pre ++ r :: post)%list ->
      ticket_matches request_name hosts patch_types r ->
      (forall r', In r' pre ->
                  ~ ticket_matches request_name hosts patch_types r') ->
      SD.find_request request_name (JArr requests) hosts (Some patch_types)
      = Ret (Some r))
  /\ ((forall r, In r requests ->
                 ~ ticket_matches request_name hosts patch_types r) ->
      SD.find_request request_name (JArr requests) hosts (Some patch_types)
      = Ret None).
Proof.
  intros Hwf.
  assert (Hno : forall r,
             In r requests ->
             ~ ticket_matches request_name hosts patch_types r ->
             SD.request_matches request_name hosts (Some patch_types) r
             = Ret false).
  { intros r Hin Hr.
    rewrite (request_matches_listed _ _ _ _ (forallb_In _ _ _ Hwf Hin)).
    f_equal. apply not_true_is_false. intros Hb.
    now apply Hr, ticket_matches_spec. }
  unfold SD.find_request. simpl. split.
  - intros pre r post -> Hr Hpre.
    rewrite nextM_first.
    + rewrite request_matches_listed.
      * apply ticket_matches_spec in Hr. rewrite Hr. reflexivity.
      * apply (forallb_In _ _ _ Hwf). apply in_elt.
    + intros y Hy. apply Hno; [|now apply Hpre].
      apply in_or_app. now left.
  - intros Hnone. rewrite nextM_none; [reflexivity|].
    intros y Hy. apply Hno; [exact Hy | now apply Hnone].
Qed.

Definition sample_requests : list json :=
  [JObj [("id", JStr "11"); ("subject", JStr "Request created by Ansible");
         ("status", JObj [("name", JStr "Closed")]);
         ("short_description",
          JStr "['Cumulative Update'] updates for : ['web1', 'web2']")];
   JObj [("id", JStr "12"); ("subject", JStr "Request created by Ansible");
         ("status", JObj [("name", JStr "Open")]);
         ("short_description",
          JStr "['Cumulative Update'] updates for : ['web1', 'web2']")];
   JObj [("id", JStr "13"); ("subject", JStr "Request created by Ansible 2");
         ("status", JObj [("name", JStr "Open")]);
         ("short_description",
          JStr "['Cumulative Update'] updates for : ['web2', 'web1']")]].

Lemma find_request_first_match_witness :
  forallb request_wf sample_requests = true
  /\ SD.find_request "Request created by Ansible" (JArr sample_requests)
       ["web1"; "web2"] (Some ["Cumulative Update"])
     = Ret (nth_error sample_requests 1).
Proof.
  split; [reflexivity|].
  apply (proj1 (find_request_first_match "Request created by Ansible"
                  sample_requests ["web1"; "web2"] ["Cumulative Update"]
                  eq_refl)
           (firstn 1 sample_requests) _ (skipn 2 sample_requests)).
  - reflexivity.
  - apply ticket_matches_spec. reflexivity.
  - intros r' [<- | []] H. apply ticket_matches_spec in H. discriminate H.
Defined.

(** ** Resolving host names to resource ids *)

Lemma mapM_total {A B} (f : A -> res B) (g : A -> B) (l : list A) :
  (forall x, In x l -> f x = Ret (g x)) -> mapM f l = Ret (map g l).
Proof.
  induction l as [|x l IH]; intros H; simpl; [reflexivity|].
  rewrite (H x (or_introl eq_refl)). simpl.
  rewrite IH; [reflexivity|]. intros y Hy. apply H. now right.
Qed.

(** Keys that are pairwise distinct stay so among the entries kept. *)
Lemma NoDup_map_filter {A B} (key : A -> B) (keep : A -> bool)
  (entries : list A) :
  NoDup (map key entries) -> NoDup (map key (filter keep entries)).
Proof.
  induction entries as [|x entries IH]; simpl; intros H; [constructor|].
  inversion H as [|? ? Hx Hrest]; subst.
  destruct (keep x); simpl; [|now apply IH].
  constructor; [|now apply IH].
  intros Hin. apply Hx. apply in_map_iff in Hin as [y [Hy Hin]].
  apply in_map_iff. exists y. split; [exact Hy|].
  now apply filter_In in Hin as [Hin _].
Qed.

Lemma Permutation_filter_same {A} (p : A -> bool) (l l' : list A) :
  Permutation l l' -> Permutation (filter p l) (filter p l').
Proof.
  induction 1 as [|x l l' _ IH|x y l|l l' l'' _ IH1 _ IH2]; simpl.
  - constructor.
  - destruct (p x); [now constructor | exact IH].
  - destruct (p x), (p y); try apply Permutation_refl. apply perm_swap.
  - now apply Permutation_trans with (filter p l').
Qed.

(** An inventory entry as the API lists it: a name and an id that [int]
    can read. *)
Definition system_wf (x : json) : bool :=
  has_field x "resource_name"
  && returns (rbind (getitem x "resource_id") int).

(** The name and the id of an inventory entry. *)
Definition resource_name (x : json) : res json := getitem x "resource_name".

Definition resource_id (x : json) : res Z := rbind (getitem x "resource_id") int.

Definition requested (hosts : list string) (x : json) : bool :=
  holds (rbind (resource_name x) (fun n => Ret (in_strs n hosts))).

Definition id_or_zero (x : json) : Z :=
  match resource_id x with
  | Ret i => i
  | _ => 0
  end.

Lemma resource_ids_of_listed (inventory : list json) (hosts : list string) :
  forallb system_wf inventory = true ->
  EC.resource_ids_of (JArr inventory) hosts
  = Ret (map id_or_zero (filter (requested hosts) inventory)).
Proof.
  intros Hwf. unfold EC.resource_ids_of. simpl.
  rewrite filterM_total.
  - simpl. apply mapM_total. intros x Hx.
    apply filter_In in Hx as [Hx _].
    pose proof (forallb_In _ _ _ Hwf Hx) as Hw.
    unfold system_wf in Hw. apply andb_true_iff in Hw as [_ Hw].
    unfold id_or_zero, resource_id in *.
    destruct (rbind (getitem x "resource_id") int); try discriminate.
    reflexivity.
  - apply (forallb_Forall_evaluates system_wf); [|exact Hwf].
    intros x Hw. unfold system_wf in Hw. apply andb_true_iff in Hw as [Hw _].
    apply has_field_ret in Hw as [n Hn]. unfold evaluates.
    rewrite Hn. simpl. eauto.
Qed.

Lemma in_strs_spec (v : json) (hosts : list string) :
  in_strs v hosts = true <-> exists h, v = JStr h /\ In h hosts.
Proof.
  unfold in_strs. rewrite existsb_exists. split.
  - intros [h [Hin Heq]]. destruct v; simpl in Heq; try discriminate.
    apply String.eqb_eq in Heq. subst. eauto.
  - intros [h [-> Hin]]. exists h. split; [exact Hin|].
    simpl. apply String.eqb_refl.
Qed.

Lemma requested_spec (hosts : list string) (x : json) :
  requested hosts x = true
  <-> exists h, resource_name x = Ret (JStr h) /\ In h hosts.
Proof.
  unfold requested. rewrite holds_true_iff. split.
  - destruct (resource_name x) as [n| |]; simpl; try discriminate.
    intros H. injection H as H. apply in_strs_spec in H as [h [-> Hin]].
    eauto.
  - intros [h [-> Hin]]. simpl. f_equal. apply in_strs_spec. eauto.
Qed.

(** With pairwise distinct names in the inventory, the entries picked are
    no more than the host names asked for. *)
Lemma requested_at_most_hosts (inventory : list json) (hosts : list string) :
  NoDup (map resource_name inventory) ->
  (length (filter (requested hosts) inventory) <= length hosts)%nat.
Proof.
  intros Hnd.
  apply (NoDup_map_filter resource_name (requested hosts)) in Hnd.
  assert (Hsel : forall x, In x (filter (requested hosts) inventory) ->
                           exists h, resource_name x = Ret (JStr h)
                                     /\ In h hosts).
  { intros x Hx. apply filter_In in Hx as [_ Hx]. now apply requested_spec. }
  induction (filter (requested hosts) inventory) as [|x l IH] in hosts, Hnd, Hsel |- *.
  - simpl. lia.
  - destruct (Hsel x (or_introl eq_refl)) as [h [Hh Hin]].
    apply in_split in Hin as [h1 [h2 ->]].
    inversion Hnd as [|? ? Hx Hl]; subst.
    rewrite length_app. simpl. rewrite Nat.add_succ_r, <- length_app.
    apply le_n_S. apply IH; [exact Hl|].
    intros y Hy. destruct (Hsel y (or_intror Hy)) as [k [Hk Hin]].
    exists k. split; [exact Hk|].
    apply in_app_or in Hin as [Hin | [Heq | Hin]];
      try (apply in_or_app; auto; fail).
    subst k. exfalso. apply Hx. rewrite Hh, <- Hk. now apply in_map.
Qed.

(** An inventory that lists the requested name twice. *)
Definition twin_inventory : list json :=
  [JObj [("resource_name", JStr "web"); ("resource_id", JNum 1)];
   JObj [("resource_name", JStr "web"); ("resource_id", JNum 2)]].

(** C5, as stated, fails: one requested name resolves to two ids when the
    inventory lists it twice, and the ids come back in inventory order, so
    the reversed inventory returns another list. *)
Lemma resource_ids_exceed_hosts :
  EC.resource_ids_of (JArr twin_inventory) ["web"] = Ret [1; 2]
  /\ SD.resource_ids_of (JArr twin_inventory) ["web"] = Ret [1; 2]
  /\ ~ (length [1; 2] <= length ["web"])%nat
  /\ EC.resource_ids_of (JArr (rev twin_inventory)) ["web"] = Ret [2; 1].
Proof.
  repeat split; try reflexivity. simpl. lia.
Qed.

(** C5, amended. On an inventory whose entries carry a name and a readable
    id, both copies of the resolver return the ids of the entries whose
    [resource_name] is a requested host name, one id per such entry and in
    the order of the inventory, none left out and none added: at
    most as many as the inventory has entries, and at most as many as the
    requested host names when the names in the inventory are pairwise
    distinct.  A permuted inventory yields the same ids, as a permutation
    of the list, and an inventory with the same entries yields the same set
    of ids. *)
Theorem resource_ids_of_requested_entries
  (inventory : list json) (hosts : list string) :
  forallb system_wf inventory = true ->
  exists ids,
    EC.resource_ids_of (JArr inventory) hosts = Ret ids
    /\ SD.resource_ids_of (JArr inventory) hosts = Ret ids
    /\ (forall x, requested hosts x = true
                  <-> exists h, resource_name x = Ret (JStr h) /\ In h hosts)
    /\ Forall2 (fun x i => resource_id x = Ret i)
               (filter (requested hosts) inventory) ids
    /\ (forall i, In i ids ->
          exists x h, In x inventory
                      /\ resource_name x = Ret (JStr h) /\ In h hosts
                      /\ resource_id x = Ret i)
    /\ (forall x h i,
          In x inventory -> resource_name x = Ret (JStr h) -> In h hosts ->
          resource_id x = Ret i -> In i ids)
    /\ (length ids <= length inventory)%nat
    /\ (NoDup (map resource_name inventory) ->
        (length ids <= length hosts)%nat)
    /\ (forall inventory',
          Permutation inventory inventory' ->
          exists ids',
            EC.resource_ids_of (JArr inventory') hosts = Ret ids'
            /\ Permutation ids ids')
    /\ (forall inventory',
          (forall x, In x inventory <-> In x inventory') ->
          exists ids',
            EC.resource_ids_of (JArr inventory') hosts = Ret ids'
            /\ forall i, In i ids <-> In i ids').
Proof.
  intros Hwf.
  assert (Hid : forall x, In x inventory ->
                          resource_id x = Ret (id_or_zero x)).
  { intros x Hx. pose proof (forallb_In _ _ _ Hwf Hx) as Hw.
    unfold system_wf in Hw. apply andb_true_iff in Hw as [_ Hw].
    fold (resource_id x) in Hw. unfold id_or_zero.
    now destruct (resource_id x). }
  eexists. split; [now apply resource_ids_of_listed|].
  split; [now apply resource_ids_of_listed|].
  split; [exact (requested_spec hosts)|].
  split; [|split; [|split; [|split; [|split; [|split]]]]].
  - assert (Hsub : forall x, In x (filter (requested hosts) inventory) ->
                             In x inventory)
      by (intros x Hx; now apply filter_In in Hx).
    induction (filter (requested hosts) inventory) as [|x l IH]; simpl;
      constructor.
    + apply Hid, Hsub. now left.
    + apply IH. intros y Hy. apply Hsub. now right.
  - intros i Hi. apply in_map_iff in Hi as [x [Hid' Hx]].
    apply filter_In in Hx as [Hx Hreq].
    apply requested_spec in Hreq as [h [Hh Hin]].
    exists x, h. repeat split; try assumption.
    rewrite (Hid x Hx). now f_equal.
  - intros x h i Hx Hname Hh Hi. apply in_map_iff. exists x. split.
    + rewrite (Hid x Hx) in Hi. now injection Hi.
    + apply filter_In. split; [exact Hx|]. apply requested_spec. eauto.
  - rewrite length_map. apply filter_length_le.
  - intros Hnd. rewrite length_map. now apply requested_at_most_hosts.
  - intros inventory' Hperm. eexists. split.
    + apply resource_ids_of_listed. apply forallb_forall. intros x Hx.
      apply (forallb_In _ _ _ Hwf).
      apply Permutation_in with inventory'; [now apply Permutation_sym | exact Hx].
    + apply Permutation_map. now apply Permutation_filter_same.
  - intros inventory' Hsame. eexists. split.
    + apply resource_ids_of_listed. apply forallb_forall. intros x Hx.
      apply (forallb_In _ _ _ Hwf). now apply Hsame.
    + intros i. rewrite !in_map_iff. split; intros [x [Hid' Hx]]; exists x;
        (split; [exact Hid'|]); apply filter_In in Hx as [Hx Hreq];
        apply filter_In; (split; [now apply Hsame | exact Hreq]).
Qed.

Definition sample_inventory : list json :=
  [JObj [("resource_name", JStr "db1"); ("resource_id", JNum 7)];
   JObj [("resource_name", JStr "web1"); ("resource_id", JStr "12")];
   JObj [("resource_name", JStr "web2"); ("resource_id", JNum 15)]].

Lemma resource_ids_of_requested_entries_witness :
  forallb system_wf sample_inventory = true
  /\ exists ids,
      EC.resource_ids_of (JArr sample_inventory) ["web2"; "web1"; "gone"]
      = Ret ids
      /\ SD.resource_ids_of (JArr sample_inventory) ["web2"; "web1"; "gone"]
         = Ret ids
      /\ (forall x, requested ["web2"; "web1"; "gone"] x = true
                    <-> exists h, resource_name x = Ret (JStr h)
                                  /\ In h ["web2"; "web1"; "gone"])
      /\ Forall2 (fun x i => resource_id x = Ret i)
                 (filter (requested ["web2"; "web1"; "gone"])
                         sample_inventory) ids
      /\ (forall i, In i ids ->
            exists x h, In x sample_inventory
                        /\ resource_name x = Ret (JStr h)
                        /\ In h ["web2"; "web1"; "gone"]
                        /\ resource_id x = Ret i)
      /\ (forall x h i,
            In x sample_inventory -> resource_name x = Ret (JStr h) ->
            In h ["web2"; "web1"; "gone"] ->
            resource_id x = Ret i -> In i ids)
      /\ (length ids <= length sample_inventory)%nat
      /\ (NoDup (map resource_name sample_inventory) ->
          (length ids <= length ["web2"; "web1"; "gone"])%nat)
      /\ (forall inventory',
            Permutation sample_inventory inventory' ->
            exists ids',
              EC.resource_ids_of (JArr inventory') ["web2"; "web1"; "gone"]
              = Ret ids'
              /\ Permutation ids ids')
      /\ (forall inventory',
            (forall x, In x sample_inventory <-> In x inventory') ->
            exists ids',
              EC.resource_ids_of (JArr inventory') ["web2"; "web1"; "gone"]
              = Ret ids'
              /\ forall i, In i ids <-> In i ids').
Proof.
  split; [reflexivity|].
  apply (resource_ids_of_requested_entries sample_inventory
           ["web2"; "web1"; "gone"]).
  reflexivity.
Defined.

(** An id that [int] cannot read raises once its entry is picked: the
    separator 28 in front of the digits is not skipped. *)
Example unreadable_resource_id_raises :
  let x := JObj [("resource_name", JStr "web");
                 ("resource_id", JStr (of_bytes [28; 49; 50]))] in
  system_wf x = false
  /\ EC.resource_ids_of (JArr [x]) ["web"] = Raise ValueError
  /\ EC.resource_ids_of (JArr [x]) ["db"] = Ret [].
Proof. repeat split; reflexivity. Qed.

Example sample_inventory_ids :
  EC.resource_ids_of (JArr sample_inventory) ["web2"; "web1"; "gone"]
  = Ret [12; 15].
Proof. reflexivity. Qed.

(** ** Calls and traces *)

Local Open Scope list_scope.

Lemma no_mutation_after_get (tr : trace) (rq : http_request) :
  existsb mutating tr = false -> method rq = GET ->
  existsb mutating (tr ++ [rq]) = false.
Proof.
  intros Htr Hget. rewrite existsb_app, Htr. unfold mutating. simpl.
  now rewrite Hget.
Qed.

Section TraceFacts.
Variable remote : transport.

(** A fetch adds its GET to the trace and nothing else. *)
Lemma ec_get_api_objects_trace (c : EC.conn) (object_name filter : string)
  (tr : trace) :
  EC.get_api_objects remote c object_name filter tr
  = (fst (EC.get_api_objects remote c object_name filter []),
     tr ++ [EC.objects_request c object_name filter])%list.
Proof.
  unfold EC.get_api_objects, iobind, send, lift. simpl.
  now destruct (status_code _ =? 200).
Qed.

Lemma sd_get_api_objects_trace (c : SD.conn) (object_name : string)
  (tr : trace) :
  SD.get_api_objects remote c object_name tr
  = (fst (SD.get_api_objects remote c object_name []),
     tr ++ [SD.objects_request c object_name])%list.
Proof.
  unfold SD.get_api_objects, iobind, send, lift. simpl.
  now destruct (SD.ok_status _).
Qed.

(** [get_resource_ids_for_patching] is the fetch of the inventory
    followed by the two comprehensions. *)
Lemma get_resource_ids_for_patching_fetch (c : EC.conn)
  (hosts : list string) (tr : trace) :
  EC.get_resource_ids_for_patching remote c hosts tr
  = (rbind (fst (EC.get_api_objects remote c "allsystems" "" []))
           (fun all_systems => EC.resource_ids_of all_systems hosts),
     tr ++ [EC.objects_request c "allsystems" ""])%list.
Proof.
  unfold EC.get_resource_ids_for_patching, iobind.
  rewrite ec_get_api_objects_trace.
  now destruct (fst (EC.get_api_objects remote c "allsystems" "" [])).
Qed.
End TraceFacts.

(** ** Desired state present, object already there *)

(** What the matcher returns is a dict with a subject, so [if request:]
    takes it as found. *)
Lemma find_request_some_found (request_name : string) (requests : json)
  (hosts : list string) (patch_types : option (list string)) (r : json) :
  SD.find_request request_name requests hosts patch_types = Ret (Some r) ->
  SD.found (Some r) = true.
Proof.
  unfold SD.find_request, try_except. intros H.
  destruct (iter requests) as [l| |]; simpl in H; try discriminate.
  destruct (nextM _ l) as [o| |] eqn:E; simpl in H; try discriminate.
  injection H as ->. apply nextM_some in E as [_ E].
  unfold SD.request_matches, andM in E.
  destruct r as [| | | | |items]; simpl in E; try discriminate.
  destruct items; [discriminate | reflexivity].
Qed.

(** C2. With desired state [present], when the existence matcher reports a
    matching remote object, the run makes no POST and no DELETE (the trace
    is the one fetch of the collection) and ends with changed=false,
    failed=false; in the patch-config module and in the ticket module. *)
Theorem present_and_existing_is_noop :
  (forall (remote : transport) (p : EC.params) (configs : json) (tr : trace),
      EC.state p = "present" ->
      EC.get_api_objects remote (EC.connection p) "viewconfig" "" []
      = (Ret configs, tr) ->
      EC.check_if_config_exists (EC.name p) configs (EC.hosts p) = Ret true ->
      execute (EC.run_module remote p)
      = (Exited (mkOutcome false false (MsgText "config already exists")), tr)
      /\ existsb mutating tr = false)
  /\ (forall (remote : transport) (p : SD.params) (requests : json)
        (tr : trace) (r : json),
      SD.state p = "present" ->
      SD.get_api_objects remote (SD.connection p) "requests" []
      = (Ret requests, tr) ->
      SD.find_request (SD.name p) requests (SD.hosts p) (SD.patch_types p)
      = Ret (Some r) ->
      execute (SD.run_module remote p)
      = (Exited (mkOutcome false false (MsgText "request already exists")),
         tr)
      /\ existsb mutating tr = false).
Proof.
  split.
  - intros remote p configs tr Hstate Hfetch Hcheck. split.
    + unfold execute, EC.run_module. cbv zeta.
      unfold io_try_except, iobind. rewrite Hfetch.
      unfold lift at 1. rewrite Hcheck, Hstate. reflexivity.
    + rewrite ec_get_api_objects_trace in Hfetch. injection Hfetch as _ <-.
      reflexivity.
  - intros remote p requests tr r Hstate Hfetch Hfind. split.
    + unfold execute, SD.run_module. cbv zeta.
      unfold io_try_except, iobind. rewrite Hfetch.
      unfold lift at 1. rewrite Hfind, Hstate.
      rewrite (find_request_some_found _ _ _ _ _ Hfind). reflexivity.
    + rewrite sd_get_api_objects_trace in Hfetch. injection Hfetch as _ <-.
      reflexivity.
Qed.

(** ** Canned remotes for concrete runs *)

(** The literal after the API prefix in the URI of a request. *)
Definition endpoint_of (rq : http_request) : string :=
  match nth_error (uri rq) 4 with
  | Some (Lit s) => s
  | _ => EmptyString
  end.

Definition method_eqb (a b : http_method) : bool :=
  match a, b with
  | GET, GET | POST, POST | DELETE, DELETE => true
  | _, _ => false
  end.

(** A transport double answering by method and endpoint, 404 otherwise. *)
Fixpoint canned (table : list (http_method * string * http_response))
  (rq : http_request) : http_response :=
  match table with
  | [] => mkResponse 404 None
  | (m, e, response) :: rest =>
      if method_eqb m (method rq) && String.eqb e (endpoint_of rq)
      then response else canned rest rq
  end.

Definition ok (body : json) : http_response := mkResponse 200 (Some body).

Definition ec_objects (object_name : string) (objects : list json)
  : http_method * string * http_response :=
  (GET, object_name,
   ok (JObj [("message_response", JObj [(object_name, JArr objects)])])).

Definition sample_policies : list json :=
  [JObj [("template_name", JStr "Update Workstations");
         ("template_id", JNum 301)];
   JObj [("template_name", JStr "Update Servers");
         ("template_id", JNum 302)];
   JObj [("template_name", JStr "Update Servers");
         ("template_id", JNum 303)]].

Definition ec_remote (configs policies : list json) (post_answer : json)
  : transport :=
  canned [ec_objects "viewconfig" configs;
          ec_objects "allsystems" sample_inventory;
          ec_objects "allpatches" sample_patches;
          ec_objects "deploymentpolicies" policies;
          (POST, "patch/installpatch", ok post_answer)].

Definition ec_params : EC.params :=
  EC.mkParams "7A69CA52" "patch.example.org" 8383
    "Ansible patch configuration" "Install select patches to devices"
    "Update Servers" ["web1"; "web2"]
    ["Cumulative Update for Windows Server"] "present".

Definition sd_remote (requests : list json) (post_answer delete_answer : json)
  : transport :=
  canned [(GET, "requests", ok (JObj [("requests", JArr requests)]));
          (GET, "users",
           ok (JObj [("users", JArr [JObj [("id", JStr "42");
                                           ("name", JStr "automation")]])]));
          (POST, "requests", mkResponse 201 (Some post_answer));
          (DELETE, "requests/", ok delete_answer)].

Definition sd_params (patch_types : option (list string)) (state : string)
  : SD.params :=
  SD.mkParams "7A69CA52" "tms.example.org" 8080 "Request created by Ansible"
    (Some "Update Servers") ["web1"; "web2"] patch_types state.

Lemma present_and_existing_is_noop_witness :
  (execute (EC.run_module (ec_remote sample_configs sample_policies JNull)
              ec_params)
   = (Exited (mkOutcome false false (MsgText "config already exists")),
      [EC.objects_request (EC.connection ec_params) "viewconfig" ""])
   /\ existsb mutating
        [EC.objects_request (EC.connection ec_params) "viewconfig" ""]
      = false)
  /\ (execute (SD.run_module (sd_remote sample_requests JNull JNull)
                 (sd_params (Some ["Cumulative Update"]) "present"))
      = (Exited (mkOutcome false false (MsgText "request already exists")),
         [SD.objects_request
            (SD.connection (sd_params (Some ["Cumulative Update"]) "present"))
            "requests"])
      /\ existsb mutating
           [SD.objects_request
              (SD.connection
                 (sd_params (Some ["Cumulative Update"]) "present"))
              "requests"]
         = false).
Proof.
  split.
  - apply (proj1 present_and_existing_is_noop
             (ec_remote sample_configs sample_policies JNull) ec_params
             (JArr sample_configs)); reflexivity.
  - apply (proj2 present_and_existing_is_noop
             (sd_remote sample_requests JNull JNull)
             (sd_params (Some ["Cumulative Update"]) "present")
             (JArr sample_requests) _
             (JObj [("id", JStr "12");
                    ("subject", JStr "Request created by Ansible");
                    ("status", JObj [("name", JStr "Open")]);
                    ("short_description",
                     JStr "['Cumulative Update'] updates for : ['web1', 'web2']")]));
      reflexivity.
Defined.

(** ** Classifying the response to the create call *)

(** The run of the patch-config module reaches the create call, which
    answers [resp]: the config collection was fetched, no config matched,
    and [patch_hosts] returned. *)
Definition ec_create_answered (remote : transport) (p : EC.params)
  (resp : json) (tr : trace) : Prop :=
  EC.state p = "present"
  /\ exists configs tr0,
      EC.get_api_objects remote (EC.connection p) "viewconfig" "" []
      = (Ret configs, tr0)
      /\ EC.check_if_config_exists (EC.name p) configs (EC.hosts p)
         = Ret false
      /\ EC.patch_hosts remote (EC.connection p) (EC.name p) (EC.desc p)
           (EC.deployment_policy_name p) (EC.hosts p) (EC.patch_types p) tr0
         = (Ret resp, tr).

(** The same for the ticket module and [create_tms_request]. *)
Definition sd_create_answered (remote : transport) (p : SD.params)
  (resp : json) (tr : trace) : Prop :=
  SD.state p = "present"
  /\ exists requests tr0 request,
      SD.get_api_objects remote (SD.connection p) "requests" []
      = (Ret requests, tr0)
      /\ SD.find_request (SD.name p) requests (SD.hosts p) (SD.patch_types p)
         = Ret request
      /\ SD.found request = false
      /\ SD.create_tms_request remote (SD.connection p) (SD.name p)
           (SD.deployment_policy_name p) (SD.hosts p) (SD.patch_types p) tr0
         = (Ret resp, tr).

(** The classification of a create response with a [status] field: status
    "error" with error code "3010" is an unchanged success, status "error"
    with any other error code, or none, is a failure, any other status is a
    change. *)
Definition classified (resp : json) (o : outcome) : Prop :=
  forall status,
    getitem resp "status" = Ret status ->
    (eq_str status "error" = true ->
     (forall code, getitem resp "error_code" = Ret code ->
                   eq_str code "3010" = true ->
                   changed o = false /\ failed o = false)
     /\ ((forall code, getitem resp "error_code" = Ret code ->
                       eq_str code "3010" = false) ->
         failed o = true))
    /\ (eq_str status "error" = false ->
        changed o = true /\ failed o = false).

(** How [run_module] ends after the classification [r] of the response:
    the result goes to [exit_json], an exception to the handler of
    [run_module]. *)
Definition settled (prefix : string) (r : res outcome) : outcome :=
  match r with
  | Ret result => result
  | SysExit o => o
  | Raise e => mkOutcome false true (MsgExn prefix e)
  end.

Lemma ec_run_after_create (remote : transport) (p : EC.params) (resp : json)
  (tr : trace) :
  ec_create_answered remote p resp tr ->
  execute (EC.run_module remote p)
  = (Exited (settled "failed to patch hosts: " (EC.created resp)), tr).
Proof.
  intros [Hstate [configs [tr0 [Hfetch [Hcheck Hpatch]]]]].
  unfold execute, EC.run_module. cbv zeta.
  unfold io_try_except, iobind. rewrite Hfetch.
  unfold lift at 1. rewrite Hcheck, Hstate. cbn [String.eqb Ascii.eqb Bool.eqb].
  rewrite Hpatch. unfold lift.
  now destruct (EC.created resp).
Qed.

Lemma sd_run_after_create (remote : transport) (p : SD.params) (resp : json)
  (tr : trace) :
  sd_create_answered remote p resp tr ->
  execute (SD.run_module remote p)
  = (Exited (settled "failed to create request: " (SD.created resp)), tr).
Proof.
  intros [Hstate [requests [tr0 [request [Hfetch [Hfind [Hnot Hcreate]]]]]]].
  unfold execute, SD.run_module. cbv zeta.
  unfold io_try_except, iobind. rewrite Hfetch.
  unfold lift at 1. rewrite Hfind, Hstate, Hnot.
  cbn [String.eqb Ascii.eqb Bool.eqb].
  rewrite Hcreate. unfold lift.
  now destruct (SD.created resp).
Qed.

Lemma created_classified (prefix : string) (resp : json) :
  classified resp (settled prefix (EC.created resp)).
Proof.
  unfold classified, EC.created. intros status Hs. rewrite Hs. simpl.
  split.
  - intros Herr. rewrite Herr. split.
    + intros code Hc H3010. rewrite Hc. simpl. rewrite H3010. simpl. auto.
    + intros Hother.
      destruct (getitem resp "error_code") as [code| |] eqn:Hc; simpl; auto.
      * rewrite (Hother code eq_refl). reflexivity.
      * now apply getitem_not_exit in Hc.
  - intros Hok. rewrite Hok. simpl. auto.
Qed.

(** C1. Once the create call has answered, a response with status "error"
    and error code "3010" ends the run with changed=false, failed=false; a
    response with status "error" and another error code ends it with
    failed=true; a response with any other status ends it with
    changed=true, failed=false.  Both modules classify alike. *)
Theorem create_response_classified :
  (forall (remote : transport) (p : EC.params) (resp : json) (tr : trace),
      ec_create_answered remote p resp tr ->
      exists o, execute (EC.run_module remote p) = (Exited o, tr)
                /\ classified resp o)
  /\ (forall (remote : transport) (p : SD.params) (resp : json) (tr : trace),
      sd_create_answered remote p resp tr ->
      exists o, execute (SD.run_module remote p) = (Exited o, tr)
                /\ classified resp o).
Proof.
  split; intros remote p resp tr H; eexists; split.
  - exact (ec_run_after_create _ _ _ _ H).
  - apply created_classified.
  - exact (sd_run_after_create _ _ _ _ H).
  - apply (created_classified "failed to create request: ").
Qed.

Definition vendor_answer (status error_code : string) : json :=
  JObj [("status", JStr status); ("error_code", JStr error_code)].

(** The three classes on concrete runs of the patch-config module. *)
Example ec_create_runs :
  fst (execute (EC.run_module
                  (ec_remote [] sample_policies (vendor_answer "error" "3010"))
                  ec_params))
  = Exited (mkOutcome false false (MsgJson (vendor_answer "error" "3010")))
  /\ fst (execute (EC.run_module
                     (ec_remote [] sample_policies
                        (vendor_answer "error" "1001"))
                     ec_params))
     = Exited (mkOutcome false true (MsgJson (vendor_answer "error" "1001")))
  /\ fst (execute (EC.run_module
                     (ec_remote [] sample_policies
                        (JObj [("status", JStr "success")]))
                     ec_params))
     = Exited (mkOutcome true false
                 (MsgJson (JObj [("status", JStr "success")]))).
Proof. repeat split; reflexivity. Qed.

Lemma create_response_classified_witness :
  (exists o,
      execute (EC.run_module
                 (ec_remote [] sample_policies (vendor_answer "error" "3010"))
                 ec_params)
      = (Exited o,
         snd (execute (EC.run_module
                         (ec_remote [] sample_policies
                            (vendor_answer "error" "3010"))
                         ec_params)))
      /\ classified (vendor_answer "error" "3010") o)
  /\ (exists o,
        execute (SD.run_module
                   (sd_remote [] (JObj [("request",
                                         vendor_answer "error" "4000")])
                      JNull)
                   (sd_params None "present"))
        = (Exited o,
           snd (execute (SD.run_module
                           (sd_remote [] (JObj [("request",
                                                 vendor_answer "error" "4000")])
                              JNull)
                           (sd_params None "present"))))
        /\ classified (vendor_answer "error" "4000") o).
Proof.
  split.
  - apply (proj1 create_response_classified).
    split; [reflexivity|].
    exists (JArr []), [EC.objects_request (EC.connection ec_params)
                         "viewconfig" ""].
    repeat split; reflexivity.
  - apply (proj2 create_response_classified).
    split; [reflexivity|].
    exists (JArr []),
      [SD.objects_request (SD.connection (sd_params None "present"))
         "requests"],
      None.
    repeat split; reflexivity.
Defined.

(** ** Desired state absent *)

(** The delete call succeeded: status 200 or 201 and a body whose
    [response_status.status] is "success". *)
Definition delete_succeeded (response : http_response) : bool :=
  SD.ok_status (status_code response)
  && holds (rbind (json_loads response) (fun body =>
            rbind (getitem body "response_status") (fun response_status =>
            rbind (getitem response_status "status") (fun status =>
            Ret (eq_str status "success"))))).

Lemma delete_tms_ticket_run (remote : transport) (c : SD.conn)
  (request_id : json) (tr : trace) :
  SD.delete_tms_ticket remote c request_id tr
  = (let response := remote (SD.delete_request c request_id) in
     if SD.ok_status (status_code response) then json_loads response
     else Raise (HTTPFailure (status_code response)),
     tr ++ [SD.delete_request c request_id]).
Proof.
  unfold SD.delete_tms_ticket, iobind, send, lift. cbv zeta.
  now destruct (SD.ok_status _).
Qed.

Lemma json_loads_not_exit (response : http_response) (o : outcome) :
  json_loads response <> SysExit o.
Proof. unfold json_loads. destruct (text response); discriminate. Qed.

Lemma deleted_outcome (response : http_response) :
  let r := rbind (if SD.ok_status (status_code response)
                  then json_loads response
                  else Raise (HTTPFailure (status_code response)))
                 SD.deleted in
  let o := settled "failed to create request: " r in
  (delete_succeeded response = true -> changed o = true /\ failed o = false)
  /\ (delete_succeeded response = false ->
      failed o = true /\ changed o = false).
Proof.
  cbv zeta. unfold delete_succeeded, SD.deleted.
  destruct (SD.ok_status (status_code response)); simpl.
  2:{ split; [discriminate | auto]. }
  destruct (json_loads response) as [body| |] eqn:Hb; simpl.
  2:{ split; [discriminate | auto]. }
  2:{ now apply json_loads_not_exit in Hb. }
  destruct (getitem body "response_status") as [rs| |] eqn:Hrs; simpl.
  2:{ split; [discriminate | auto]. }
  2:{ now apply getitem_not_exit in Hrs. }
  destruct (getitem rs "status") as [status| |] eqn:Hst; simpl.
  2:{ split; [discriminate | auto]. }
  2:{ now apply getitem_not_exit in Hst. }
  destruct (eq_str status "success"); simpl; split; auto; discriminate.
Qed.

(** C6. In the ticket module with desired state [absent]: when the matcher
    finds no ticket, the run ends with changed=false, failed=false and no
    DELETE is sent; when it finds a ticket, which carries an id, one DELETE
    for that id is sent after the fetch, and the run ends with
    changed=true, failed=false exactly when the delete call succeeded with
    [response_status.status] equal to "success", and with failed=true,
    changed=false on any other answer. *)
Theorem absent_deletes_found_ticket
  (remote : transport) (p : SD.params) (requests : json) (tr : trace)
  (request : option json) :
  SD.state p = "absent" ->
  SD.get_api_objects remote (SD.connection p) "requests" []
  = (Ret requests, tr) ->
  SD.find_request (SD.name p) requests (SD.hosts p) (SD.patch_types p)
  = Ret request ->
  (request = None ->
   execute (SD.run_module remote p)
   = (Exited (mkOutcome false false (MsgText "request does not exist")), tr)
   /\ existsb mutating tr = false)
  /\ (forall r id,
        request = Some r -> getitem r "id" = Ret id ->
        let delete := SD.delete_request (SD.connection p) id in
        exists o,
          execute (SD.run_module remote p) = (Exited o, tr ++ [delete])
          /\ method delete = DELETE
          /\ existsb mutating tr = false
          /\ (delete_succeeded (remote delete) = true ->
              changed o = true /\ failed o = false)
          /\ (delete_succeeded (remote delete) = false ->
              failed o = true /\ changed o = false)).
Proof.
  intros Hstate Hfetch Hfind.
  assert (Hreads : existsb mutating tr = false).
  { rewrite sd_get_api_objects_trace in Hfetch. injection Hfetch as _ <-.
    reflexivity. }
  split.
  - intros ->. split; [|exact Hreads].
    unfold execute, SD.run_module. cbv zeta.
    unfold io_try_except, iobind. rewrite Hfetch.
    unfold lift at 1. rewrite Hfind, Hstate. reflexivity.
  - intros r id -> Hid. cbv zeta.
    pose proof (deleted_outcome
                  (remote (SD.delete_request (SD.connection p) id)))
      as [Hyes Hno].
    cbv zeta in Hyes, Hno.
    eexists. split; [|split; [reflexivity|split; [exact Hreads|]]].
    2:{ split; [exact Hyes | exact Hno]. }
    unfold execute, SD.run_module. cbv zeta.
    unfold io_try_except, iobind. rewrite Hfetch.
    unfold lift at 1. rewrite Hfind, Hstate.
    rewrite (find_request_some_found _ _ _ _ _ Hfind).
    cbn [String.eqb Ascii.eqb Bool.eqb negb].
    unfold lift at 1. rewrite Hid. rewrite delete_tms_ticket_run. cbv zeta.
    destruct (SD.ok_status _); [|reflexivity].
    destruct (json_loads _) as [body| |]; try reflexivity.
    unfold lift. cbn [rbind settled].
    destruct (SD.deleted body); reflexivity.
Qed.

Definition deleted_answer (status : string) : json :=
  JObj [("response_status", JObj [("status_code", JNum 2000);
                                  ("status", JStr status)])].

Definition sd_absent_params : SD.params :=
  sd_params (Some ["Cumulative Update"]) "absent".

(** The three cases on concrete runs: nothing to delete, a delete that
    succeeds, a delete answered otherwise. *)
Example sd_absent_runs :
  fst (execute (SD.run_module (sd_remote [] JNull (deleted_answer "success"))
                  sd_absent_params))
  = Exited (mkOutcome false false (MsgText "request does not exist"))
  /\ fst (execute (SD.run_module
                     (sd_remote sample_requests JNull
                        (deleted_answer "success"))
                     sd_absent_params))
     = Exited (mkOutcome true false (MsgJson (deleted_answer "success")))
  /\ fst (execute (SD.run_module
                     (sd_remote sample_requests JNull
                        (deleted_answer "failed"))
                     sd_absent_params))
     = Exited (mkOutcome false true (MsgJson (deleted_answer "failed")))
  /\ fst (execute (SD.run_module
                     (sd_remote sample_requests JNull (JArr []))
                     sd_absent_params))
     = Exited (mkOutcome false true
                 (MsgExn "failed to create request: " TypeError)).
Proof. repeat split; reflexivity. Qed.

Lemma absent_deletes_found_ticket_witness :
  let remote := sd_remote sample_requests JNull (deleted_answer "success") in
  let delete :=
    SD.delete_request (SD.connection sd_absent_params) (JStr "12") in
  let tr := [SD.objects_request (SD.connection sd_absent_params) "requests"] in
  exists o,
    execute (SD.run_module remote sd_absent_params)
    = (Exited o, tr ++ [delete])
    /\ method delete = DELETE
    /\ existsb mutating tr = false
    /\ (delete_succeeded (remote delete) = true ->
        changed o = true /\ failed o = false)
    /\ (delete_succeeded (remote delete) = false ->
        failed o = true /\ changed o = false).
Proof.
  cbv zeta.
  apply (proj2 (absent_deletes_found_ticket
                  (sd_remote sample_requests JNull (deleted_answer "success"))
                  sd_absent_params (JArr sample_requests)
                  [SD.objects_request (SD.connection sd_absent_params)
                     "requests"]
                  (nth_error sample_requests 1)
                  eq_refl eq_refl eq_refl)
           _ (JStr "12") eq_refl eq_refl).
Defined.

(** ** The create call of the ticket module *)

(** The run of the ticket module is about to send the create call: the
    tickets were fetched, none matched, and the requester was resolved to
    [requester_id]; [tr] holds the calls made so far. *)
Definition sd_ready_to_create (remote : transport) (p : SD.params)
  (tr : trace) (requester_id : Z) : Prop :=
  SD.state p = "present"
  /\ exists requests tr0 request user,
      SD.get_api_objects remote (SD.connection p) "requests" []
      = (Ret requests, tr0)
      /\ SD.find_request (SD.name p) requests (SD.hosts p) (SD.patch_types p)
         = Ret request
      /\ SD.found request = false
      /\ SD.get_user_by_username remote (SD.connection p) "sv-automation" tr0
         = (Ret user, tr)
      /\ (id <- getitem user "id" ;; int id)%res = Ret requester_id.

(** C10. When the create call of the ticket module is answered with status
    200 or 201 and a body [body], [create_tms_request] returns the object
    under the key "request" of [body] and nothing else of it; the
    classification reads the "status" field of that object, whatever the
    top level of [body] holds: if it is not the string "error" the run ends
    with changed=true, failed=false. *)
Theorem create_classifies_unwrapped_request
  (remote : transport) (p : SD.params) (tr : trace) (requester_id : Z)
  (code : Z) (body r : json) :
  let post :=
    SD.create_request (SD.connection p) (SD.name p)
      (SD.deployment_policy_name p) (SD.hosts p) (SD.patch_types p)
      requester_id in
  sd_ready_to_create remote p tr requester_id ->
  remote post = mkResponse code (Some body) ->
  code = 200 \/ code = 201 ->
  getitem body "request" = Ret r ->
  sd_create_answered remote p r (tr ++ [post])
  /\ forall status,
      getitem r "status" = Ret status ->
      eq_str status "error" = false ->
      execute (SD.run_module remote p)
      = (Exited (mkOutcome true false (MsgJson r)), tr ++ [post]).
Proof.
  intros post [Hstate [requests [tr0 [request [user
    [Hfetch [Hfind [Hnot [Huser Hid]]]]]]]]] Hpost Hcode Hreq.
  assert (Hanswered : sd_create_answered remote p r (tr ++ [post])).
  { split; [exact Hstate|]. exists requests, tr0, request.
    repeat split; try assumption.
    unfold SD.create_tms_request, iobind. rewrite Huser.
    unfold lift at 1. rewrite Hid. unfold send. fold post. rewrite Hpost.
    cbn [status_code].
    assert (Hok : SD.ok_status code = true) by now destruct Hcode; subst.
    rewrite Hok. unfold lift, json_loads. cbn [text rbind].
    now rewrite Hreq. }
  split; [exact Hanswered|].
  intros status Hstatus Hne.
  rewrite (sd_run_after_create _ _ _ _ Hanswered).
  unfold SD.created. rewrite Hstatus. cbn [rbind]. rewrite Hne. reflexivity.
Qed.

(** A create answer whose top level says "error" while the ticket under
    "request" carries an ordinary status object. *)
Definition wrapped_answer : json :=
  JObj [("status", JStr "error");
        ("request", JObj [("id", JStr "77");
                          ("status", JObj [("name", JStr "Open")])])].

Lemma create_classifies_unwrapped_request_witness :
  let p := sd_params None "present" in
  let tr := [SD.objects_request (SD.connection p) "requests";
             SD.users_request (SD.connection p) "sv-automation"] in
  let post :=
    SD.create_request (SD.connection p) (SD.name p)
      (SD.deployment_policy_name p) (SD.hosts p) (SD.patch_types p) 42 in
  let r := JObj [("id", JStr "77");
                 ("status", JObj [("name", JStr "Open")])] in
  execute (SD.run_module (sd_remote [] wrapped_answer JNull) p)
  = (Exited (mkOutcome true false (MsgJson r)), tr ++ [post]).
Proof.
  cbv zeta.
  refine (proj2 (create_classifies_unwrapped_request
                   (sd_remote [] wrapped_answer JNull)
                   (sd_params None "present")
                   [SD.objects_request
                      (SD.connection (sd_params None "present")) "requests";
                    SD.users_request
                      (SD.connection (sd_params None "present"))
                      "sv-automation"]
                   42 201 wrapped_answer _ _ eq_refl (or_intror eq_refl)
                   eq_refl)
            (JObj [("name", JStr "Open")]) eq_refl eq_refl).
  split; [reflexivity|].
  exists (JArr []),
    [SD.objects_request (SD.connection (sd_params None "present"))
       "requests"],
    None,
    (JObj [("id", JStr "42"); ("name", JStr "automation")]).
  repeat split; reflexivity.
Defined.

(** ** Omitted patch types *)

(** A ticket that passes the two leading checks and names another host. *)
Definition other_host_request : json :=
  JObj [("id", JStr "21"); ("subject", JStr "Request created by Ansible");
        ("status", JObj [("name", JStr "Open")]);
        ("short_description", JStr "updates for : ['db1']")].

(** C9, as stated, fails: the list holds an open ticket under the desired
    name, [patch_types] is omitted, and the matcher returns [None] without
    raising, because the ticket does not mention the requested hosts and
    the conjunct over [patch_types] is never evaluated; the run ends
    without failure. *)
Lemma omitted_patch_types_unnoticed :
  open_under_name "Request created by Ansible" other_host_request
  /\ SD.find_request "Request created by Ansible"
       (JArr [other_host_request]) ["web1"; "web2"] None
     = Ret None
  /\ fst (execute (SD.run_module
                     (sd_remote [other_host_request] JNull JNull)
                     (sd_params None "absent")))
     = Exited (mkOutcome false false (MsgText "request does not exist")).
Proof.
  split; [|split; reflexivity].
  split.
  - exists "Request created by Ansible". split; [reflexivity|].
    now exists EmptyString.
  - exists (JObj [("name", JStr "Open")]), (JStr "Open"). now repeat split.
Qed.

Lemma existsb_first {A} (f : A -> bool) (l : list A) :
  existsb f l = true ->
  exists pre x post,
    l = pre ++ x :: post /\ f x = true /\ forall y, In y pre -> f y = false.
Proof.
  induction l as [|a l IH]; simpl; [discriminate|].
  destruct (f a) eqn:Ha.
  - intros _. exists [], a, l. repeat split; [exact Ha | intros y []].
  - intros H. destruct (IH H) as [pre [x [post [-> [Hx Hpre]]]]].
    exists (a :: pre), x, post. repeat split; [exact Hx|].
    intros y [<- | Hy]; [exact Ha | now apply Hpre].
Qed.

(** C9, amended. On a list of tickets as the API lists them, with
    [patch_types] omitted: if some ticket passes the first three checks
    (subject starting with the desired name, status name "Open", short
    description containing every requested host name), the existence check
    raises [TypeError], which [find_request] turns into a failure, and the
    run ends failed without any further call; if no ticket passes the three
    checks, in particular if none passes the two leading ones, the check
    returns [None] and the omission causes no failure. *)
Theorem omitted_patch_types_fail_after_host_check
  (remote : transport) (p : SD.params) (requests : list json) (tr : trace) :
  SD.patch_types p = None ->
  SD.get_api_objects remote (SD.connection p) "requests" []
  = (Ret (JArr requests), tr) ->
  forallb request_wf requests = true ->
  let failure :=
    mkOutcome false true (MsgExn "Failed to find existing request " TypeError)
  in
  ((exists r, In r requests /\ leading_checks (SD.name p) (SD.hosts p) r) ->
   SD.find_request (SD.name p) (JArr requests) (SD.hosts p) None
   = SysExit failure
   /\ execute (SD.run_module remote p) = (Exited failure, tr))
  /\ ((forall r, In r requests ->
                 ~ leading_checks (SD.name p) (SD.hosts p) r) ->
      SD.find_request (SD.name p) (JArr requests) (SD.hosts p) None
      = Ret None)
  /\ ((forall r, In r requests -> ~ open_under_name (SD.name p) r) ->
      SD.find_request (SD.name p) (JArr requests) (SD.hosts p) None
      = Ret None).
Proof.
  intros Hnone Hfetch Hwf failure.
  assert (Hcond : forall r,
             In r requests ->
             SD.request_matches (SD.name p) (SD.hosts p) None r
             = if leading_checksb (SD.name p) (SD.hosts p) r
               then Raise TypeError else Ret false).
  { intros r Hin. apply request_matches_wf, (forallb_In _ _ _ Hwf Hin). }
  assert (Hquiet : (forall r, In r requests ->
                      ~ leading_checks (SD.name p) (SD.hosts p) r) ->
                   SD.find_request (SD.name p) (JArr requests) (SD.hosts p)
                     None = Ret None).
  { intros Hno. unfold SD.find_request. simpl.
    rewrite nextM_none; [reflexivity|].
    intros y Hy. rewrite (Hcond y Hy).
    destruct (leading_checksb _ _ y) eqn:E; [|reflexivity].
    now apply leading_checksb_spec, Hno in E. }
  split; [|split; [exact Hquiet|]].
  - intros [r [Hin Hr]].
    assert (Hfind : SD.find_request (SD.name p) (JArr requests) (SD.hosts p)
                      None = SysExit failure).
    { assert (Hex : existsb (leading_checksb (SD.name p) (SD.hosts p))
                      requests = true).
      { apply existsb_exists. exists r. split; [exact Hin|].
        now apply leading_checksb_spec. }
      apply existsb_first in Hex as [pre [x [post [Heq [Hx Hpre]]]]].
      unfold SD.find_request. simpl. rewrite Heq.
      rewrite nextM_first.
      - rewrite Hcond, Hx; [reflexivity|]. rewrite Heq. apply in_elt.
      - intros y Hy. rewrite Hcond, (Hpre y Hy); [reflexivity|].
        rewrite Heq. apply in_or_app. now left. }
    split; [exact Hfind|].
    unfold execute, SD.run_module. cbv zeta.
    unfold io_try_except, iobind. rewrite Hfetch.
    unfold lift at 1. rewrite Hnone, Hfind. reflexivity.
  - intros Hno. apply Hquiet. intros r Hin [Hr _]. now apply (Hno r).
Qed.

Lemma omitted_patch_types_fail_after_host_check_witness :
  let p := sd_params None "present" in
  let failure :=
    mkOutcome false true (MsgExn "Failed to find existing request " TypeError)
  in
  SD.find_request (SD.name p) (JArr sample_requests) (SD.hosts p) None
  = SysExit failure
  /\ execute (SD.run_module (sd_remote sample_requests JNull JNull) p)
     = (Exited failure, [SD.objects_request (SD.connection p) "requests"]).
Proof.
  cbv zeta.
  apply (proj1 (omitted_patch_types_fail_after_host_check
                  (sd_remote sample_requests JNull JNull)
                  (sd_params None "present") sample_requests
                  [SD.objects_request
                     (SD.connection (sd_params None "present")) "requests"]
                  eq_refl eq_refl eq_refl)).
  exists (JObj [("id", JStr "12");
                ("subject", JStr "Request created by Ansible");
                ("status", JObj [("name", JStr "Open")]);
                ("short_description",
                 JStr "['Cumulative Update'] updates for : ['web1', 'web2']")]).
  split; [simpl; auto|].
  apply leading_checksb_spec. reflexivity.
Defined.

(** ** Resolving the deployment policy *)

(** Reading and filtering values never leaves the process: only
    [fail_json] and [exit_json] do. *)
Definition no_exit {A} (r : res A) : Prop := forall o, r <> SysExit o.

Lemma no_exit_Ret {A} (a : A) : no_exit (Ret a).
Proof. intros o. discriminate. Qed.

Lemma no_exit_Raise {A} (e : exn) : no_exit (@Raise A e).
Proof. intros o. discriminate. Qed.

Lemma no_exit_rbind {A B} (r : res A) (k : A -> res B) :
  no_exit r -> (forall a, no_exit (k a)) -> no_exit (rbind r k).
Proof.
  intros Hr Hk. destruct r as [a| |o]; simpl.
  - apply Hk.
  - apply no_exit_Raise.
  - now destruct (Hr o).
Qed.

Lemma no_exit_getitem (v : json) (key : string) : no_exit (getitem v key).
Proof. intros o. apply getitem_not_exit. Qed.

Lemma no_exit_int (v : json) : no_exit (int v).
Proof.
  intros o. destruct v; simpl; try discriminate.
  destruct (int_of_string s); discriminate.
Qed.

Lemma no_exit_iter (v : json) : no_exit (iter v).
Proof. intros o. destruct v; discriminate. Qed.

Lemma no_exit_split_ (v : json) : no_exit (split_ v).
Proof. intros o. destruct v; discriminate. Qed.

Lemma no_exit_json_loads (response : http_response) :
  no_exit (json_loads response).
Proof. intros o. apply json_loads_not_exit. Qed.

Lemma no_exit_if {A} (b : bool) (r1 r2 : res A) :
  no_exit r1 -> no_exit r2 -> no_exit (if b then r1 else r2).
Proof. now destruct b. Qed.

Create HintDb no_exit.
#[local] Hint Resolve no_exit_Ret no_exit_Raise no_exit_getitem no_exit_int
  no_exit_iter no_exit_split_ no_exit_json_loads : no_exit.
#[local] Hint Extern 2 (no_exit (rbind _ _)) =>
  apply no_exit_rbind; [|intros ?] : no_exit.
#[local] Hint Extern 2 (no_exit (if _ then _ else _)) =>
  apply no_exit_if : no_exit.

Section NoExit.
Context {A : Type} (cond : A -> res bool).
Hypothesis cond_no_exit : forall x, no_exit (cond x).

Lemma no_exit_filterM (l : list A) : no_exit (filterM cond l).
Proof. induction l; simpl; auto 6 with no_exit. Qed.

Lemma no_exit_anyM (l : list A) : no_exit (anyM cond l).
Proof. induction l; simpl; auto 6 with no_exit. Qed.

Lemma no_exit_nextM (l : list A) : no_exit (nextM cond l).
Proof. induction l; simpl; auto 6 with no_exit. Qed.
End NoExit.

Lemma no_exit_mapM {A B} (f : A -> res B) (l : list A) :
  (forall x, no_exit (f x)) -> no_exit (mapM f l).
Proof. intros Hf. induction l; simpl; auto 6 with no_exit. Qed.

Lemma no_exit_resource_ids_of (all_systems : json) (hosts : list string) :
  no_exit (EC.resource_ids_of all_systems hosts).
Proof.
  unfold EC.resource_ids_of. apply no_exit_rbind; [auto with no_exit|].
  intros systems. apply no_exit_rbind.
  - apply no_exit_filterM. intros x. auto with no_exit.
  - intros selected. apply no_exit_mapM. intros x. auto with no_exit.
Qed.

Lemma no_exit_selected_patches (all_patches : json)
  (patch_types : list string) :
  no_exit (EC.selected_patches all_patches patch_types).
Proof.
  unfold EC.selected_patches. apply no_exit_rbind; [auto with no_exit|].
  intros patches. apply no_exit_filterM. intros x.
  unfold EC.patch_selected, andM. apply no_exit_rbind.
  - apply no_exit_anyM. intros utype. auto 6 with no_exit.
  - intros b. auto 6 with no_exit.
Qed.

Lemma no_exit_policy_id_of (policies : json) (policy_name : string) :
  no_exit (EC.policy_id_of policies policy_name).
Proof.
  unfold EC.policy_id_of. apply no_exit_rbind; [auto with no_exit|].
  intros entries. apply no_exit_rbind.
  - apply no_exit_nextM. intros x. auto with no_exit.
  - intros [x|]; auto with no_exit.
Qed.

Lemma no_exit_ec_fetch (remote : transport) (c : EC.conn)
  (object_name filter : string) :
  no_exit (fst (EC.get_api_objects remote c object_name filter [])).
Proof.
  unfold EC.get_api_objects, iobind, send, lift. simpl.
  destruct (status_code _ =? 200); simpl; auto 6 with no_exit.
Qed.

(** The policy generator over entries none of which carries the requested
    name ends in an exception: [StopIteration] at the end of the list, or
    what reading an entry raised. *)
Lemma policy_id_of_unknown (policies : list json) (policy_name : string) :
  (forall x, In x policies ->
             forall v, getitem x "template_name" = Ret v ->
                       eq_str v policy_name = false) ->
  exists e, EC.policy_id_of (JArr policies) policy_name = Raise e.
Proof.
  intros Hnone. unfold EC.policy_id_of. simpl.
  destruct (nextM_never
              (fun x => (name <- getitem x "template_name" ;;
                         Ret (eq_str name policy_name))%res) policies)
    as [[e He] | [[o Ho] | Hn]].
  - intros y Hy. destruct (getitem y "template_name") as [v| |] eqn:E;
      simpl; try discriminate.
    rewrite (Hnone y Hy v E). discriminate.
  - rewrite He. simpl. eauto.
  - exfalso. revert Ho. apply no_exit_nextM. intros x. auto with no_exit.
  - rewrite Hn. simpl. eauto.
Qed.

(** Without a policy of the requested name, [patch_hosts] makes GET calls
    only and ends in an exception or in the [fail_json] of its handler. *)
Lemma patch_hosts_without_policy (remote : transport) (c : EC.conn)
  (config_name config_desc policy_name : string)
  (hosts patch_types : list string) (policies : list json) (tr0 : trace) :
  fst (EC.get_api_objects remote c "deploymentpolicies" "" [])
  = Ret (JArr policies) ->
  (forall x, In x policies ->
             forall v, getitem x "template_name" = Ret v ->
                       eq_str v policy_name = false) ->
  existsb mutating tr0 = false ->
  exists r tr,
    EC.patch_hosts remote c config_name config_desc policy_name hosts
      patch_types tr0 = (r, tr)
    /\ existsb mutating tr = false
    /\ ((exists e, r = Raise e)
        \/ r = SysExit (mkOutcome false true
                          (MsgText "failed to find deployment policy"))).
Proof.
  intros Hpolicies Hnone Htr0.
  unfold EC.patch_hosts, iobind.
  rewrite get_resource_ids_for_patching_fetch.
  assert (H1 : existsb mutating
                 (tr0 ++ [EC.objects_request c "allsystems" ""]) = false)
    by now apply no_mutation_after_get.
  destruct (rbind (fst (EC.get_api_objects remote c "allsystems" "" [])) _)
    as [resource_ids|e|o] eqn:Eids.
  2:{ eauto 8. }
  2:{ exfalso. revert Eids. apply no_exit_rbind.
      - apply no_exit_ec_fetch.
      - intros a. apply no_exit_resource_ids_of. }
  rewrite ec_get_api_objects_trace.
  assert (H2 : existsb mutating
                 ((tr0 ++ [EC.objects_request c "allsystems" ""])
                  ++ [EC.objects_request c "allpatches" ""]) = false)
    by now apply no_mutation_after_get.
  destruct (fst (EC.get_api_objects remote c "allpatches" "" []))
    as [all_patches|e|o] eqn:Epatches.
  2:{ eauto 8. }
  2:{ exfalso. revert Epatches. apply no_exit_ec_fetch. }
  unfold lift at 1.
  destruct (EC.selected_patches all_patches patch_types)
    as [selected|e|o] eqn:Esel.
  2:{ eauto 8. }
  2:{ exfalso. revert Esel. apply no_exit_selected_patches. }
  unfold lift at 1.
  destruct (mapM _ selected) as [patch_ids|e|o] eqn:Epid.
  2:{ eauto 8. }
  2:{ exfalso. revert Epid. apply no_exit_mapM. intros x.
      auto with no_exit. }
  unfold io_except_StopIteration.
  rewrite ec_get_api_objects_trace, Hpolicies.
  unfold lift at 1.
  destruct (policy_id_of_unknown policies policy_name Hnone) as [e He].
  rewrite He.
  assert (H3 : existsb mutating
                 (((tr0 ++ [EC.objects_request c "allsystems" ""])
                   ++ [EC.objects_request c "allpatches" ""])
                  ++ [EC.objects_request c "deploymentpolicies" ""]) = false)
    by now apply no_mutation_after_get.
  destruct e; unfold lift, fail_json; eauto 8.
Qed.

(** C8. Policy resolution returns the [template_id] of the first entry, in
    list order, whose [template_name] equals the requested name.  When the
    deployment policies were fetched and no entry carries the requested
    name, a run that got as far as creating the config ends as a failure
    with failed=true, changed=false, and has made no POST. *)
Theorem policy_resolved_by_first_exact_name :
  (forall (policy_name : string) (pre : list json) (x : json)
          (post : list json),
      (forall y, In y pre ->
                 exists v, getitem y "template_name" = Ret v
                           /\ eq_str v policy_name = false) ->
      (exists v, getitem x "template_name" = Ret v
                 /\ eq_str v policy_name = true) ->
      EC.policy_id_of (JArr (pre ++ x :: post)) policy_name
      = getitem x "template_id")
  /\ (forall (remote : transport) (p : EC.params) (configs : json)
        (tr0 : trace) (policies : list json),
      EC.state p = "present" ->
      EC.get_api_objects remote (EC.connection p) "viewconfig" "" []
      = (Ret configs, tr0) ->
      EC.check_if_config_exists (EC.name p) configs (EC.hosts p)
      = Ret false ->
      fst (EC.get_api_objects remote (EC.connection p) "deploymentpolicies"
             "" [])
      = Ret (JArr policies) ->
      (forall x, In x policies ->
                 forall v, getitem x "template_name" = Ret v ->
                           eq_str v (EC.deployment_policy_name p) = false) ->
      exists o tr,
        execute (EC.run_module remote p) = (Exited o, tr)
        /\ failed o = true /\ changed o = false
        /\ existsb mutating tr = false).
Proof.
  split.
  - intros policy_name pre x post Hpre [v [Hx Hv]].
    unfold EC.policy_id_of. simpl. rewrite nextM_first.
    + rewrite Hx. simpl. rewrite Hv. reflexivity.
    + intros y Hy. destruct (Hpre y Hy) as [w [Hw Hne]].
      rewrite Hw. simpl. now rewrite Hne.
  - intros remote p configs tr0 policies Hstate Hfetch Hcheck Hpol Hnone.
    assert (Htr0 : existsb mutating tr0 = false).
    { rewrite ec_get_api_objects_trace in Hfetch. injection Hfetch as _ <-.
      reflexivity. }
    destruct (patch_hosts_without_policy remote (EC.connection p) (EC.name p)
                (EC.desc p) (EC.deployment_policy_name p) (EC.hosts p)
                (EC.patch_types p) policies tr0 Hpol Hnone Htr0)
      as [r [tr [Hrun [Htr Hr]]]].
    unfold execute, EC.run_module. cbv zeta.
    unfold io_try_except, iobind. rewrite Hfetch.
    unfold lift at 1. rewrite Hcheck, Hstate.
    cbn [String.eqb Ascii.eqb Bool.eqb]. rewrite Hrun.
    destruct Hr as [[e ->] | ->]; unfold lift, fail_json; eauto 8.
Qed.

Definition other_policies : list json :=
  [JObj [("template_name", JStr "Update Workstations");
         ("template_id", JNum 301)];
   JObj [("template_name", JStr "update servers");
         ("template_id", JNum 304)]].

(** A run that finds no policy named "Update Servers": four fetches, then
    the failure of the handler in [patch_hosts]. *)
Example ec_unknown_policy_run :
  execute (EC.run_module (ec_remote [] other_policies JNull) ec_params)
  = (Exited (mkOutcome false true
               (MsgText "failed to find deployment policy")),
     map (fun object_name =>
            EC.objects_request (EC.connection ec_params) object_name "")
         ["viewconfig"; "allsystems"; "allpatches"; "deploymentpolicies"]).
Proof. reflexivity. Qed.

Lemma policy_resolved_by_first_exact_name_witness :
  EC.policy_id_of (JArr sample_policies) "Update Servers" = Ret (JNum 302)
  /\ exists o tr,
      execute (EC.run_module (ec_remote [] other_policies JNull) ec_params)
      = (Exited o, tr)
      /\ failed o = true /\ changed o = false
      /\ existsb mutating tr = false.
Proof.
  split.
  - apply (proj1 policy_resolved_by_first_exact_name "Update Servers"
             (firstn 1 sample_policies)
             (JObj [("template_name", JStr "Update Servers");
                    ("template_id", JNum 302)])
             (skipn 2 sample_policies)).
    + intros y [<- | []]. exists (JStr "Update Workstations"). now split.
    + exists (JStr "Update Servers"). now split.
  - apply (proj2 policy_resolved_by_first_exact_name
             (ec_remote [] other_policies JNull) ec_params (JArr [])
             [EC.objects_request (EC.connection ec_params) "viewconfig" ""]
             other_policies eq_refl eq_refl eq_refl eq_refl).
    intros x [<- | [<- | []]] v Hv; injection Hv as <-; reflexivity.
Defined.

(** * Further properties of the two modules *)

(** ** The config matcher on any decoded value *)

Lemma anyM_false {A} (cond : A -> res bool) (l : list A) :
  anyM cond l = Ret false -> forall x, In x l -> cond x = Ret false.
Proof.
  induction l as [|y l IH]; simpl; [intros _ x []|].
  destruct (cond y) as [[|]| |] eqn:E; simpl; try discriminate.
  intros H x [<- | Hx]; [exact E | now apply IH].
Qed.

Lemma no_exit_config_matches (config_name : string) (hosts : list string)
  (config : json) :
  no_exit (EC.config_matches config_name hosts config).
Proof.
  unfold EC.config_matches, andM.
  apply no_exit_rbind; [|intros []; auto with no_exit].
  apply no_exit_rbind; [|intros []; auto with no_exit].
  apply no_exit_rbind; [|intros []; auto with no_exit].
  apply no_exit_rbind; [auto with no_exit|].
  intros name. destruct name; simpl; auto with no_exit.
Qed.

(** X1. Whatever the API returned as the config collection,
    [check_if_config_exists] never lets an exception through: it either
    answers, and then truthfully (true exactly when an entry it iterated
    over is the desired one), or it leaves through [fail_json] with
    failed=true, changed=false and the exception in the message. *)
Theorem config_check_answers_or_fails
  (config_name : string) (configs : json) (hosts : list string) :
  match EC.check_if_config_exists config_name configs hosts with
  | Ret b =>
      exists entries,
        iter configs = Ret entries
        /\ (b = true <->
            exists config, In config entries
                           /\ config_is_desired config_name hosts config)
  | Raise _ => False
  | SysExit o =>
      exists e, o = mkOutcome false true
                      (MsgExn "Failed to check existing configs " e)
  end.
Proof.
  unfold EC.check_if_config_exists, try_except.
  destruct (iter configs) as [entries|e|o] eqn:Hiter; simpl.
  - destruct (anyM (EC.config_matches config_name hosts) entries)
      as [b|e|o] eqn:Hany.
    + exists entries. split; [reflexivity|]. split.
      * intros ->. apply anyM_true in Hany as [config [Hin Hc]].
        exists config. split; [exact Hin|].
        now apply config_matches_true_iff.
      * intros [config [Hin Hc]]. apply config_matches_true_iff in Hc.
        destruct b; [reflexivity|].
        rewrite (anyM_false _ _ Hany config Hin) in Hc. discriminate.
    + unfold fail_json. eauto.
    + exfalso. revert Hany. apply no_exit_anyM.
      intros x. apply no_exit_config_matches.
  - unfold fail_json. eauto.
  - now apply no_exit_iter in Hiter.
Qed.

(** ** Requested hosts and the inventory *)

Lemma filterM_ext_in {A} (cond cond' : A -> res bool) (l : list A) :
  (forall x, In x l -> cond x = cond' x) -> filterM cond l = filterM cond' l.
Proof.
  induction l as [|x l IH]; intros H; simpl; [reflexivity|].
  rewrite (H x (or_introl eq_refl)), IH; [reflexivity|].
  intros y Hy. apply H. now right.
Qed.

Lemma in_strs_same_names (v : json) (hosts hosts' : list string) :
  (forall n, v = JStr n -> (In n hosts <-> In n hosts')) ->
  in_strs v hosts = in_strs v hosts'.
Proof.
  intros H. apply eq_true_iff_eq. rewrite !in_strs_spec.
  split; intros [h [-> Hin]]; exists h; (split; [reflexivity|]);
    now apply (H h eq_refl).
Qed.

(** X3. An inventory listed as an array: the two host lists are told apart
    only by the names the inventory holds, so their order, repetitions and
    names unknown to the inventory change nothing, neither the ids returned
    nor the exception raised. *)
Theorem resource_ids_depend_on_listed_names
  (inventory : list json) (hosts hosts' : list string) :
  (forall x n, In x inventory -> resource_name x = Ret (JStr n) ->
               (In n hosts <-> In n hosts')) ->
  EC.resource_ids_of (JArr inventory) hosts
  = EC.resource_ids_of (JArr inventory) hosts'
  /\ SD.resource_ids_of (JArr inventory) hosts
     = SD.resource_ids_of (JArr inventory) hosts'.
Proof.
  intros Hsame.
  assert (H : EC.resource_ids_of (JArr inventory) hosts
              = EC.resource_ids_of (JArr inventory) hosts').
  { unfold EC.resource_ids_of. simpl. f_equal.
    apply filterM_ext_in. intros x Hx.
    destruct (getitem x "resource_name") as [v| |] eqn:Hv; simpl;
      try reflexivity.
    f_equal. apply in_strs_same_names. intros n ->.
    now apply (Hsame x n Hx). }
  split; exact H.
Qed.

Lemma resource_ids_depend_on_listed_names_witness :
  EC.resource_ids_of (JArr sample_inventory) ["web2"; "gone"; "web1"; "web2"]
  = EC.resource_ids_of (JArr sample_inventory) ["web1"; "web2"]
  /\ SD.resource_ids_of (JArr sample_inventory)
       ["web2"; "gone"; "web1"; "web2"]
     = SD.resource_ids_of (JArr sample_inventory) ["web1"; "web2"].
Proof.
  apply (resource_ids_depend_on_listed_names sample_inventory
           ["web2"; "gone"; "web1"; "web2"] ["web1"; "web2"]).
  intros x n [<- | [<- | [<- | []]]] Hn; injection Hn as <-; simpl;
    intuition discriminate.
Defined.

(** ** Edge cases of the patch selector *)

(** X4. Without a requested label nothing is selected, and no entry of the
    catalog is read: entries without description or count go unnoticed. *)
Theorem no_label_selects_nothing (all_patches : list json) :
  EC.selected_patches (JArr all_patches) [] = Ret [].
Proof.
  unfold EC.selected_patches. simpl.
  induction all_patches as [|x l IH]; simpl; [reflexivity|].
  now rewrite IH.
Qed.

(** X5. A label without tokens (empty, or white space only) is a subset of
    every description: with such a label among the requested ones, every
    patch with a positive [missing] count is selected. *)
Theorem blank_label_selects_every_missing_patch
  (all_patches : list json) (patch_types : list string) (label : string) :
  forallb patch_wf all_patches = true ->
  In label patch_types -> split label = [] ->
  exists selected,
    EC.selected_patches (JArr all_patches) patch_types = Ret selected
    /\ forall x,
        In x selected
        <-> In x all_patches
            /\ exists m n, getitem x "missing" = Ret m /\ int m = Ret n
                           /\ 0 < n.
Proof.
  intros Hwf Hlabel Hblank. unfold EC.selected_patches. simpl.
  rewrite (filterM_total (EC.patch_selected patch_types)).
  - eexists. split; [reflexivity|]. intros x.
    rewrite filter_In, holds_true_iff, patch_selected_true_iff.
    unfold patch_is_wanted. split.
    + intros [Hin [_ Hm]]. auto.
    + intros [Hin Hm]. split; [exact Hin|]. split; [|exact Hm].
      pose proof (forallb_In _ _ _ Hwf Hin) as Hw.
      unfold patch_wf in Hw. apply andb_true_iff in Hw as [Hd _].
      apply has_str_field_ret in Hd as [d Hd].
      exists label, d. repeat split; try assumption.
      rewrite Hblank. intros tok [].
  - apply (forallb_Forall_evaluates patch_wf); [|exact Hwf].
    intros x. apply patch_selected_evaluates.
Qed.

Lemma blank_label_selects_every_missing_patch_witness :
  exists selected,
    EC.selected_patches (JArr sample_patches) ["Firmware"; "  "]
    = Ret selected
    /\ forall x,
        In x selected
        <-> In x sample_patches
            /\ exists m n, getitem x "missing" = Ret m /\ int m = Ret n
                           /\ 0 < n.
Proof.
  apply (blank_label_selects_every_missing_patch sample_patches
           ["Firmware"; "  "] "  ").
  - reflexivity.
  - simpl. auto.
  - reflexivity.
Defined.

Lemma issubset_same_tokens (a a' b b' : list string) :
  (forall tok, In tok a <-> In tok a') ->
  (forall tok, In tok b <-> In tok b') ->
  issubset a b = issubset a' b'.
Proof.
  intros Ha Hb. apply eq_true_iff_eq. rewrite !issubset_spec.
  split; intros H tok Hin; apply Hb, H, Ha, Hin.
Qed.

(** Two labels with the same tokens. *)
Definition same_tokens (label label' : string) : Prop :=
  forall tok, In tok (split label) <-> In tok (split label').

Lemma patch_selected_same_tokens (patch_types patch_types' : list string)
  (x : json) :
  Forall2 same_tokens patch_types patch_types' ->
  EC.patch_selected patch_types x = EC.patch_selected patch_types' x.
Proof.
  intros Hsame. unfold EC.patch_selected. f_equal.
  induction Hsame as [|label label' l l' Hlabel _ IH]; simpl; [reflexivity|].
  rewrite IH.
  destruct (getitem x "patch_description") as [d| |]; simpl; try reflexivity.
  destruct (split_ d) as [tokens| |]; simpl; try reflexivity.
  rewrite (issubset_same_tokens (split label) (split label') tokens tokens);
    [reflexivity | exact Hlabel | reflexivity].
Qed.

(** X6. The selector sees a label only as the set of its tokens: labels with
    the same tokens in another order, repeated, or spaced otherwise select
    the same patches and raise the same exceptions, on any catalog. *)
Theorem selection_depends_on_label_tokens
  (all_patches : json) (patch_types patch_types' : list string) :
  Forall2 same_tokens patch_types patch_types' ->
  EC.selected_patches all_patches patch_types
  = EC.selected_patches all_patches patch_types'.
Proof.
  intros Hsame. unfold EC.selected_patches.
  destruct (iter all_patches) as [patches| |]; simpl; try reflexivity.
  apply filterM_ext_in. intros x _.
  now apply patch_selected_same_tokens.
Qed.

Lemma selection_depends_on_label_tokens_witness :
  EC.selected_patches (JArr sample_patches)
    ["Cumulative Update for Windows Server"]
  = EC.selected_patches (JArr sample_patches)
      ["Windows  Server Update for Cumulative Update"].
Proof.
  apply (selection_depends_on_label_tokens (JArr sample_patches)
           ["Cumulative Update for Windows Server"]
           ["Windows  Server Update for Cumulative Update"]).
  constructor; [|constructor].
  intros tok. simpl. tauto.
Defined.

(** ** Runs of the patch-config module, case by case *)

(** A failure as [fail_json] is called throughout: failed, unchanged. *)
Definition clean_failure (o : outcome) : Prop :=
  failed o = true /\ changed o = false.

(** The payload of the create call. *)
Definition install_payload (patch_ids : list json) (resource_ids : list Z)
  (config_name config_desc : string) (policy_id : json) : json :=
  JObj [("PatchIDs", JArr patch_ids);
        ("ResourceIDs", JArr (map JNum resource_ids));
        ("ConfigName", JStr config_name);
        ("ConfigDescription", JStr config_desc);
        ("actionToPerform", JStr "Deploy");
        ("DeploymentPolicyTemplateID", policy_id)].

(** What [api_post] makes of the answer to [rq]. *)
Definition posted (remote : transport) (rq : http_request) : res json :=
  if status_code (remote rq) =? 200 then json_loads (remote rq)
  else Raise (HTTPFailure (status_code (remote rq))).

Lemma api_post_run (remote : transport) (c : EC.conn) (endpoint : string)
  (data : json) (tr : trace) :
  EC.api_post remote c endpoint data tr
  = (posted remote (EC.post_request c endpoint data),
     tr ++ [EC.post_request c endpoint data]).
Proof.
  unfold EC.api_post, posted, iobind, send, lift.
  now destruct (status_code _ =? 200).
Qed.

Lemma no_exit_posted (remote : transport) (rq : http_request) :
  no_exit (posted remote rq).
Proof. unfold posted. auto with no_exit. Qed.

(** What the three fetches of [patch_hosts] resolve to. *)
Record resolved (remote : transport) (c : EC.conn) (policy_name : string)
  (hosts patch_types : list string) (resource_ids : list Z)
  (patch_ids : list json) (policy_id : json) : Prop := mkResolved {
  resolved_resources :
    rbind (fst (EC.get_api_objects remote c "allsystems" "" []))
          (fun all_systems => EC.resource_ids_of all_systems hosts)
    = Ret resource_ids;
  resolved_patches :
    rbind (fst (EC.get_api_objects remote c "allpatches" "" []))
          (fun all_patches =>
             rbind (EC.selected_patches all_patches patch_types)
                   (mapM (fun x => getitem x "patch_id")))
    = Ret patch_ids;
  resolved_policy :
    rbind (fst (EC.get_api_objects remote c "deploymentpolicies" "" []))
          (fun policies => EC.policy_id_of policies policy_name)
    = Ret policy_id
}.

Definition patch_fetches (c : EC.conn) : trace :=
  [EC.objects_request c "allsystems" "";
   EC.objects_request c "allpatches" "";
   EC.objects_request c "deploymentpolicies" ""].

(** [patch_hosts] either stops during its fetches, with an exception or
    the failure of its handler, or resolves everything and posts. *)
Lemma patch_hosts_cases (remote : transport) (c : EC.conn)
  (config_name config_desc policy_name : string)
  (hosts patch_types : list string) (tr0 : trace) :
  (exists r gets,
      EC.patch_hosts remote c config_name config_desc policy_name hosts
        patch_types tr0 = (r, tr0 ++ gets)
      /\ existsb mutating gets = false
      /\ ((exists e, r = Raise e)
          \/ r = SysExit (mkOutcome false true
                            (MsgText "failed to find deployment policy"))))
  \/ (exists resource_ids patch_ids policy_id,
         resolved remote c policy_name hosts patch_types resource_ids
           patch_ids policy_id
         /\ EC.patch_hosts remote c config_name config_desc policy_name hosts
              patch_types tr0
            = EC.api_post remote c "patch/installpatch"
                (install_payload patch_ids resource_ids config_name
                   config_desc policy_id)
                (tr0 ++ patch_fetches c)).
Proof.
  assert (Htr : ((tr0 ++ [EC.objects_request c "allsystems" ""])
                 ++ [EC.objects_request c "allpatches" ""])
                ++ [EC.objects_request c "deploymentpolicies" ""]
                = tr0 ++ patch_fetches c)
    by now rewrite <- !app_assoc.
  unfold EC.patch_hosts, iobind.
  rewrite get_resource_ids_for_patching_fetch.
  destruct (rbind (fst (EC.get_api_objects remote c "allsystems" "" [])) _)
    as [resource_ids|e|o] eqn:Eids.
  2:{ left. exists (Raise e), [EC.objects_request c "allsystems" ""]. eauto. }
  2:{ exfalso. revert Eids. apply no_exit_rbind.
      - apply no_exit_ec_fetch.
      - intros a. apply no_exit_resource_ids_of. }
  rewrite ec_get_api_objects_trace.
  destruct (fst (EC.get_api_objects remote c "allpatches" "" []))
    as [all_patches|e|o] eqn:Epatches.
  2:{ left. exists (Raise e), (firstn 2 (patch_fetches c)).
      rewrite <- app_assoc. eauto. }
  2:{ exfalso. revert Epatches. apply no_exit_ec_fetch. }
  unfold lift. cbv beta iota.
  destruct (EC.selected_patches all_patches patch_types)
    as [selected|e|o] eqn:Esel.
  2:{ left. exists (Raise e), (firstn 2 (patch_fetches c)).
      rewrite <- app_assoc. eauto. }
  2:{ exfalso. revert Esel. apply no_exit_selected_patches. }
  cbv beta iota.
  destruct (mapM _ selected) as [patch_ids|e|o] eqn:Epid.
  2:{ left. exists (Raise e), (firstn 2 (patch_fetches c)).
      rewrite <- app_assoc. eauto. }
  2:{ exfalso. revert Epid. apply no_exit_mapM. intros x.
      auto with no_exit. }
  unfold io_except_StopIteration.
  rewrite ec_get_api_objects_trace, Htr.
  destruct (fst (EC.get_api_objects remote c "deploymentpolicies" "" []))
    as [policies|e|o] eqn:Epol.
  3:{ exfalso. revert Epol. apply no_exit_ec_fetch. }
  2:{ left. destruct e; unfold fail_json; eauto 8. }
  cbv beta iota.
  destruct (EC.policy_id_of policies policy_name) as [policy_id|e|o] eqn:Eid.
  3:{ exfalso. revert Eid. apply no_exit_policy_id_of. }
  2:{ left. destruct e; unfold fail_json; eauto 8. }
  right. exists resource_ids, patch_ids, policy_id. split.
  - constructor.
    + exact Eids.
    + rewrite Epatches. simpl. rewrite Esel. simpl. exact Epid.
    + rewrite Epol. exact Eid.
  - reflexivity.
Qed.

Lemma check_if_config_exists_fails_cleanly (config_name : string)
  (configs : json) (hosts : list string) :
  match EC.check_if_config_exists config_name configs hosts with
  | Ret _ => True
  | Raise _ => False
  | SysExit o => clean_failure o
  end.
Proof.
  unfold EC.check_if_config_exists, try_except.
  destruct (iter configs) as [entries|e|o] eqn:Hiter; simpl.
  - destruct (anyM (EC.config_matches config_name hosts) entries)
      as [b|e|o] eqn:Hany; [exact I | now split |].
    exfalso. revert Hany. apply no_exit_anyM.
    intros x. apply no_exit_config_matches.
  - now split.
  - now apply no_exit_iter in Hiter.
Qed.

(** The run of the patch-config module, step by step. *)
Lemma ec_run_unfolded (remote : transport) (p : EC.params) :
  let c := EC.connection p in
  let view := EC.objects_request c "viewconfig" "" in
  let failure e := mkOutcome false true (MsgExn "failed to patch hosts: " e) in
  execute (EC.run_module remote p)
  = match fst (EC.get_api_objects remote c "viewconfig" "" []) with
    | Ret configs =>
        match EC.check_if_config_exists (EC.name p) configs (EC.hosts p) with
        | Ret config_exists =>
            if String.eqb (EC.state p) "present" then
              if config_exists then
                (Exited (mkOutcome false false
                           (MsgText "config already exists")), [view])
              else
                let (r, tr) :=
                  EC.patch_hosts remote c (EC.name p) (EC.desc p)
                    (EC.deployment_policy_name p) (EC.hosts p)
                    (EC.patch_types p) [view] in
                (Exited (settled "failed to patch hosts: "
                           (rbind r EC.created)), tr)
            else (Exited (mkOutcome false false (MsgText "")), [view])
        | Raise e => (Exited (failure e), [view])
        | SysExit o => (Exited o, [view])
        end
    | Raise e => (Exited (failure e), [view])
    | SysExit o => (Exited o, [view])
    end.
Proof.
  cbv zeta. unfold execute, EC.run_module. cbv zeta.
  unfold io_try_except, iobind.
  rewrite (ec_get_api_objects_trace remote (EC.connection p) "viewconfig" ""
             []) at 1.
  change ([] ++ [?x]) with [x].
  destruct (fst (EC.get_api_objects remote (EC.connection p) "viewconfig" ""
                   [])) as [configs|e|o]; try reflexivity.
  unfold lift at 1.
  destruct (EC.check_if_config_exists (EC.name p) configs (EC.hosts p))
    as [config_exists|e|o]; try reflexivity.
  cbv beta iota.
  destruct (String.eqb (EC.state p) "present"); [|reflexivity].
  destruct config_exists; [reflexivity|].
  destruct (EC.patch_hosts remote (EC.connection p) (EC.name p) (EC.desc p)
              (EC.deployment_policy_name p) (EC.hosts p) (EC.patch_types p)
              [EC.objects_request (EC.connection p) "viewconfig" ""])
    as [[resp|e|o] tr]; try reflexivity.
  unfold lift. cbn [rbind]. now destruct (EC.created resp).
Qed.

(** A run of the patch-config module either ends unchanged after GET calls
    only, or has found no config, resolved everything, and ends as the
    answer to its one POST is classified. *)
Lemma ec_run_cases (remote : transport) (p : EC.params) :
  let c := EC.connection p in
  let view := EC.objects_request c "viewconfig" "" in
  (exists o gets,
      execute (EC.run_module remote p) = (Exited o, view :: gets)
      /\ existsb mutating gets = false
      /\ changed o = false)
  \/ (exists configs resource_ids patch_ids policy_id,
         EC.state p = "present"
         /\ fst (EC.get_api_objects remote c "viewconfig" "" []) = Ret configs
         /\ EC.check_if_config_exists (EC.name p) configs (EC.hosts p)
            = Ret false
         /\ resolved remote c (EC.deployment_policy_name p) (EC.hosts p)
              (EC.patch_types p) resource_ids patch_ids policy_id
         /\ let post :=
              EC.post_request c "patch/installpatch"
                (install_payload patch_ids resource_ids (EC.name p)
                   (EC.desc p) policy_id) in
            execute (EC.run_module remote p)
            = (Exited (settled "failed to patch hosts: "
                         (rbind (posted remote post) EC.created)),
               view :: patch_fetches c ++ [post])).
Proof.
  cbv zeta. rewrite ec_run_unfolded. cbv zeta.
  destruct (fst (EC.get_api_objects remote (EC.connection p) "viewconfig" ""
                   [])) as [configs|e|o] eqn:Hfetch.
  3:{ exfalso. revert Hfetch. apply no_exit_ec_fetch. }
  2:{ left. eexists _, []. now repeat split. }
  pose proof (check_if_config_exists_fails_cleanly (EC.name p) configs
                (EC.hosts p)) as Hcheck.
  destruct (EC.check_if_config_exists (EC.name p) configs (EC.hosts p))
    as [config_exists|e|o] eqn:Echeck; [|contradiction|].
  2:{ left. destruct Hcheck as [_ Hc]. eexists o, []. now repeat split. }
  destruct (String.eqb (EC.state p) "present") eqn:Hstate.
  2:{ left. eexists _, []. now repeat split. }
  apply String.eqb_eq in Hstate.
  destruct config_exists.
  { left. eexists _, []. now repeat split. }
  destruct (patch_hosts_cases remote (EC.connection p) (EC.name p) (EC.desc p)
              (EC.deployment_policy_name p) (EC.hosts p) (EC.patch_types p)
              [EC.objects_request (EC.connection p) "viewconfig" ""])
    as [[r [gets [Hrun [Hgets Hr]]]]
       | [resource_ids [patch_ids [policy_id [Hres Hrun]]]]].
  - left. rewrite Hrun.
    destruct Hr as [[e He] | He]; subst r; eexists _, gets;
      now repeat split.
  - right. exists configs, resource_ids, patch_ids, policy_id.
    split; [exact Hstate|]. split; [reflexivity|].
    split; [exact Echeck|]. split; [exact Hres|].
    rewrite Hrun, api_post_run. reflexivity.
Qed.

Lemma created_outcome (prefix : string) (r : res json) :
  no_exit r ->
  let o := settled prefix (rbind r EC.created) in
  (failed o = true -> changed o = false)
  /\ (changed o = true ->
      exists resp status,
        r = Ret resp /\ getitem resp "status" = Ret status
        /\ eq_str status "error" = false /\ o = mkOutcome true false (MsgJson resp)).
Proof.
  intros Hr. cbv zeta. destruct r as [resp|e|o]; simpl.
  - unfold EC.created.
    destruct (getitem resp "status") as [status| |] eqn:Hs; simpl.
    + destruct (eq_str status "error") eqn:He; simpl.
      * destruct (getitem resp "error_code") as [code| |] eqn:Hc; simpl.
        -- destruct (eq_str code "3010"); simpl;
             split; auto; discriminate.
        -- split; auto; discriminate.
        -- now apply getitem_not_exit in Hc.
      * split; [discriminate|]. intros _. exists resp, status. auto.
    + split; auto; discriminate.
    + now apply getitem_not_exit in Hs.
  - split; auto; discriminate.
  - now destruct (Hr o).
Qed.

Lemma both_false (a b : bool) : (a = true -> b = false) -> a && b = false.
Proof. destruct a, b; auto. Qed.

(** X7. Every run of the patch-config module ends through [exit_json] or
    [fail_json], never with a traceback, and never reports a change
    together with a failure. *)
Theorem ec_run_ends_reported (remote : transport) (p : EC.params) :
  exists o tr,
    execute (EC.run_module remote p) = (Exited o, tr)
    /\ failed o && changed o = false.
Proof.
  destruct (ec_run_cases remote p)
    as [[o [gets [Hrun [_ Hc]]]]
       | [configs [ri [pi [po [_ [_ [_ [_ Hrun]]]]]]]]].
  - exists o. eexists. split; [exact Hrun|]. rewrite Hc. apply andb_false_r.
  - cbv zeta in Hrun. eexists. eexists. split; [exact Hrun|].
    apply both_false, created_outcome, no_exit_posted.
Qed.

(** X8. The calls of a run: first the fetch of the config collection, then
    GET calls only, and at the very end at most one POST, to
    [patch/installpatch].  The remote state is read before it is written,
    and written at most once. *)
Theorem ec_run_reads_then_posts_once (remote : transport) (p : EC.params) :
  let c := EC.connection p in
  exists gets,
    existsb mutating gets = false
    /\ (snd (execute (EC.run_module remote p))
        = EC.objects_request c "viewconfig" "" :: gets
        \/ exists data,
            snd (execute (EC.run_module remote p))
            = EC.objects_request c "viewconfig" "" :: gets
              ++ [EC.post_request c "patch/installpatch" data]).
Proof.
  cbv zeta.
  destruct (ec_run_cases remote p)
    as [[o [gets [Hrun [Hgets _]]]]
       | [configs [ri [pi [po [_ [_ [_ [_ Hrun]]]]]]]]].
  - exists gets. rewrite Hrun. split; [exact Hgets | left; reflexivity].
  - cbv zeta in Hrun. exists (patch_fetches (EC.connection p)).
    rewrite Hrun. split; [reflexivity|]. right. eexists. reflexivity.
Qed.

Lemma not_mutating_in (tr : trace) (rq : http_request) :
  existsb mutating tr = false -> In rq tr -> mutating rq = false.
Proof.
  intros Htr Hin. destruct (mutating rq) eqn:Hm; [|reflexivity].
  rewrite <- Htr. symmetry. apply existsb_exists. eauto.
Qed.

(** A run whose last call is mutating is a run that resolved everything
    and posted. *)
Lemma ec_posting_run (remote : transport) (p : EC.params) (tr : trace)
  (rq : http_request) :
  snd (execute (EC.run_module remote p)) = tr ++ [rq] ->
  mutating rq = true ->
  let c := EC.connection p in
  exists configs resource_ids patch_ids policy_id,
    fst (EC.get_api_objects remote c "viewconfig" "" []) = Ret configs
    /\ EC.check_if_config_exists (EC.name p) configs (EC.hosts p) = Ret false
    /\ resolved remote c (EC.deployment_policy_name p) (EC.hosts p)
         (EC.patch_types p) resource_ids patch_ids policy_id
    /\ rq = EC.post_request c "patch/installpatch"
              (install_payload patch_ids resource_ids (EC.name p) (EC.desc p)
                 policy_id)
    /\ tr = EC.objects_request c "viewconfig" "" :: patch_fetches c
    /\ fst (execute (EC.run_module remote p))
       = Exited (settled "failed to patch hosts: "
                   (rbind (posted remote rq) EC.created)).
Proof.
  intros Htr Hm. cbv zeta.
  destruct (ec_run_cases remote p)
    as [[o [gets [Hrun [Hgets _]]]]
       | [configs [ri [pi [po [_ [Hfetch [Hcheck [Hres Hrun]]]]]]]]].
  - exfalso. rewrite Hrun in Htr. cbn [snd] in Htr.
    assert (Hin : In rq (EC.objects_request (EC.connection p) "viewconfig" ""
                           :: gets))
      by (rewrite Htr; apply in_elt).
    destruct Hin as [<- | Hin]; [discriminate|].
    rewrite (not_mutating_in gets rq Hgets Hin) in Hm. discriminate.
  - cbv zeta in Hrun. rewrite Hrun in Htr. cbn [snd] in Htr.
    rewrite app_comm_cons in Htr. apply app_inj_tail in Htr as [Htr Hrq].
    exists configs, ri, pi, po. subst rq tr.
    split; [exact Hfetch|]. split; [exact Hcheck|]. split; [exact Hres|].
    split; [reflexivity|]. split; [reflexivity|]. now rewrite Hrun.
Qed.

(** X9. The create call carries exactly what the run resolved: the patch ids
    of the selected patches, the resource ids of the requested hosts, the
    name and the description of the config, the action "Deploy" and the id
    of the policy; it is sent after the four fetches, in the order config
    collection, inventory, catalog, policies. *)
Theorem ec_post_carries_resolved_identities
  (remote : transport) (p : EC.params) (tr : trace) (rq : http_request) :
  snd (execute (EC.run_module remote p)) = tr ++ [rq] ->
  mutating rq = true ->
  let c := EC.connection p in
  exists resource_ids patch_ids policy_id,
    resolved remote c (EC.deployment_policy_name p) (EC.hosts p)
      (EC.patch_types p) resource_ids patch_ids policy_id
    /\ rq = EC.post_request c "patch/installpatch"
              (JObj [("PatchIDs", JArr patch_ids);
                     ("ResourceIDs", JArr (map JNum resource_ids));
                     ("ConfigName", JStr (EC.name p));
                     ("ConfigDescription", JStr (EC.desc p));
                     ("actionToPerform", JStr "Deploy");
                     ("DeploymentPolicyTemplateID", policy_id)])
    /\ tr = map (fun object_name => EC.objects_request c object_name "")
              ["viewconfig"; "allsystems"; "allpatches";
               "deploymentpolicies"].
Proof.
  intros Htr Hm.
  destruct (ec_posting_run remote p tr rq Htr Hm)
    as [configs [ri [pi [po [_ [_ [Hres [Hrq [Htrace _]]]]]]]]].
  exists ri, pi, po. auto.
Qed.

(** X10. A create call answered with a status other than 200 (201 included)
    ends the run failed and unchanged, with the status in the message,
    although the POST was sent. *)
Theorem ec_post_not_200_fails
  (remote : transport) (p : EC.params) (tr : trace) (rq : http_request) :
  snd (execute (EC.run_module remote p)) = tr ++ [rq] ->
  mutating rq = true ->
  status_code (remote rq) <> 200 ->
  fst (execute (EC.run_module remote p))
  = Exited (mkOutcome false true
              (MsgExn "failed to patch hosts: "
                 (HTTPFailure (status_code (remote rq))))).
Proof.
  intros Htr Hm Hcode.
  destruct (ec_posting_run remote p tr rq Htr Hm)
    as [configs [ri [pi [po [_ [_ [_ [_ [_ Hrun]]]]]]]]].
  rewrite Hrun. unfold posted.
  apply Z.eqb_neq in Hcode. now rewrite Hcode.
Qed.

(** X11. changed=true is reported only when no matching config was found, the
    create call was sent and answered 200 with a body whose status is not
    "error"; the message is then that body. *)
Theorem ec_changed_means_created
  (remote : transport) (p : EC.params) (o : outcome) (tr : trace) :
  execute (EC.run_module remote p) = (Exited o, tr) ->
  changed o = true ->
  let c := EC.connection p in
  exists configs rq resp status,
    fst (EC.get_api_objects remote c "viewconfig" "" []) = Ret configs
    /\ EC.check_if_config_exists (EC.name p) configs (EC.hosts p) = Ret false
    /\ tr = EC.objects_request c "viewconfig" "" :: patch_fetches c ++ [rq]
    /\ method rq = POST
    /\ remote rq = mkResponse 200 (Some resp)
    /\ getitem resp "status" = Ret status
    /\ eq_str status "error" = false
    /\ o = mkOutcome true false (MsgJson resp).
Proof.
  intros Hexec Hchanged. cbv zeta.
  destruct (ec_run_cases remote p)
    as [[o' [gets [Hrun [_ Hc]]]]
       | [configs [ri [pi [po [_ [Hfetch [Hcheck [_ Hrun]]]]]]]]].
  - rewrite Hexec in Hrun. injection Hrun as <- _. congruence.
  - cbv zeta in Hrun. rewrite Hexec in Hrun. injection Hrun as Ho Htr.
    destruct (created_outcome "failed to patch hosts: " _
                (no_exit_posted remote
                   (EC.post_request (EC.connection p) "patch/installpatch"
                      (install_payload pi ri (EC.name p) (EC.desc p) po))))
      as [_ Hc].
    cbv zeta in Hc. rewrite <- Ho in Hc.
    destruct (Hc Hchanged) as [resp [status [Hposted [Hs [He Hout]]]]].
    exists configs,
      (EC.post_request (EC.connection p) "patch/installpatch"
         (install_payload pi ri (EC.name p) (EC.desc p) po)),
      resp, status.
    split; [exact Hfetch|]. split; [exact Hcheck|]. split; [exact Htr|].
    split; [reflexivity|]. split; [|auto].
    unfold posted in Hposted.
    destruct (remote _) as [code body]. simpl in Hposted.
    destruct (code =? 200) eqn:Hcode; [|discriminate].
    apply Z.eqb_eq in Hcode. subst code.
    unfold json_loads in Hposted. simpl in Hposted.
    destruct body; [|discriminate]. now injection Hposted as ->.
Qed.

(** X12. Failures before the decision: a fetch of the config collection that
    raises (status other than 200, body that is not JSON, envelope key
    missing) ends the run with the message of [run_module] and that
    exception; a collection the matcher cannot read ends it with the
    failure of the matcher, which the handler of [run_module] does not
    replace.  In both cases the fetch is the only call made. *)
Theorem ec_failure_before_decision (remote : transport) (p : EC.params) :
  let c := EC.connection p in
  let fetched := fst (EC.get_api_objects remote c "viewconfig" "" []) in
  (forall e,
      fetched = Raise e ->
      execute (EC.run_module remote p)
      = (Exited (mkOutcome false true (MsgExn "failed to patch hosts: " e)),
         [EC.objects_request c "viewconfig" ""]))
  /\ (forall configs o,
        fetched = Ret configs ->
        EC.check_if_config_exists (EC.name p) configs (EC.hosts p)
        = SysExit o ->
        execute (EC.run_module remote p)
        = (Exited o, [EC.objects_request c "viewconfig" ""])).
Proof.
  cbv zeta. split.
  - intros e He. rewrite ec_run_unfolded. cbv zeta. now rewrite He.
  - intros configs o Hc Ho. rewrite ec_run_unfolded. cbv zeta.
    now rewrite Hc, Ho.
Qed.

(** The create call of the sample run. *)
Definition sample_post : http_request :=
  EC.post_request (EC.connection ec_params) "patch/installpatch"
    (install_payload [JNum 101] [12; 15] "Ansible patch configuration"
       "Install select patches to devices" (JNum 302)).

Definition sample_fetches : trace :=
  map (fun object_name =>
         EC.objects_request (EC.connection ec_params) object_name "")
      ["viewconfig"; "allsystems"; "allpatches"; "deploymentpolicies"].

Lemma ec_post_carries_resolved_identities_witness :
  let c := EC.connection ec_params in
  exists resource_ids patch_ids policy_id,
    resolved (ec_remote [] sample_policies (JObj [("status", JStr "success")]))
      c "Update Servers" ["web1"; "web2"]
      ["Cumulative Update for Windows Server"] resource_ids patch_ids
      policy_id
    /\ sample_post
       = EC.post_request c "patch/installpatch"
           (JObj [("PatchIDs", JArr patch_ids);
                  ("ResourceIDs", JArr (map JNum resource_ids));
                  ("ConfigName", JStr "Ansible patch configuration");
                  ("ConfigDescription",
                   JStr "Install select patches to devices");
                  ("actionToPerform", JStr "Deploy");
                  ("DeploymentPolicyTemplateID", policy_id)])
    /\ sample_fetches
       = map (fun object_name => EC.objects_request c object_name "")
           ["viewconfig"; "allsystems"; "allpatches"; "deploymentpolicies"].
Proof.
  exact (ec_post_carries_resolved_identities
           (ec_remote [] sample_policies (JObj [("status", JStr "success")]))
           ec_params sample_fetches sample_post eq_refl eq_refl).
Defined.

(** A remote that answers the create call with 201 Created. *)
Definition ec_remote_created : transport :=
  canned [ec_objects "viewconfig" [];
          ec_objects "allsystems" sample_inventory;
          ec_objects "allpatches" sample_patches;
          ec_objects "deploymentpolicies" sample_policies;
          (POST, "patch/installpatch",
           mkResponse 201 (Some (JObj [("status", JStr "success")])))].

Lemma ec_post_not_200_fails_witness :
  fst (execute (EC.run_module ec_remote_created ec_params))
  = Exited (mkOutcome false true
              (MsgExn "failed to patch hosts: " (HTTPFailure 201))).
Proof.
  refine (ec_post_not_200_fails ec_remote_created ec_params sample_fetches
            sample_post eq_refl eq_refl _).
  discriminate.
Defined.

Lemma ec_changed_means_created_witness :
  let remote :=
    ec_remote [] sample_policies (JObj [("status", JStr "success")]) in
  let c := EC.connection ec_params in
  exists configs rq resp status,
    fst (EC.get_api_objects remote c "viewconfig" "" []) = Ret configs
    /\ EC.check_if_config_exists "Ansible patch configuration" configs
         ["web1"; "web2"] = Ret false
    /\ sample_fetches ++ [sample_post]
       = EC.objects_request c "viewconfig" "" :: patch_fetches c ++ [rq]
    /\ method rq = POST
    /\ remote rq = mkResponse 200 (Some resp)
    /\ getitem resp "status" = Ret status
    /\ eq_str status "error" = false
    /\ mkOutcome true false (MsgJson (JObj [("status", JStr "success")]))
       = mkOutcome true false (MsgJson resp).
Proof.
  exact (ec_changed_means_created
           (ec_remote [] sample_policies (JObj [("status", JStr "success")]))
           ec_params
           (mkOutcome true false (MsgJson (JObj [("status", JStr "success")])))
           (sample_fetches ++ [sample_post]) eq_refl eq_refl).
Defined.

Lemma ec_failure_before_decision_witness :
  execute (EC.run_module (canned []) ec_params)
  = (Exited (mkOutcome false true
               (MsgExn "failed to patch hosts: " (HTTPFailure 404))),
     [EC.objects_request (EC.connection ec_params) "viewconfig" ""])
  /\ execute (EC.run_module
                (ec_remote [JObj [("collection_name", JNull)]] [] JNull)
                ec_params)
     = (Exited (mkOutcome false true
                  (MsgExn "Failed to check existing configs " AttributeError)),
        [EC.objects_request (EC.connection ec_params) "viewconfig" ""]).
Proof.
  split.
  - exact (proj1 (ec_failure_before_decision (canned []) ec_params)
             (HTTPFailure 404) eq_refl).
  - exact (proj2 (ec_failure_before_decision
                    (ec_remote [JObj [("collection_name", JNull)]] [] JNull)
                    ec_params)
             (JArr [JObj [("collection_name", JNull)]]) _ eq_refl eq_refl).
Defined.

(** ** Runs of the ticket module, case by case *)

(** What the user search resolves to, before the handler of
    [get_user_by_username]. *)
Definition user_found (remote : transport) (c : SD.conn) (username : string)
  : res json :=
  let response := remote (SD.users_request c username) in
  if SD.ok_status (status_code response) then
    (response_obj <- json_loads response ;;
     users <- getitem response_obj "users" ;;
     getitem0 users)%res
  else Raise (HTTPFailure (status_code response)).

(** What [create_tms_request] and [delete_tms_ticket] make of the answer
    to [rq]. *)
Definition ticket_posted (remote : transport) (rq : http_request) : res json :=
  if SD.ok_status (status_code (remote rq)) then
    (body <- json_loads (remote rq) ;; getitem body "request")%res
  else Raise (HTTPFailure (status_code (remote rq))).

Definition ticket_deleted (remote : transport) (rq : http_request)
  : res json :=
  if SD.ok_status (status_code (remote rq)) then json_loads (remote rq)
  else Raise (HTTPFailure (status_code (remote rq))).

Lemma no_exit_getitem0 (v : json) : no_exit (getitem0 v).
Proof.
  intros o. destruct v as [| | |s|l|]; simpl; try discriminate.
  - destruct (code_points s) as [|[cp first] rest]; discriminate.
  - destruct l; discriminate.
Qed.

Lemma no_exit_user_found (remote : transport) (c : SD.conn)
  (username : string) : no_exit (user_found remote c username).
Proof.
  unfold user_found. cbv zeta.
  destruct (SD.ok_status _); [|apply no_exit_Raise].
  apply no_exit_rbind; [apply no_exit_json_loads|]. intros body.
  apply no_exit_rbind; [apply no_exit_getitem|]. intros users.
  apply no_exit_getitem0.
Qed.

Lemma no_exit_ticket_posted (remote : transport) (rq : http_request) :
  no_exit (ticket_posted remote rq).
Proof. unfold ticket_posted. auto with no_exit. Qed.

Lemma no_exit_ticket_deleted (remote : transport) (rq : http_request) :
  no_exit (ticket_deleted remote rq).
Proof. unfold ticket_deleted. auto with no_exit. Qed.

Definition user_failure (e : exn) : outcome :=
  mkOutcome false true (MsgExn "Error getting user by username: " e).

Lemma get_user_by_username_run (remote : transport) (c : SD.conn)
  (username : string) (tr : trace) :
  SD.get_user_by_username remote c username tr
  = (match user_found remote c username with
     | Raise e => SysExit (user_failure e)
     | other => other
     end,
     tr ++ [SD.users_request c username]).
Proof.
  unfold SD.get_user_by_username, user_found, io_try_except, iobind, send,
    lift. cbv zeta.
  destruct (SD.ok_status _); [|reflexivity].
  now destruct (rbind (json_loads _) _).
Qed.

(** [create_tms_request], step by step: the user search, the id of its
    first result, the POST. *)
Lemma create_tms_request_run (remote : transport) (c : SD.conn)
  (request_name : string) (policy_name : option string)
  (hosts : list string) (patch_types : option (list string)) (tr : trace) :
  SD.create_tms_request remote c request_name policy_name hosts patch_types tr
  = match user_found remote c "sv-automation" with
    | Ret user =>
        match (id <- getitem user "id" ;; int id)%res with
        | Ret requester_id =>
            let post :=
              SD.create_request c request_name policy_name hosts patch_types
                requester_id in
            (ticket_posted remote post,
             tr ++ [SD.users_request c "sv-automation"; post])
        | Raise e => (Raise e, tr ++ [SD.users_request c "sv-automation"])
        | SysExit o => (SysExit o, tr ++ [SD.users_request c "sv-automation"])
        end
    | Raise e =>
        (SysExit (user_failure e), tr ++ [SD.users_request c "sv-automation"])
    | SysExit o => (SysExit o, tr ++ [SD.users_request c "sv-automation"])
    end.
Proof.
  unfold SD.create_tms_request, iobind.
  rewrite get_user_by_username_run.
  destruct (user_found remote c "sv-automation") as [user|e|o];
    try reflexivity.
  unfold lift at 1.
  destruct (rbind (getitem user "id") _) as [requester_id|e|o];
    try reflexivity.
  cbv zeta. unfold send, ticket_posted, lift. rewrite <- app_assoc.
  now destruct (SD.ok_status _).
Qed.

Lemma no_exit_request_matches (request_name : string) (hosts : list string)
  (patch_types : option (list string)) (r : json) :
  no_exit (SD.request_matches request_name hosts patch_types r).
Proof.
  assert (Hall : forall l, no_exit (SD.all_in_short_description r l)).
  { intros [l|]; simpl; [|apply no_exit_Raise].
    induction l as [|s l IH]; simpl; [apply no_exit_Ret|].
    apply no_exit_rbind.
    - apply no_exit_rbind; [apply no_exit_getitem|].
      intros v. destruct v; simpl; auto with no_exit.
    - intros []; [exact IH | apply no_exit_Ret]. }
  unfold SD.request_matches, andM.
  apply no_exit_rbind; [|intros []; [apply Hall | apply no_exit_Ret]].
  apply no_exit_rbind; [|intros []; [apply Hall | apply no_exit_Ret]].
  apply no_exit_rbind.
  - apply no_exit_rbind; [apply no_exit_getitem|].
    intros subject. destruct subject; simpl; auto with no_exit.
  - intros []; [|apply no_exit_Ret].
    apply no_exit_rbind; [apply no_exit_getitem|]. intros status.
    apply no_exit_rbind; [apply no_exit_getitem|]. intros status_name.
    apply no_exit_Ret.
Qed.

Lemma find_request_fails_cleanly (request_name : string) (requests : json)
  (hosts : list string) (patch_types : option (list string)) :
  match SD.find_request request_name requests hosts patch_types with
  | Ret _ => True
  | Raise _ => False
  | SysExit o => clean_failure o
  end.
Proof.
  unfold SD.find_request, try_except.
  destruct (iter requests) as [entries|e|o] eqn:Hiter; simpl.
  - destruct (nextM _ entries) as [b|e|o] eqn:Hnext; [exact I | now split |].
    exfalso. revert Hnext. apply no_exit_nextM.
    intros x. apply no_exit_request_matches.
  - now split.
  - now apply no_exit_iter in Hiter.
Qed.

(** The run of the ticket module, step by step. *)
Lemma sd_run_unfolded (remote : transport) (p : SD.params) :
  let c := SD.connection p in
  let view := SD.objects_request c "requests" in
  let prefix := "failed to create request: " in
  let failure e := mkOutcome false true (MsgExn prefix e) in
  execute (SD.run_module remote p)
  = match fst (SD.get_api_objects remote c "requests" []) with
    | Ret requests =>
        match SD.find_request (SD.name p) requests (SD.hosts p)
                (SD.patch_types p) with
        | Ret request =>
            if String.eqb (SD.state p) "present" then
              if SD.found request then
                (Exited (mkOutcome false false
                           (MsgText "request already exists")), [view])
              else
                let (r, tr) :=
                  SD.create_tms_request remote c (SD.name p)
                    (SD.deployment_policy_name p) (SD.hosts p)
                    (SD.patch_types p) [view] in
                (Exited (settled prefix (rbind r SD.created)), tr)
            else if String.eqb (SD.state p) "absent" then
              if negb (SD.found request) then
                (Exited (mkOutcome false false
                           (MsgText "request does not exist")), [view])
              else
                match match request with
                      | Some r => getitem r "id"
                      | None => Raise TypeError
                      end with
                | Ret request_id =>
                    let delete := SD.delete_request c request_id in
                    (Exited (settled prefix
                               (rbind (ticket_deleted remote delete)
                                      SD.deleted)),
                     [view; delete])
                | Raise e => (Exited (failure e), [view])
                | SysExit o => (Exited o, [view])
                end
            else (Exited (mkOutcome false false (MsgText "")), [view])
        | Raise e => (Exited (failure e), [view])
        | SysExit o => (Exited o, [view])
        end
    | Raise e => (Exited (failure e), [view])
    | SysExit o => (Exited o, [view])
    end.
Proof.
  cbv zeta. unfold execute, SD.run_module. cbv zeta.
  unfold io_try_except, iobind.
  rewrite (sd_get_api_objects_trace remote (SD.connection p) "requests" [])
    at 1.
  change ([] ++ [?x]) with [x].
  destruct (fst (SD.get_api_objects remote (SD.connection p) "requests" []))
    as [requests|e|o]; try reflexivity.
  unfold lift at 1.
  destruct (SD.find_request (SD.name p) requests (SD.hosts p)
              (SD.patch_types p)) as [request|e|o]; try reflexivity.
  cbv beta iota.
  destruct (String.eqb (SD.state p) "present").
  - destruct (SD.found request); [reflexivity|].
    destruct (SD.create_tms_request remote (SD.connection p) (SD.name p)
                (SD.deployment_policy_name p) (SD.hosts p) (SD.patch_types p)
                [SD.objects_request (SD.connection p) "requests"])
      as [[resp|e|o] tr]; try reflexivity.
    unfold lift. cbn [rbind]. now destruct (SD.created resp).
  - destruct (String.eqb (SD.state p) "absent"); [|reflexivity].
    destruct (SD.found request); [|reflexivity].
    cbn [negb]. unfold lift at 1.
    destruct (match request with
              | Some r => getitem r "id"
              | None => Raise TypeError
              end) as [request_id|e|o]; try reflexivity.
    rewrite delete_tms_ticket_run. cbv zeta. fold (ticket_deleted remote
      (SD.delete_request (SD.connection p) request_id)).
    destruct (ticket_deleted remote _) as [resp|e|o]; try reflexivity.
    unfold lift. cbn [rbind]. now destruct (SD.deleted resp).
Qed.

Lemma deleted_result (prefix : string) (r : res json) :
  no_exit r ->
  let o := settled prefix (rbind r SD.deleted) in
  (failed o = true -> changed o = false)
  /\ (changed o = true ->
      exists resp response_status status,
        r = Ret resp
        /\ getitem resp "response_status" = Ret response_status
        /\ getitem response_status "status" = Ret status
        /\ eq_str status "success" = true
        /\ o = mkOutcome true false (MsgJson resp)).
Proof.
  intros Hr. cbv zeta. destruct r as [resp|e|o]; simpl.
  - unfold SD.deleted.
    destruct (getitem resp "response_status") as [rs| |] eqn:Hrs; simpl.
    + destruct (getitem rs "status") as [status| |] eqn:Hs; simpl.
      * destruct (eq_str status "success") eqn:He; simpl.
        -- split; [discriminate|]. intros _. exists resp, rs, status. auto.
        -- split; auto; discriminate.
      * split; auto; discriminate.
      * now apply getitem_not_exit in Hs.
    + split; auto; discriminate.
    + now apply getitem_not_exit in Hrs.
  - split; auto; discriminate.
  - now destruct (Hr o).
Qed.

(** What is known of a ticket the matcher returned, on any input: it is an
    entry of the collection, its subject starts with the desired name, its
    status name is "Open", and the containment tests over the hosts and
    the patch types came out true. *)
Lemma find_request_some (request_name : string) (requests : json)
  (hosts : list string) (patch_types : option (list string)) (r : json) :
  SD.find_request request_name requests hosts patch_types = Ret (Some r) ->
  exists entries,
    iter requests = Ret entries /\ In r entries
    /\ open_under_name request_name r
    /\ SD.all_in_short_description r (Some hosts) = Ret true
    /\ SD.all_in_short_description r patch_types = Ret true.
Proof.
  unfold SD.find_request, try_except. intros H.
  destruct (iter requests) as [entries| |]; simpl in H; try discriminate.
  destruct (nextM _ entries) as [found| |] eqn:E; simpl in H;
    try discriminate.
  injection H as ->. apply nextM_some in E as [Hin E].
  exists entries. split; [reflexivity|]. split; [exact Hin|].
  unfold SD.request_matches, andM in E.
  destruct (getitem r "subject") as [v| |] eqn:Hsub; simpl in E;
    try discriminate.
  destruct v as [| | |subject| |]; simpl in E; try discriminate.
  destruct (startswith subject request_name) eqn:Hp; simpl in E;
    try discriminate.
  destruct (getitem r "status") as [status| |] eqn:Hst; simpl in E;
    try discriminate.
  destruct (getitem status "name") as [status_name| |] eqn:Hn; simpl in E;
    try discriminate.
  destruct (eq_str status_name "Open") eqn:Ho; simpl in E; try discriminate.
  destruct (allM _ hosts) as [[|]| |] eqn:Hh; simpl in E; try discriminate.
  split; [|split; [exact Hh | exact E]].
  split.
  - exists subject. split; [exact Hsub | now apply startswith_spec].
  - exists status, status_name. auto.
Qed.

Lemma no_exit_sd_fetch (remote : transport) (c : SD.conn)
  (object_name : string) :
  no_exit (fst (SD.get_api_objects remote c object_name [])).
Proof.
  unfold SD.get_api_objects, iobind, send, lift. simpl.
  destruct (SD.ok_status _); simpl; auto 6 with no_exit.
Qed.

(** A run of the ticket module ends unchanged after GET calls only, or
    posts one ticket in state present, or deletes one ticket in state
    absent. *)
Lemma sd_run_cases (remote : transport) (p : SD.params) :
  let c := SD.connection p in
  let view := SD.objects_request c "requests" in
  let prefix := "failed to create request: " in
  (exists o gets,
      execute (SD.run_module remote p) = (Exited o, view :: gets)
      /\ existsb mutating gets = false
      /\ changed o = false)
  \/ (exists requests request user requester_id,
         SD.state p = "present"
         /\ fst (SD.get_api_objects remote c "requests" []) = Ret requests
         /\ SD.find_request (SD.name p) requests (SD.hosts p)
              (SD.patch_types p) = Ret request
         /\ SD.found request = false
         /\ user_found remote c "sv-automation" = Ret user
         /\ (id <- getitem user "id" ;; int id)%res = Ret requester_id
         /\ let post :=
              SD.create_request c (SD.name p) (SD.deployment_policy_name p)
                (SD.hosts p) (SD.patch_types p) requester_id in
            execute (SD.run_module remote p)
            = (Exited (settled prefix
                         (rbind (ticket_posted remote post) SD.created)),
               [view; SD.users_request c "sv-automation"; post]))
  \/ (exists requests r request_id,
         SD.state p = "absent"
         /\ fst (SD.get_api_objects remote c "requests" []) = Ret requests
         /\ SD.find_request (SD.name p) requests (SD.hosts p)
              (SD.patch_types p) = Ret (Some r)
         /\ getitem r "id" = Ret request_id
         /\ let delete := SD.delete_request c request_id in
            execute (SD.run_module remote p)
            = (Exited (settled prefix
                         (rbind (ticket_deleted remote delete) SD.deleted)),
               [view; delete])).
Proof.
  cbv zeta. rewrite sd_run_unfolded. cbv zeta.
  destruct (fst (SD.get_api_objects remote (SD.connection p) "requests" []))
    as [requests|e|o] eqn:Hfetch.
  3:{ exfalso. revert Hfetch. apply no_exit_sd_fetch. }
  2:{ left. eexists _, []. now repeat split. }
  pose proof (find_request_fails_cleanly (SD.name p) requests (SD.hosts p)
                (SD.patch_types p)) as Hclean.
  destruct (SD.find_request (SD.name p) requests (SD.hosts p)
              (SD.patch_types p)) as [request|e|o] eqn:Hfind;
    [|contradiction|].
  2:{ left. destruct Hclean as [_ Hc]. eexists o, []. now repeat split. }
  destruct (String.eqb (SD.state p) "present") eqn:Hpresent.
  - apply String.eqb_eq in Hpresent.
    destruct (SD.found request) eqn:Hfound.
    { left. eexists _, []. now repeat split. }
    rewrite create_tms_request_run.
    destruct (user_found remote (SD.connection p) "sv-automation")
      as [user|e|o] eqn:Huser.
    3:{ now apply no_exit_user_found in Huser. }
    2:{ left. eexists _, [_]. split; [reflexivity | split; reflexivity]. }
    destruct (rbind (getitem user "id") _) as [requester_id|e|o] eqn:Hid.
    3:{ exfalso. revert Hid.
        apply no_exit_rbind; [apply no_exit_getitem|].
        intros id. apply no_exit_int. }
    2:{ left. eexists _, [_]. split; [reflexivity | split; reflexivity]. }
    right. left. exists requests, request, user, requester_id.
    repeat split; assumption.
  - destruct (String.eqb (SD.state p) "absent") eqn:Habsent.
    2:{ left. eexists _, []. now repeat split. }
    apply String.eqb_eq in Habsent.
    destruct (SD.found request) eqn:Hfound; cbn [negb].
    2:{ left. eexists _, []. now repeat split. }
    destruct request as [r|]; [|discriminate].
    destruct (getitem r "id") as [request_id| |] eqn:Hid.
    3:{ now apply getitem_not_exit in Hid. }
    2:{ left. eexists _, []. now repeat split. }
    right. right. exists requests, r, request_id.
    repeat split; assumption.
Qed.

(** X13. Every run of the ticket module ends through [exit_json] or
    [fail_json], never with a traceback, and never reports a change
    together with a failure. *)
Theorem sd_run_ends_reported (remote : transport) (p : SD.params) :
  exists o tr,
    execute (SD.run_module remote p) = (Exited o, tr)
    /\ failed o && changed o = false.
Proof.
  destruct (sd_run_cases remote p)
    as [[o [gets [Hrun [_ Hc]]]]
       | [[rs [rq [u [rid [_ [_ [_ [_ [_ [_ Hrun]]]]]]]]]]
         | [rs [r [id [_ [_ [_ [_ Hrun]]]]]]]]].
  - exists o. eexists. split; [exact Hrun|]. rewrite Hc. apply andb_false_r.
  - cbv zeta in Hrun. eexists. eexists. split; [exact Hrun|].
    apply both_false, (created_outcome "failed to create request: "),
      no_exit_ticket_posted.
  - cbv zeta in Hrun. eexists. eexists. split; [exact Hrun|].
    apply both_false, deleted_result, no_exit_ticket_deleted.
Qed.

(** X14. The calls of a run of the ticket module: first the fetch of the
    tickets, then at most the user search, and at the very end at most one
    mutating call: the POST of a ticket, in state present only, or the
    DELETE of a ticket, in state absent only. *)
Theorem sd_run_reads_then_writes_once (remote : transport) (p : SD.params) :
  let c := SD.connection p in
  let view := SD.objects_request c "requests" in
  let calls := snd (execute (SD.run_module remote p)) in
  (exists gets, existsb mutating gets = false /\ calls = view :: gets)
  \/ (SD.state p = "present"
      /\ exists requester_id,
          calls = [view; SD.users_request c "sv-automation";
                   SD.create_request c (SD.name p)
                     (SD.deployment_policy_name p) (SD.hosts p)
                     (SD.patch_types p) requester_id])
  \/ (SD.state p = "absent"
      /\ exists request_id, calls = [view; SD.delete_request c request_id]).
Proof.
  cbv zeta.
  destruct (sd_run_cases remote p)
    as [[o [gets [Hrun [Hgets _]]]]
       | [[rs [rq [u [rid [Hstate [_ [_ [_ [_ [_ Hrun]]]]]]]]]]
         | [rs [r [id [Hstate [_ [_ [_ Hrun]]]]]]]]].
  - left. exists gets. rewrite Hrun. split; [exact Hgets | reflexivity].
  - right. left. cbv zeta in Hrun. rewrite Hrun.
    split; [exact Hstate | eexists; reflexivity].
  - right. right. cbv zeta in Hrun. rewrite Hrun.
    split; [exact Hstate | eexists; reflexivity].
Qed.

(** A run whose last call is mutating either posted or deleted. *)
Lemma sd_writing_run (remote : transport) (p : SD.params) (tr : trace)
  (rq : http_request) :
  snd (execute (SD.run_module remote p)) = tr ++ [rq] ->
  mutating rq = true ->
  let c := SD.connection p in
  let prefix := "failed to create request: " in
  (exists requester_id,
      SD.state p = "present"
      /\ rq = SD.create_request c (SD.name p) (SD.deployment_policy_name p)
                (SD.hosts p) (SD.patch_types p) requester_id
      /\ tr = [SD.objects_request c "requests";
               SD.users_request c "sv-automation"]
      /\ fst (execute (SD.run_module remote p))
         = Exited (settled prefix
                     (rbind (ticket_posted remote rq) SD.created)))
  \/ (exists requests r request_id,
         SD.state p = "absent"
         /\ fst (SD.get_api_objects remote c "requests" []) = Ret requests
         /\ SD.find_request (SD.name p) requests (SD.hosts p)
              (SD.patch_types p) = Ret (Some r)
         /\ getitem r "id" = Ret request_id
         /\ rq = SD.delete_request c request_id
         /\ tr = [SD.objects_request c "requests"]
         /\ fst (execute (SD.run_module remote p))
            = Exited (settled prefix
                        (rbind (ticket_deleted remote rq) SD.deleted))).
Proof.
  intros Htr Hm. cbv zeta.
  destruct (sd_run_cases remote p)
    as [[o [gets [Hrun [Hgets _]]]]
       | [[rs [rq' [u [rid [Hstate [_ [_ [_ [_ [_ Hrun]]]]]]]]]]
         | [rs [r [id [Hstate [Hfetch [Hfind [Hid Hrun]]]]]]]]].
  - exfalso. rewrite Hrun in Htr. cbn [snd] in Htr.
    assert (Hin : In rq (SD.objects_request (SD.connection p) "requests"
                           :: gets))
      by (rewrite Htr; apply in_elt).
    destruct Hin as [<- | Hin]; [discriminate|].
    rewrite (not_mutating_in gets rq Hgets Hin) in Hm. discriminate.
  - left. cbv zeta in Hrun. rewrite Hrun in Htr |- *. cbn [snd fst] in *.
    change [?a; ?b; ?d] with ([a; b] ++ [d]) in Htr.
    apply app_inj_tail in Htr as [<- <-]. exists rid. auto.
  - right. cbv zeta in Hrun. rewrite Hrun in Htr |- *. cbn [snd fst] in *.
    change [?a; ?b] with ([a] ++ [b]) in Htr.
    apply app_inj_tail in Htr as [<- <-]. exists rs, r, id. auto 8.
Qed.

(** X15. A ticket is moved to the trash only in state absent, and only a ticket
    of the fetched collection whose subject starts with the desired name,
    whose status name is "Open" and whose short description passed the
    containment test for every requested host; the call names its id. *)
Theorem sd_deletes_only_matching_open_ticket
  (remote : transport) (p : SD.params) (tr : trace) (rq : http_request) :
  snd (execute (SD.run_module remote p)) = tr ++ [rq] ->
  method rq = DELETE ->
  let c := SD.connection p in
  SD.state p = "absent"
  /\ exists requests entries r request_id,
      fst (SD.get_api_objects remote c "requests" []) = Ret requests
      /\ iter requests = Ret entries /\ In r entries
      /\ open_under_name (SD.name p) r
      /\ SD.all_in_short_description r (Some (SD.hosts p)) = Ret true
      /\ getitem r "id" = Ret request_id
      /\ rq = SD.delete_request c request_id.
Proof.
  intros Htr Hm. cbv zeta.
  assert (Hmut : mutating rq = true) by (unfold mutating; now rewrite Hm).
  destruct (sd_writing_run remote p tr rq Htr Hmut)
    as [[rid [_ [Hrq _]]]
       | [rs [r [id [Hstate [Hfetch [Hfind [Hid [Hrq _]]]]]]]]].
  - subst rq. discriminate.
  - split; [exact Hstate|].
    apply find_request_some in Hfind
      as [entries [Hiter [Hin [Hopen [Hhosts _]]]]].
    exists rs, entries, r, id. auto 8.
Qed.

(** X16. With [patch_types] omitted the matcher never returns a ticket, so no
    run deletes one, whatever the desired state and the remote. *)
Theorem sd_omitted_patch_types_never_delete
  (remote : transport) (p : SD.params) :
  SD.patch_types p = None ->
  (forall requests r,
      SD.find_request (SD.name p) requests (SD.hosts p) None
      <> Ret (Some r))
  /\ forall rq, In rq (snd (execute (SD.run_module remote p))) ->
                method rq <> DELETE.
Proof.
  intros Hnone.
  assert (Hnever : forall requests r,
             SD.find_request (SD.name p) requests (SD.hosts p) None
             <> Ret (Some r)).
  { intros requests r H.
    apply find_request_some in H as [_ [_ [_ [_ [_ H]]]]]. discriminate. }
  split; [exact Hnever|].
  intros rq Hin Hm.
  destruct (sd_run_cases remote p)
    as [[o [gets [Hrun [Hgets _]]]]
       | [[rs [rq' [u [rid [_ [_ [_ [_ [_ [_ Hrun]]]]]]]]]]
         | [rs [r [id [_ [_ [Hfind _]]]]]]]].
  - rewrite Hrun in Hin. cbn [snd] in Hin.
    destruct Hin as [<- | Hin]; [discriminate|].
    apply (not_mutating_in gets rq Hgets) in Hin.
    unfold mutating in Hin. now rewrite Hm in Hin.
  - cbv zeta in Hrun. rewrite Hrun in Hin. cbn [snd] in Hin.
    destruct Hin as [<- | [<- | [<- | []]]]; discriminate.
  - rewrite Hnone in Hfind. now apply Hnever in Hfind.
Qed.

Lemma sd_deletes_only_matching_open_ticket_witness :
  let remote := sd_remote sample_requests JNull (deleted_answer "success") in
  let c := SD.connection sd_absent_params in
  SD.state sd_absent_params = "absent"
  /\ exists requests entries r request_id,
      fst (SD.get_api_objects remote c "requests" []) = Ret requests
      /\ iter requests = Ret entries /\ In r entries
      /\ open_under_name "Request created by Ansible" r
      /\ SD.all_in_short_description r (Some ["web1"; "web2"]) = Ret true
      /\ getitem r "id" = Ret request_id
      /\ SD.delete_request c (JStr "12") = SD.delete_request c request_id.
Proof.
  exact (sd_deletes_only_matching_open_ticket
           (sd_remote sample_requests JNull (deleted_answer "success"))
           sd_absent_params
           [SD.objects_request (SD.connection sd_absent_params) "requests"]
           (SD.delete_request (SD.connection sd_absent_params) (JStr "12"))
           eq_refl eq_refl).
Defined.

Lemma sd_omitted_patch_types_never_delete_witness :
  let p := sd_params None "absent" in
  (forall requests r,
      SD.find_request (SD.name p) requests (SD.hosts p) None
      <> Ret (Some r))
  /\ forall rq,
      In rq (snd (execute (SD.run_module
                             (sd_remote sample_requests JNull
                                (deleted_answer "success")) p))) ->
      method rq <> DELETE.
Proof.
  exact (sd_omitted_patch_types_never_delete
           (sd_remote sample_requests JNull (deleted_answer "success"))
           (sd_params None "absent") eq_refl).
Defined.

(** X17. When the ticket has to be created and the requester cannot be
    resolved, no ticket is posted: a user search that raises (status other
    than 200 or 201, no "users" key, an empty result list) ends the run
    with the failure of [get_user_by_username]; a first result without a
    readable id ends it with the failure of [run_module].  The trace is the
    two GET calls. *)
Theorem sd_unresolved_requester_stops_before_post
  (remote : transport) (p : SD.params) (requests : json)
  (request : option json) :
  SD.state p = "present" ->
  fst (SD.get_api_objects remote (SD.connection p) "requests" [])
  = Ret requests ->
  SD.find_request (SD.name p) requests (SD.hosts p) (SD.patch_types p)
  = Ret request ->
  SD.found request = false ->
  let c := SD.connection p in
  let calls := [SD.objects_request c "requests";
                SD.users_request c "sv-automation"] in
  (forall e,
      user_found remote c "sv-automation" = Raise e ->
      execute (SD.run_module remote p) = (Exited (user_failure e), calls))
  /\ (forall user e,
        user_found remote c "sv-automation" = Ret user ->
        (id <- getitem user "id" ;; int id)%res = Raise e ->
        execute (SD.run_module remote p)
        = (Exited (mkOutcome false true
                     (MsgExn "failed to create request: " e)), calls)).
Proof.
  intros Hstate Hfetch Hfind Hfound. cbv zeta.
  rewrite sd_run_unfolded. cbv zeta.
  rewrite Hfetch, Hfind, Hstate, Hfound. cbn [String.eqb Ascii.eqb Bool.eqb].
  rewrite create_tms_request_run. split.
  - intros e He. now rewrite He.
  - intros user e Hu He. now rewrite Hu, He.
Qed.

(** A remote whose user search finds nobody. *)
Definition sd_remote_no_user : transport :=
  canned [(GET, "requests", ok (JObj [("requests", JArr [])]));
          (GET, "users", ok (JObj [("users", JArr [])]));
          (POST, "requests", mkResponse 201 (Some JNull))].

Lemma sd_unresolved_requester_stops_before_post_witness :
  let p := sd_params None "present" in
  execute (SD.run_module sd_remote_no_user p)
  = (Exited (user_failure IndexError),
     [SD.objects_request (SD.connection p) "requests";
      SD.users_request (SD.connection p) "sv-automation"]).
Proof.
  exact (proj1 (sd_unresolved_requester_stops_before_post sd_remote_no_user
                  (sd_params None "present") (JArr []) None
                  eq_refl eq_refl eq_refl eq_refl)
           IndexError eq_refl).
Defined.

(** X18. A write answered with a status other than 200 and 201 ends the run
    failed and unchanged, with the status in the message, although the
    POST or DELETE was sent. *)
Theorem sd_write_not_ok_fails
  (remote : transport) (p : SD.params) (tr : trace) (rq : http_request) :
  snd (execute (SD.run_module remote p)) = tr ++ [rq] ->
  mutating rq = true ->
  status_code (remote rq) <> 200 -> status_code (remote rq) <> 201 ->
  fst (execute (SD.run_module remote p))
  = Exited (mkOutcome false true
              (MsgExn "failed to create request: "
                 (HTTPFailure (status_code (remote rq))))).
Proof.
  intros Htr Hm H200 H201.
  assert (Hok : SD.ok_status (status_code (remote rq)) = false).
  { unfold SD.ok_status. apply orb_false_iff. split; now apply Z.eqb_neq. }
  destruct (sd_writing_run remote p tr rq Htr Hm)
    as [[rid [_ [_ [_ Hrun]]]]
       | [rs [r [id [_ [_ [_ [_ [_ [_ Hrun]]]]]]]]]];
    rewrite Hrun.
  - unfold ticket_posted. now rewrite Hok.
  - unfold ticket_deleted. now rewrite Hok.
Qed.

(** A remote that refuses the delete. *)
Definition sd_remote_forbidden : transport :=
  canned [(GET, "requests", ok (JObj [("requests", JArr sample_requests)]));
          (DELETE, "requests/",
           mkResponse 403 (Some (deleted_answer "success")))].

Lemma sd_write_not_ok_fails_witness :
  fst (execute (SD.run_module sd_remote_forbidden sd_absent_params))
  = Exited (mkOutcome false true
              (MsgExn "failed to create request: " (HTTPFailure 403))).
Proof.
  refine (sd_write_not_ok_fails sd_remote_forbidden sd_absent_params
            [SD.objects_request (SD.connection sd_absent_params) "requests"]
            (SD.delete_request (SD.connection sd_absent_params) (JStr "12"))
            eq_refl eq_refl _ _); discriminate.
Defined.

(** X19. changed=true is reported only for a write that was sent and answered
    well: in state present, the POST answered 200 or 201 with a ticket
    under "request" whose status is not "error"; in state absent, the
    DELETE answered 200 or 201 with [response_status.status] equal to
    "success".  The message is then the ticket, or the answer to the
    delete. *)
Theorem sd_changed_means_written
  (remote : transport) (p : SD.params) (o : outcome) (tr : trace) :
  execute (SD.run_module remote p) = (Exited o, tr) ->
  changed o = true ->
  exists gets rq resp,
    tr = gets ++ [rq] /\ existsb mutating gets = false
    /\ o = mkOutcome true false (MsgJson resp)
    /\ ((SD.state p = "present" /\ method rq = POST
         /\ ticket_posted remote rq = Ret resp
         /\ exists status, getitem resp "status" = Ret status
                           /\ eq_str status "error" = false)
        \/ (SD.state p = "absent" /\ method rq = DELETE
            /\ ticket_deleted remote rq = Ret resp
            /\ exists response_status status,
                getitem resp "response_status" = Ret response_status
                /\ getitem response_status "status" = Ret status
                /\ eq_str status "success" = true)).
Proof.
  intros Hexec Hchanged.
  destruct (sd_run_cases remote p)
    as [[o' [gets [Hrun [_ Hc]]]]
       | [[rs [rq' [u [rid [Hstate [_ [_ [_ [_ [_ Hrun]]]]]]]]]]
         | [rs [r [id [Hstate [_ [_ [_ Hrun]]]]]]]]].
  - rewrite Hexec in Hrun. injection Hrun as <- _. congruence.
  - cbv zeta in Hrun. rewrite Hexec in Hrun. injection Hrun as Ho Htr.
    destruct (created_outcome "failed to create request: " _
                (no_exit_ticket_posted remote
                   (SD.create_request (SD.connection p) (SD.name p)
                      (SD.deployment_policy_name p) (SD.hosts p)
                      (SD.patch_types p) rid))) as [_ Hc].
    cbv zeta in Hc. subst o.
    destruct (Hc Hchanged) as [resp [status [Hposted [Hs [He Hout]]]]].
    eexists [_; _], _, resp. split; [exact Htr|].
    split; [reflexivity|]. split; [exact Hout|]. left. eauto 8.
  - cbv zeta in Hrun. rewrite Hexec in Hrun. injection Hrun as Ho Htr.
    destruct (deleted_result "failed to create request: " _
                (no_exit_ticket_deleted remote
                   (SD.delete_request (SD.connection p) id))) as [_ Hc].
    cbv zeta in Hc. subst o.
    destruct (Hc Hchanged)
      as [resp [rstat [status [Hdel [Hrs [Hs [He Hout]]]]]]].
    eexists [_], _, resp. split; [exact Htr|].
    split; [reflexivity|]. split; [exact Hout|]. right. eauto 8.
Qed.

Lemma sd_changed_means_written_witness :
  let remote := sd_remote sample_requests JNull (deleted_answer "success") in
  let c := SD.connection sd_absent_params in
  let o := mkOutcome true false (MsgJson (deleted_answer "success")) in
  exists gets rq resp,
    [SD.objects_request c "requests"; SD.delete_request c (JStr "12")]
    = gets ++ [rq]
    /\ existsb mutating gets = false
    /\ o = mkOutcome true false (MsgJson resp)
    /\ ((SD.state sd_absent_params = "present" /\ method rq = POST
         /\ ticket_posted remote rq = Ret resp
         /\ exists status, getitem resp "status" = Ret status
                           /\ eq_str status "error" = false)
        \/ (SD.state sd_absent_params = "absent" /\ method rq = DELETE
            /\ ticket_deleted remote rq = Ret resp
            /\ exists response_status status,
                getitem resp "response_status" = Ret response_status
                /\ getitem response_status "status" = Ret status
                /\ eq_str status "success" = true)).
Proof.
  exact (sd_changed_means_written
           (sd_remote sample_requests JNull (deleted_answer "success"))
           sd_absent_params
           (mkOutcome true false (MsgJson (deleted_answer "success")))
           [SD.objects_request (SD.connection sd_absent_params) "requests";
            SD.delete_request (SD.connection sd_absent_params) (JStr "12")]
           eq_refl eq_refl).
Defined.

(** ** The matchers stop at the first entry that matches or raises *)

Lemma anyM_first {A} (cond : A -> res bool) (pre post : list A) (x : A) :
  (forall y, In y pre -> cond y = Ret false) ->
  anyM cond (pre ++ x :: post) =
  rbind (cond x) (fun b => if b then Ret true else anyM cond post).
Proof.
  induction pre as [|y pre IH]; intros Hpre; simpl; [reflexivity|].
  rewrite (Hpre y (or_introl eq_refl)). simpl.
  apply IH. intros z Hz. apply Hpre. now right.
Qed.

Lemma config_matches_undesired (config_name : string) (hosts : list string)
  (config : json) :
  config_wf config = true ->
  ~ config_is_desired config_name hosts config ->
  EC.config_matches config_name hosts config = Ret false.
Proof.
  intros Hwf Hno.
  destruct (config_matches_evaluates config_name hosts config Hwf) as [b Hb].
  destruct b; [|exact Hb]. now apply config_matches_true_iff in Hb.
Qed.

(** X2. The config matcher reads the collection up to the first entry that is
    the desired one, or that it cannot read: behind a desired config the
    rest of the list is never looked at, whatever it holds; an unreadable
    entry ahead of every desired one fails the check, whatever follows. *)
Theorem config_check_stops_at_first_match_or_error
  (config_name : string) (hosts : list string)
  (pre : list json) (x : json) (post : list json) :
  forallb config_wf pre = true ->
  (forall y, In y pre -> ~ config_is_desired config_name hosts y) ->
  (config_is_desired config_name hosts x ->
   EC.check_if_config_exists config_name (JArr (pre ++ x :: post)) hosts
   = Ret true)
  /\ (forall e,
        EC.config_matches config_name hosts x = Raise e ->
        EC.check_if_config_exists config_name (JArr (pre ++ x :: post)) hosts
        = SysExit (mkOutcome false true
                     (MsgExn "Failed to check existing configs " e))).
Proof.
  intros Hwf Hno.
  assert (Hpre : forall y, In y pre ->
                           EC.config_matches config_name hosts y = Ret false).
  { intros y Hy. apply config_matches_undesired; [|now apply Hno].
    exact (forallb_In _ _ _ Hwf Hy). }
  unfold EC.check_if_config_exists. simpl. rewrite (anyM_first _ _ _ _ Hpre).
  split.
  - intros Hx. apply config_matches_true_iff in Hx. now rewrite Hx.
  - intros e He. now rewrite He.
Qed.

Lemma config_check_stops_at_first_match_or_error_witness :
  EC.check_if_config_exists "Ansible patch configuration"
    (JArr (sample_configs ++ [JNull; JStr "not a config"])) ["web1"; "web2"]
  = Ret true
  /\ EC.check_if_config_exists "Ansible patch configuration"
       (JArr (firstn 1 sample_configs
              ++ JObj [("collection_name", JStr "Ansible patch configuration")]
              :: skipn 1 sample_configs))
       ["web1"; "web2"]
     = SysExit (mkOutcome false true
                  (MsgExn "Failed to check existing configs "
                     (KeyError "is_collection_deleted"))).
Proof.
  split.
  - refine (proj1 (config_check_stops_at_first_match_or_error
                     "Ansible patch configuration" ["web1"; "web2"]
                     (firstn 1 sample_configs)
                     (JObj [("collection_name",
                             JStr "Ansible patch configuration 7");
                            ("is_collection_deleted", JBool false);
                            ("total_target_count", JNum 2);
                            ("status_label",
                             JStr "dc.db.config.status.in_progress")])
                     [JNull; JStr "not a config"] eq_refl _) _).
    + intros y [<- | []] H. apply config_matches_true_iff in H.
      discriminate H.
    + apply config_matches_true_iff. reflexivity.
  - refine (proj2 (config_check_stops_at_first_match_or_error
                     "Ansible patch configuration" ["web1"; "web2"]
                     (firstn 1 sample_configs)
                     (JObj [("collection_name",
                             JStr "Ansible patch configuration")])
                     (skipn 1 sample_configs) eq_refl _) _ eq_refl).
    intros y [<- | []] H. apply config_matches_true_iff in H.
    discriminate H.
Defined.

(** X20. The ticket matcher likewise: the first matching ticket is returned
    whatever follows it in the collection. *)
Theorem find_request_ignores_what_follows
  (request_name : string) (hosts patch_types : list string)
  (pre : list json) (r : json) (post : list json) :
  forallb request_wf pre = true ->
  (forall y, In y pre -> ~ ticket_matches request_name hosts patch_types y) ->
  request_wf r = true ->
  ticket_matches request_name hosts patch_types r ->
  SD.find_request request_name (JArr (pre ++ r :: post)) hosts
    (Some patch_types)
  = Ret (Some r).
Proof.
  intros Hwf Hno Hr Hmatch. unfold SD.find_request. simpl.
  rewrite nextM_first.
  - rewrite (request_matches_listed _ _ _ _ Hr).
    apply ticket_matches_spec in Hmatch. now rewrite Hmatch.
  - intros y Hy.
    rewrite (request_matches_listed _ _ _ _ (forallb_In _ _ _ Hwf Hy)).
    f_equal. apply not_true_is_false. intros Hb.
    now apply (Hno y Hy), ticket_matches_spec.
Qed.

Lemma find_request_ignores_what_follows_witness :
  SD.find_request "Request created by Ansible"
    (JArr (firstn 2 sample_requests ++ [JNull; JNum 7]))
    ["web1"; "web2"] (Some ["Cumulative Update"])
  = Ret (nth_error sample_requests 1).
Proof.
  refine (find_request_ignores_what_follows "Request created by Ansible"
            ["web1"; "web2"] ["Cumulative Update"]
            (firstn 1 sample_requests)
            (JObj [("id", JStr "12");
                   ("subject", JStr "Request created by Ansible");
                   ("status", JObj [("name", JStr "Open")]);
                   ("short_description",
                    JStr "['Cumulative Update'] updates for : ['web1', 'web2']")])
            [JNull; JNum 7] eq_refl _ eq_refl _).
  - intros y [<- | []] H. apply ticket_matches_spec in H. discriminate H.
  - apply ticket_matches_spec. reflexivity.
Defined.

(** ** The base URL *)

(** X21. The base URL the modules call: a given URL that contains "http"
    anywhere is used as it is, also when the match is inside the host name;
    any other gets "https://" in front.  The result always contains
    "http", so normalising it again changes nothing. *)
Theorem base_url_normalised (u : string) (port : Z) (key : string)
  (name desc policy state : string) (hosts patch_types : list string) :
  let c := EC.connection
             (EC.mkParams key u port name desc policy hosts patch_types
                state) in
  contains (EC.url c) "http" = true
  /\ (contains u "http" = true -> EC.url c = u)
  /\ (contains u "http" = false -> EC.url c = ("https://" ++ u)%string)
  /\ EC.connection
       (EC.mkParams key (EC.url c) port name desc policy hosts patch_types
          state) = c
  /\ SD.url (SD.connection
               (SD.mkParams key u port name (Some policy) hosts
                  (Some patch_types) state))
     = EC.url c.
Proof.
  cbv zeta. unfold EC.connection, SD.connection. simpl.
  destruct (contains u "http") eqn:Hu.
  - rewrite Hu. repeat split; auto; discriminate.
  - repeat split; auto; discriminate.
Qed.

Lemma base_url_normalised_witness :
  EC.url (EC.connection
            (EC.mkParams "k" "intranet-http.example.org" 8383 "n" "d" "p"
               [] [] "present"))
  = "intranet-http.example.org"
  /\ EC.url (EC.connection ec_params) = "https://patch.example.org".
Proof.
  split.
  - exact (proj1 (proj2 (base_url_normalised "intranet-http.example.org"
                           8383 "k" "n" "d" "p" "present" [] []))
             eq_refl).
  - exact (proj1 (proj2 (proj2 (base_url_normalised "patch.example.org" 8383
                                  "7A69CA52" "Ansible patch configuration"
                                  "Install select patches to devices"
                                  "Update Servers" "present"
                                  ["web1"; "web2"]
                                  ["Cumulative Update for Windows Server"])))
             eq_refl).
Defined.
